(** * EDmyner: the journal-following and event-projection engine

    A shallow embedding of the log reader of the ED Mining Suite and of the
    store it writes to, followed by the properties of the engine that the
    specification states.

    Source files embedded here (one [Module] per file):
    - [core/core_database.py]        -> [CoreDatabase]
    - [services/service_gamelog.py]  -> [ServiceGamelog]
    - [ed_log_reader.py]             -> [EdLogReader]
    - [journal_reader.py]            -> [JournalReaderPy]
    - [ed_mining_scanner.py]         -> [EdMiningScanner] (the DatabaseReader)
    - [start.py], [windows/win_mining.py] -> [Launcher] ([is_running])

    Modelling conventions.
    - Python objects that flow through the handlers (the result of
      [json.loads], values read back from SQLite) are values of [Py.value];
      an operation that raises in Python returns [Raise e] here.
    - A Python [str] is a [string] of bytes.  [str.lower] and [str.strip]
      act on the ASCII letters and the ASCII white space only.
    - A Python [float] is a binary64 [float] of the kernel, so the products
      the handlers compute are the ones CPython computes.
    - SQLite rows hold [cell]s.  The singleton tables are maps from column
      name to cell, because [update_*] builds its SET list from arbitrary
      keyword names.  Column affinity (an INTEGER stored in a REAL column
      reads back as a REAL of the same value) is not modelled.
    - A statement either fails without touching the store or succeeds and is
      committed; disk and locking failures are only modelled where a
      property is about them (the [connection] a reader process holds).
    - [logger] calls do not touch the store and are left out, except where
      formatting the message can raise before a later write. *)

From Stdlib Require Import ZArith Floats Ascii.
From stdpp Require Import base option list gmap strings sorting.

Set Warnings "-inexact-float,-register-all".

Local Open Scope string_scope.
Local Open Scope Z_scope.

(** ** Python values and the operations the handlers apply to them *)

Module Py.

(** What [json.loads] returns, and what [dict(row)] holds. *)
Inductive value :=
| PyNone
| PyBool (b : bool)
| PyInt (z : Z)
| PyFloat (f : float)
| PyStr (s : string)
| PyList (l : list value)
| PyDict (d : list (string * value)).

(** The exception classes that occur; all derive from [Exception].
    [SqliteError] stands for [sqlite3.Error] and its subclasses. *)
Inductive exn :=
| AttributeError | TypeError | ValueError | KeyError | OverflowError
| SqliteError | OSError | FileNotFoundError.

Inductive res (A : Type) :=
| Ok (a : A)
| Raise (e : exn).
Arguments Ok {A} a.
Arguments Raise {A} e.

#[global] Instance res_ret : MRet res := @Ok.
#[global] Instance res_bind : MBind res :=
  fun A B f r => match r with Ok a => f a | Raise e => Raise e end.

(** *** Strings *)

Definition lower_ascii (c : ascii) : ascii :=
  let n := N_of_ascii c in
  if ((65 <=? n) && (n <=? 90))%N then ascii_of_N (n + 32) else c.

Fixpoint lower_string (s : string) : string :=
  match s with
  | EmptyString => EmptyString
  | String c s' => String (lower_ascii c) (lower_string s')
  end.

(** [needle in hay] on two strings. *)
Fixpoint is_substring (needle hay : string) : bool :=
  if String.prefix needle hay then true
  else match hay with
       | EmptyString => false
       | String _ hay' => is_substring needle hay'
       end.

Definition startswith (s p : string) : bool := String.prefix p s.

Definition endswith (s p : string) : bool :=
  String.prefix (String.rev p) (String.rev s).

(** [s.replace(old, new)] for a non-empty [old]: occurrences are replaced
    from the left and do not overlap.  [skip] counts the characters of a
    matched occurrence that are still to be dropped. *)
Fixpoint replace_go (old new : string) (skip : nat) (s : string) : string :=
  match s with
  | EmptyString => EmptyString
  | String c s' =>
      match skip with
      | S k => replace_go old new k s'
      | O =>
          if String.prefix old s
          then new +:+ replace_go old new (Nat.pred (String.length old)) s'
          else String c (replace_go old new O s')
      end
  end.

Definition replace (old new s : string) : string := replace_go old new O s.

(** The ASCII characters [str.strip] removes: tab, LF, VT, FF, CR, the four
    separators 28..31 and the space. *)
Definition is_space (c : ascii) : bool :=
  let n := N_of_ascii c in
  (((9 <=? n) && (n <=? 13)) || ((28 <=? n) && (n <=? 32)))%N.

Fixpoint lstrip (s : string) : string :=
  match s with
  | EmptyString => EmptyString
  | String c s' => if is_space c then lstrip s' else s
  end.

Definition strip (s : string) : string :=
  String.rev (lstrip (String.rev (lstrip s))).

Fixpoint repeat_string (s : string) (n : nat) : string :=
  match n with
  | O => EmptyString
  | S k => s +:+ repeat_string s k
  end.

(** *** Dictionaries *)

Fixpoint assoc (k : string) (d : list (string * value)) : option value :=
  match d with
  | [] => None
  | (k', v) :: d' => if String.eqb k k' then Some v else assoc k d'
  end.

(** [obj.get(k, default)]: only a dict has [get]. *)
Definition get (obj : value) (k : string) (dflt : value) : res value :=
  match obj with
  | PyDict d => Ok (default dflt (assoc k d))
  | _ => Raise AttributeError
  end.

(** [bool(v)] *)
Definition truthy (v : value) : bool :=
  match v with
  | PyNone => false
  | PyBool b => b
  | PyInt z => negb (z =? 0)%Z
  | PyFloat f => negb (PrimFloat.eqb f 0)
  | PyStr s => negb (String.eqb s EmptyString)
  | PyList l => match l with [] => false | _ => true end
  | PyDict d => match d with [] => false | _ => true end
  end.

(** [needle in hay] for a string [needle]: substring of a str, element of a
    list, key of a dict; the other values are not containers. *)
Definition contains (needle : string) (hay : value) : res bool :=
  match hay with
  | PyStr s => Ok (is_substring needle s)
  | PyList l =>
      Ok (existsb (fun v => match v with
                            | PyStr t => String.eqb needle t
                            | _ => false
                            end) l)
  | PyDict d => Ok (existsb (fun kv => String.eqb needle (fst kv)) d)
  | _ => Raise TypeError
  end.

Fixpoint chars (s : string) : list value :=
  match s with
  | EmptyString => []
  | String c s' => PyStr (String c EmptyString) :: chars s'
  end.

(** [for x in v]: the elements of a list, the characters of a str, the keys
    of a dict. *)
Definition iter (v : value) : res (list value) :=
  match v with
  | PyList l => Ok l
  | PyStr s => Ok (chars s)
  | PyDict d => Ok (map (fun kv => PyStr (fst kv)) d)
  | _ => Raise TypeError
  end.

(** [v.lower()], [v.replace(old, new)], [v.endswith(p)]: methods of str. *)
Definition lower (v : value) : res string :=
  match v with PyStr s => Ok (lower_string s) | _ => Raise AttributeError end.

Definition str_replace (v : value) (old new : string) : res value :=
  match v with
  | PyStr s => Ok (PyStr (replace old new s))
  | _ => Raise AttributeError
  end.

Definition str_endswith (v : value) (p : string) : res bool :=
  match v with PyStr s => Ok (endswith s p) | _ => Raise AttributeError end.

(** *** Numbers *)

(** [int], [bool] (a subclass of [int]) and [float] are the numbers. *)
Inductive num :=
| NInt (z : Z)
| NFloat (f : float).

Definition as_num (v : value) : option num :=
  match v with
  | PyInt z => Some (NInt z)
  | PyBool b => Some (NInt (Z.b2z b))
  | PyFloat f => Some (NFloat f)
  | _ => None
  end.

(** [float(z)] for an int: rounded to the nearest binary64, ties to even;
    an int beyond the range of binary64 raises OverflowError. *)
Definition float_of_int (z : Z) : res float :=
  match SpecFloat.binary_normalize FloatOps.prec FloatOps.emax z 0 false with
  | SpecFloat.S754_infinity _ => Raise OverflowError
  | sf => Ok (FloatOps.SF2Prim sf)
  end.

(** [a + b] and [a - b] on numbers: an int meets a float as a float. *)
Definition arith (opz : Z -> Z -> Z) (opf : float -> float -> float)
    (a b : value) : res value :=
  match as_num a, as_num b with
  | Some (NInt x), Some (NInt y) => Ok (PyInt (opz x y))
  | Some (NFloat x), Some (NFloat y) => Ok (PyFloat (opf x y))
  | Some (NInt x), Some (NFloat y) =>
      fx ← float_of_int x; Ok (PyFloat (opf fx y))
  | Some (NFloat x), Some (NInt y) =>
      fy ← float_of_int y; Ok (PyFloat (opf x fy))
  | _, _ => Raise TypeError
  end.

(** [a + b]: also concatenates two strs or two lists. *)
Definition add (a b : value) : res value :=
  match a, b with
  | PyStr s, PyStr t => Ok (PyStr (s +:+ t))
  | PyList l, PyList m => Ok (PyList (l ++ m))
  | _, _ => arith Z.add PrimFloat.add a b
  end.

Definition sub (a b : value) : res value := arith Z.sub PrimFloat.sub a b.

(** [v * n] for a non-negative int literal [n]: a product of numbers, or
    [n] copies of a str or of a list. *)
Definition mul_int (v : value) (n : Z) : res value :=
  match v with
  | PyStr s => Ok (PyStr (repeat_string s (Z.to_nat n)))
  | PyList l => Ok (PyList (concat (replicate (Z.to_nat n) l)))
  | _ =>
      match as_num v with
      | Some (NInt x) => Ok (PyInt (x * n))
      | Some (NFloat x) => fn ← float_of_int n; Ok (PyFloat (PrimFloat.mul x fn))
      | None => Raise TypeError
      end
  end.

(** [v > 0] and [v == 0] against the int literal 0. *)
Definition gt0 (v : value) : res bool :=
  match as_num v with
  | Some (NInt x) => Ok (0 <? x)%Z
  | Some (NFloat x) => Ok (PrimFloat.ltb 0 x)
  | None => Raise TypeError
  end.

Definition eq0 (v : value) : bool :=
  match as_num v with
  | Some (NInt x) => (x =? 0)%Z
  | Some (NFloat x) => PrimFloat.eqb x 0
  | None => false
  end.

(** Formatting a value with the spec [.1f] inside an f-string: numbers
    format (an int through [float], which may overflow), a str raises
    ValueError, anything else TypeError. *)
Definition format_number (v : value) : res unit :=
  match v with
  | PyStr _ => Raise ValueError
  | _ =>
      match as_num v with
      | Some (NInt x) => _ ← float_of_int x; Ok tt
      | Some (NFloat _) => Ok tt
      | None => Raise TypeError
      end
  end.

(** [int(v)]: a bool or an int as it is, a float truncated towards zero, a
    str parsed as a decimal literal (sign, digits, single underscores
    between digits, surrounding white space). *)
Definition digit_of (c : ascii) : option Z :=
  let n := N_of_ascii c in
  if ((48 <=? n) && (n <=? 57))%N then Some (Z.of_N n - 48) else None.

Fixpoint parse_digits (acc : Z) (after_digit : bool) (s : string) : option Z :=
  match s with
  | EmptyString => if after_digit then Some acc else None
  | String c s' =>
      match digit_of c with
      | Some d => parse_digits (10 * acc + d) true s'
      | None =>
          if Ascii.eqb c "_" && after_digit then parse_digits acc false s'
          else None
      end
  end.

Definition parse_int (s : string) : option Z :=
  match strip s with
  | String "+" r => parse_digits 0 false r
  | String "-" r => Z.opp <$> parse_digits 0 false r
  | r => parse_digits 0 false r
  end.

Definition trunc_float (f : float) : res Z :=
  match FloatOps.Prim2SF f with
  | SpecFloat.S754_nan => Raise ValueError
  | SpecFloat.S754_infinity _ => Raise OverflowError
  | SpecFloat.S754_zero _ => Ok 0
  | SpecFloat.S754_finite sign m e =>
      let a := if (0 <=? e)%Z then Z.pos m * 2 ^ e else Z.pos m / 2 ^ (- e) in
      Ok (if sign then - a else a)
  end.

Definition int_of (v : value) : res Z :=
  match v with
  | PyBool b => Ok (Z.b2z b)
  | PyInt z => Ok z
  | PyFloat f => trunc_float f
  | PyStr s => match parse_int s with Some z => Ok z | None => Raise ValueError end
  | _ => Raise TypeError
  end.


(** [obj[k]] for a string key: only a dict is indexed by a str. *)
Definition getitem (obj : value) (k : string) : res value :=
  match obj with
  | PyDict d => match assoc k d with Some v => Ok v | None => Raise KeyError end
  | _ => Raise TypeError
  end.

End Py.

(** ** SQLite storage classes and parameter binding *)

Module Sqlite.
Import Py.

Inductive cell :=
| NULL
| INTEGER (z : Z)
| REAL (f : float)
| TEXT (s : string).

(** Binding a Python object as a statement parameter.  [None] is NULL, a
    bool is an INTEGER, an int must fit 64 bits (else OverflowError), a NaN
    is stored as NULL; a list or a dict is not a supported type, which is an
    [sqlite3.Error]. *)
Definition bind (v : value) : res cell :=
  match v with
  | PyNone => Ok NULL
  | PyBool b => Ok (INTEGER (Z.b2z b))
  | PyInt z =>
      if ((- 2 ^ 63 <=? z) && (z <? 2 ^ 63))%Z then Ok (INTEGER z)
      else Raise OverflowError
  | PyFloat f => Ok (if PrimFloat.is_nan f then NULL else REAL f)
  | PyStr s => Ok (TEXT s)
  | PyList _ | PyDict _ => Raise SqliteError
  end.

(** The Python object a cell reads back as. *)
Definition to_python (c : cell) : value :=
  match c with
  | NULL => PyNone
  | INTEGER z => PyInt z
  | REAL f => PyFloat f
  | TEXT s => PyStr s
  end.

(** Equality of two cells as a UNIQUE index sees it; NULLs are distinct. *)
Definition cell_eqb (a b : cell) : bool :=
  match a, b with
  | INTEGER x, INTEGER y => (x =? y)%Z
  | REAL x, REAL y => PrimFloat.eqb x y
  | TEXT x, TEXT y => String.eqb x y
  | _, _ => false
  end.

(** [dict(row)] for a row kept as a map, with the columns in table order. *)
Definition dict_of_row (columns : list string) (r : gmap string cell) : value :=
  PyDict (omap (fun k => (fun c => (k, to_python c)) <$> r !! k) columns).

End Sqlite.

(** ** core/core_database.py: the store *)

Module CoreDatabase.
Import Py Sqlite.

(** *** Tables

    The append-only tables are lists of rows in insertion order.  The
    [timestamp] and [last_seen] columns only ever receive CURRENT_TIMESTAMP
    (a text [YYYY-MM-DD HH:MM:SS]) or nothing, the [processed] column only
    the integers 0 and 1; the other columns receive bound parameters. *)

Module Asteroid.
Record row := {
  id : Z;
  timestamp : option string;
  journal_timestamp : cell;
  material_name : cell;
  percentage : cell;
  is_motherlode : cell;
  content_level : cell;
  is_surface : cell;
  is_deepcore : cell;
  remaining : cell;
  processed : Z
}.
End Asteroid.

Module Refined.
Record row := {
  id : Z;
  timestamp : string;
  journal_timestamp : cell;
  material_name : cell;
  material_type : cell
}.
End Refined.

Module Carrier.
Record row := {
  id : Z;
  signal_name : cell;
  system_address : cell;
  system_name : cell;
  discovered_timestamp : cell;
  last_seen : string
}.
End Carrier.

Module Signal.
Record row := {
  id : Z;
  signal_name : cell;
  signal_type : cell;
  is_station : cell;
  system_address : cell;
  system_name : cell;
  journal_timestamp : cell;
  last_seen : string
}.
End Signal.

Module Chat.
Record row := {
  id : Z;
  journal_timestamp : cell;
  channel : cell;
  from_localised : cell;
  message_localised : cell;
  subtype : cell;
  last_seen : string
}.
End Chat.

(** What the process reads from its surroundings: the value SQLite gives
    CURRENT_TIMESTAMP, [datetime.utcnow().isoformat()] and [os.getpid()]. *)
Record Env := {
  CURRENT_TIMESTAMP : string;
  utcnow_isoformat : string;
  getpid : Z
}.

(** The database file.  The three singleton tables hold at most the row
    [id = 1] (their CHECK constraint), kept as a map from column to cell.
    [sqlite_sequence] is SQLite's table of AUTOINCREMENT counters. *)
Record Database := {
  env : Env;
  game_state : option (gmap string cell);
  ship_status : option (gmap string cell);
  service_status : option (gmap string cell);
  fleet_carriers : list Carrier.row;
  fss_signals : list Signal.row;
  prospected_asteroids : list Asteroid.row;
  refined_materials : list Refined.row;
  chat_messages : list Chat.row;
  sqlite_sequence : gmap string Z
}.

Definition set_env (e : Env) (db : Database) : Database :=
  {| env := e; game_state := game_state db; ship_status := ship_status db;
     service_status := service_status db; fleet_carriers := fleet_carriers db;
     fss_signals := fss_signals db;
     prospected_asteroids := prospected_asteroids db;
     refined_materials := refined_materials db;
     chat_messages := chat_messages db;
     sqlite_sequence := sqlite_sequence db |}.

Definition set_game_state (r : option (gmap string cell)) (db : Database)
    : Database :=
  {| env := env db; game_state := r; ship_status := ship_status db;
     service_status := service_status db; fleet_carriers := fleet_carriers db;
     fss_signals := fss_signals db;
     prospected_asteroids := prospected_asteroids db;
     refined_materials := refined_materials db;
     chat_messages := chat_messages db;
     sqlite_sequence := sqlite_sequence db |}.

Definition set_ship_status (r : option (gmap string cell)) (db : Database)
    : Database :=
  {| env := env db; game_state := game_state db; ship_status := r;
     service_status := service_status db; fleet_carriers := fleet_carriers db;
     fss_signals := fss_signals db;
     prospected_asteroids := prospected_asteroids db;
     refined_materials := refined_materials db;
     chat_messages := chat_messages db;
     sqlite_sequence := sqlite_sequence db |}.

Definition set_service_status (r : option (gmap string cell)) (db : Database)
    : Database :=
  {| env := env db; game_state := game_state db;
     ship_status := ship_status db; service_status := r;
     fleet_carriers := fleet_carriers db; fss_signals := fss_signals db;
     prospected_asteroids := prospected_asteroids db;
     refined_materials := refined_materials db;
     chat_messages := chat_messages db;
     sqlite_sequence := sqlite_sequence db |}.

Definition set_fleet_carriers (t : list Carrier.row) (seq : gmap string Z)
    (db : Database) : Database :=
  {| env := env db; game_state := game_state db;
     ship_status := ship_status db; service_status := service_status db;
     fleet_carriers := t; fss_signals := fss_signals db;
     prospected_asteroids := prospected_asteroids db;
     refined_materials := refined_materials db;
     chat_messages := chat_messages db; sqlite_sequence := seq |}.

Definition set_fss_signals (t : list Signal.row) (seq : gmap string Z)
    (db : Database) : Database :=
  {| env := env db; game_state := game_state db;
     ship_status := ship_status db; service_status := service_status db;
     fleet_carriers := fleet_carriers db; fss_signals := t;
     prospected_asteroids := prospected_asteroids db;
     refined_materials := refined_materials db;
     chat_messages := chat_messages db; sqlite_sequence := seq |}.

Definition set_prospected_asteroids (t : list Asteroid.row)
    (seq : gmap string Z) (db : Database) : Database :=
  {| env := env db; game_state := game_state db;
     ship_status := ship_status db; service_status := service_status db;
     fleet_carriers := fleet_carriers db; fss_signals := fss_signals db;
     prospected_asteroids := t;
     refined_materials := refined_materials db;
     chat_messages := chat_messages db; sqlite_sequence := seq |}.

Definition set_refined_materials (t : list Refined.row) (seq : gmap string Z)
    (db : Database) : Database :=
  {| env := env db; game_state := game_state db;
     ship_status := ship_status db; service_status := service_status db;
     fleet_carriers := fleet_carriers db; fss_signals := fss_signals db;
     prospected_asteroids := prospected_asteroids db;
     refined_materials := t;
     chat_messages := chat_messages db; sqlite_sequence := seq |}.

Definition set_chat_messages (t : list Chat.row) (seq : gmap string Z)
    (db : Database) : Database :=
  {| env := env db; game_state := game_state db;
     ship_status := ship_status db; service_status := service_status db;
     fleet_carriers := fleet_carriers db; fss_signals := fss_signals db;
     prospected_asteroids := prospected_asteroids db;
     refined_materials := refined_materials db;
     chat_messages := t; sqlite_sequence := seq |}.

(** *** Statements as state transformers that may raise

    A method of the manager takes the database to a result and the database
    it leaves behind: every statement is committed as soon as it succeeds,
    so what was written before an exception stays written. *)
Definition M (A : Type) : Type := Database -> res A * Database.

#[global] Instance M_ret : MRet M := fun A a db => (Ok a, db).
#[global] Instance M_bind : MBind M := fun A B f m db =>
  match m db with
  | (Ok a, db') => f a db'
  | (Raise e, db') => (Raise e, db')
  end.

Definition lift {A} (r : res A) : M A := fun db => (r, db).

Definition read {A} (f : Database -> A) : M A := fun db => (Ok (f db), db).

Definition write (f : Database -> Database) : M unit :=
  fun db => (Ok tt, f db).

(** [for x in l: body(x)] *)
Fixpoint for_each {A} (body : A -> M unit) (l : list A) : M unit :=
  match l with
  | [] => mret tt
  | x :: l' => _ ← body x; for_each body l'
  end.

(** [try: body except Exception: log]: the exception is swallowed, the
    writes made before it remain. *)
Definition try_except (body : M unit) (db : Database) : Database :=
  snd (body db).

(** AUTOINCREMENT: the next id of a table is one more than the largest the
    table ever held. *)
Definition next_id (table : string) (db : Database) : Z :=
  default 0 (sqlite_sequence db !! table) + 1.

(** *** [_create_tables]

    CREATE TABLE IF NOT EXISTS for every table, then INSERT OR IGNORE of the
    singleton rows with their column defaults. *)
Definition game_state_columns : list string :=
  ["id"; "commander_name"; "current_system"; "log_file_path"; "last_updated"].

Definition ship_status_columns : list string :=
  ["id"; "cargo_capacity"; "cargo_count"; "limpet_count";
   "commander_credits"; "last_updated"].

Definition service_status_columns : list string :=
  ["id"; "is_running"; "pid"; "last_heartbeat"; "journal_file";
   "scan_interval"].

Definition _create_tables (db : Database) : Database :=
  let now := TEXT (CURRENT_TIMESTAMP (env db)) in
  let gs : gmap string cell :=
    list_to_map [("id", INTEGER 1); ("commander_name", TEXT "Unknown");
                 ("current_system", TEXT "Unknown"); ("log_file_path", NULL);
                 ("last_updated", now)] in
  let ss : gmap string cell :=
    list_to_map [("id", INTEGER 1); ("cargo_capacity", INTEGER 0);
                 ("cargo_count", INTEGER 0); ("limpet_count", INTEGER 0);
                 ("commander_credits", INTEGER 0); ("last_updated", now)] in
  let sv : gmap string cell :=
    list_to_map [("id", INTEGER 1); ("is_running", INTEGER 0); ("pid", NULL);
                 ("last_heartbeat", now); ("journal_file", NULL);
                 ("scan_interval", REAL 0.5)] in
  set_service_status (Some (default sv (service_status db)))
    (set_ship_status (Some (default ss (ship_status db)))
       (set_game_state (Some (default gs (game_state db))) db)).

(** A database file that does not exist yet, and the one [DatabaseManager()]
    leaves after creating it. *)
Definition no_tables (e : Env) : Database :=
  {| env := e; game_state := None; ship_status := None;
     service_status := None; fleet_carriers := []; fss_signals := [];
     prospected_asteroids := []; refined_materials := [];
     chat_messages := []; sqlite_sequence := ∅ |}.

Definition fresh (e : Env) : Database := _create_tables (no_tables e).

(** *** UPDATE of a singleton table from keyword arguments

    [UPDATE t SET k1 = ?, ..., kn = ? <tail> WHERE id = 1] with the values of
    [kwargs] bound in order.  The statement is prepared first: with no keyword
    the SET list is malformed, and a keyword that is no column of the table
    is unknown; both are [sqlite3.Error]s.  Then the values are bound.  A
    table without the row is left as it is.  The row must still satisfy
    CHECK (id = 1). *)
Definition id_is_1 (r : gmap string cell) : bool :=
  match r !! "id" with
  | Some (INTEGER 1) => true
  | _ => false
  end.

Definition assign (r : gmap string cell) (kc : string * cell)
    : gmap string cell :=
  <[kc.1 := kc.2]> r.

Definition sql_update (columns : list string) (kwargs : list (string * value))
    (tail : list (string * cell)) (row : option (gmap string cell))
    : res (option (gmap string cell)) :=
  match kwargs with
  | [] => Raise SqliteError
  | _ =>
      if forallb (fun kv => bool_decide (kv.1 ∈ columns)) kwargs then
        params ← mapM (fun kv => c ← bind kv.2; Ok (kv.1, c)) kwargs;
        match row with
        | None => Ok None
        | Some r =>
            let r' := foldl assign r (params ++ tail) in
            if id_is_1 r' then Ok (Some r') else Raise SqliteError
        end
      else Raise SqliteError
  end.

(** *** Game state *)

(** [dict(row) if row else {}] *)
Definition get_game_state : M value :=
  read (fun db =>
    match game_state db with
    | Some r => dict_of_row game_state_columns r
    | None => PyDict []
    end).

(** [update_game_state], called with keyword arguments:
    UPDATE game_state SET {updates}, last_updated = CURRENT_TIMESTAMP
    WHERE id = 1 *)
Definition update_game_state (kwargs : list (string * value)) : M unit :=
  fun db =>
    let tail := [("last_updated", TEXT (CURRENT_TIMESTAMP (env db)))] in
    match sql_update game_state_columns kwargs tail (game_state db) with
    | Ok r => (Ok tt, set_game_state r db)
    | Raise e => (Raise e, db)
    end.

(** *** Ship status *)

Definition get_ship_status : M value :=
  read (fun db =>
    match ship_status db with
    | Some r => dict_of_row ship_status_columns r
    | None => PyDict []
    end).

(** [update_ship_status], called with keyword arguments:
    UPDATE ship_status SET {updates}, last_updated = CURRENT_TIMESTAMP
    WHERE id = 1 *)
Definition update_ship_status (kwargs : list (string * value)) : M unit :=
  fun db =>
    let tail := [("last_updated", TEXT (CURRENT_TIMESTAMP (env db)))] in
    match sql_update ship_status_columns kwargs tail (ship_status db) with
    | Ok r => (Ok tt, set_ship_status r db)
    | Raise e => (Raise e, db)
    end.

(** *** Service status *)

Definition get_service_status : M value :=
  read (fun db =>
    match service_status db with
    | Some r => dict_of_row service_status_columns r
    | None => PyDict []
    end).

(** [update_service_status], called with keyword arguments:
    UPDATE service_status SET {updates} WHERE id = 1 *)
Definition update_service_status (kwargs : list (string * value)) : M unit :=
  fun db =>
    match sql_update service_status_columns kwargs [] (service_status db) with
    | Ok r => (Ok tt, set_service_status r db)
    | Raise e => (Raise e, db)
    end.


(** *** Fleet carriers and FSS signals *)

(** [add_fleet_carrier]: INSERT OR REPLACE on the UNIQUE [signal_name]: a
    row with the same name is deleted and the new one appended under a new
    id. *)
Definition add_fleet_carrier
    (signal_name system_address system_name discovered_timestamp : value)
    : M unit :=
  c_name ← lift (bind signal_name);
  c_addr ← lift (bind system_address);
  c_sys ← lift (bind system_name);
  c_ts ← lift (bind discovered_timestamp);
  write (fun db =>
    let i := next_id "fleet_carriers" db in
    let kept :=
      filter (fun r => cell_eqb (Carrier.signal_name r) c_name = false)
             (fleet_carriers db) in
    set_fleet_carriers
      (kept ++ [{| Carrier.id := i; Carrier.signal_name := c_name;
                   Carrier.system_address := c_addr;
                   Carrier.system_name := c_sys;
                   Carrier.discovered_timestamp := c_ts;
                   Carrier.last_seen := CURRENT_TIMESTAMP (env db) |}])
      (<["fleet_carriers" := i]> (sqlite_sequence db)) db).

(** [add_fss_signal]: the parameter tuple holds [int(is_station)], which is
    evaluated before the statement runs. *)
Definition add_fss_signal
    (signal_name signal_type is_station system_address system_name
     journal_timestamp : value) : M unit :=
  station ← lift (int_of is_station);
  c_name ← lift (bind signal_name);
  c_type ← lift (bind signal_type);
  c_station ← lift (bind (PyInt station));
  c_addr ← lift (bind system_address);
  c_sys ← lift (bind system_name);
  c_ts ← lift (bind journal_timestamp);
  write (fun db =>
    let i := next_id "fss_signals" db in
    set_fss_signals
      (fss_signals db ++
       [{| Signal.id := i; Signal.signal_name := c_name;
           Signal.signal_type := c_type; Signal.is_station := c_station;
           Signal.system_address := c_addr; Signal.system_name := c_sys;
           Signal.journal_timestamp := c_ts;
           Signal.last_seen := CURRENT_TIMESTAMP (env db) |}])
      (<["fss_signals" := i]> (sqlite_sequence db)) db).

(** *** Prospected asteroids *)

(** The order of the [timestamp] column: NULL sorts before every text, and
    texts compare byte by byte. *)
Definition timestamp_le (a b : option string) : Prop :=
  match a, b with
  | None, _ => True
  | Some _, None => False
  | Some s, Some t => String.le s t
  end.

#[global] Instance timestamp_le_dec a b : Decision (timestamp_le a b).
Proof. destruct a, b; simpl; apply _. Defined.

#[global] Instance timestamp_le_trans : Transitive timestamp_le.
Proof.
  intros [a|] [b|] [c|]; simpl; try done. apply (transitivity (R := String.le)).
Qed.

#[global] Instance timestamp_le_total : Total timestamp_le.
Proof.
  intros [a|] [b|]; simpl; auto. apply (total String.le).
Qed.

(** ORDER BY timestamp DESC *)
Definition newest_first (x y : Asteroid.row) : Prop :=
  timestamp_le (Asteroid.timestamp y) (Asteroid.timestamp x).

#[global] Instance newest_first_dec x y : Decision (newest_first x y).
Proof. unfold newest_first. apply _. Defined.

#[global] Instance newest_first_trans : Transitive newest_first.
Proof.
  intros x y z Hxy Hyz. unfold newest_first in *.
  by apply (transitivity (R := timestamp_le)) with (Asteroid.timestamp y).
Qed.

#[global] Instance newest_first_total : Total newest_first.
Proof. intros x y. unfold newest_first. apply (total timestamp_le). Qed.

Definition unprocessed (r : Asteroid.row) : Prop := Asteroid.processed r = 0.

#[global] Instance unprocessed_dec r : Decision (unprocessed r).
Proof. unfold unprocessed. apply _. Defined.

(** [get_unprocessed_asteroids(limit)]:
    SELECT * FROM prospected_asteroids WHERE processed = 0
    ORDER BY timestamp DESC LIMIT ?
    A negative LIMIT is no limit.  SQLite does not promise an order among
    rows of equal timestamp; the sort used here keeps their table order. *)
Definition get_unprocessed_asteroids (limit : Z) : M (list Asteroid.row) :=
  _ ← lift (bind (PyInt limit));
  read (fun db =>
    let rows :=
      merge_sort newest_first (filter unprocessed (prospected_asteroids db)) in
    if limit <? 0 then rows else take (Z.to_nat limit) rows).

(** [mark_asteroid_processed(asteroid_id)]:
    UPDATE prospected_asteroids SET processed = 1 WHERE id = ? *)
Definition mark_processed (asteroid_id : Z) (r : Asteroid.row)
    : Asteroid.row :=
  if bool_decide (Asteroid.id r = asteroid_id) then
    {| Asteroid.id := Asteroid.id r;
       Asteroid.timestamp := Asteroid.timestamp r;
       Asteroid.journal_timestamp := Asteroid.journal_timestamp r;
       Asteroid.material_name := Asteroid.material_name r;
       Asteroid.percentage := Asteroid.percentage r;
       Asteroid.is_motherlode := Asteroid.is_motherlode r;
       Asteroid.content_level := Asteroid.content_level r;
       Asteroid.is_surface := Asteroid.is_surface r;
       Asteroid.is_deepcore := Asteroid.is_deepcore r;
       Asteroid.remaining := Asteroid.remaining r;
       Asteroid.processed := 1 |}
  else r.

Definition mark_asteroid_processed (asteroid_id : Z) : M unit :=
  _ ← lift (bind (PyInt asteroid_id));
  write (fun db =>
    set_prospected_asteroids
      (mark_processed asteroid_id <$> prospected_asteroids db)
      (sqlite_sequence db) db).

(** [clear_asteroids]: DELETE FROM prospected_asteroids *)
Definition clear_asteroids : M unit :=
  write (fun db => set_prospected_asteroids [] (sqlite_sequence db) db).

(** *** Chat messages *)

(** The if/elif chain of [add_chat_message] that derives the subtype, on
    the sender as received and the channel already in lower case. *)
Definition chat_subtype (from_loc channel : string) : string :=
  if is_substring "security" (lower_string from_loc)
     || is_substring "system defence" (lower_string from_loc) then "sec"
  else if is_substring "pirate" (lower_string from_loc)
          || is_substring "wing" (lower_string from_loc) then "pirate"
  else if String.eqb channel "system" || String.eqb channel "local"
       then "system"
  else if String.eqb channel "squadron" then "sq"
  else if String.eqb channel "friend" then "friends"
  else "other".

Definition add_chat_message (data : value) : M unit :=
  ch ← lift (get data "Channel" (PyStr "unknown"));
  channel ← lift (lower ch);
  from_loc ← lift (get data "From_Localised" (PyStr "Unknown"));
  msg_loc ← lift (get data "Message_Localised" (PyStr ""));
  ts ← lift (get data "timestamp" (PyStr ""));
  _ ← lift (lower msg_loc);
  sender ← lift (match from_loc with
                 | PyStr s => Ok s
                 | _ => Raise AttributeError
                 end);
  let subtype := chat_subtype sender channel in
  c_ts ← lift (bind ts);
  c_msg ← lift (bind msg_loc);
  write (fun db =>
    let i := next_id "chat_messages" db in
    set_chat_messages
      (chat_messages db ++
       [{| Chat.id := i; Chat.journal_timestamp := c_ts;
           Chat.channel := TEXT channel; Chat.from_localised := TEXT sender;
           Chat.message_localised := c_msg; Chat.subtype := TEXT subtype;
           Chat.last_seen := CURRENT_TIMESTAMP (env db) |}])
      (<["chat_messages" := i]> (sqlite_sequence db)) db).


(** The cell of a column of a singleton table, if the table has its row. *)
Definition column (table : option (gmap string cell)) (col : string)
    : option cell :=
  r ← table; r !! col.


(** *** Refined materials *)

(** [get_refined_materials_count(material_name=None)], with the name a str
    or [None] as its signature says: SELECT COUNT of the rows, or of the
    rows WHERE material_name = ? when the name is not empty. *)
Definition get_refined_materials_count (material_name : option string)
    : M Z :=
  match material_name with
  | Some (String c s) =>
      read (fun db =>
        Z.of_nat (length (List.filter
                            (fun r => cell_eqb (Refined.material_name r)
                                               (TEXT (String c s)))
                            (refined_materials db))))
  | _ => read (fun db => Z.of_nat (length (refined_materials db)))
  end.

(** [clear_refined_materials]: DELETE FROM refined_materials *)
Definition clear_refined_materials : M unit :=
  write (fun db => set_refined_materials [] (sqlite_sequence db) db).


(** *** Material configuration

    The table [material_config] is read and written by the windows and by
    nothing of the journal engine; it is kept beside [Database], as its rows
    in rowid order and its AUTOINCREMENT counter.  The parameters have the
    types of the signatures ([str], [float], [int], [bool]), so the column
    [material_name], which is UNIQUE, holds a text in every row. *)
Module Material.
Record row := {
  id : Z;
  material_name : string;
  min_percentage : cell;
  target_price : cell;
  track_surface : cell;
  track_deepcore : cell;
  enabled : cell
}.

Record table := {
  rows : list row;
  seq : Z
}.
End Material.

(** [dict(row)] of a row of [material_config]. *)
Definition material_config_dict (r : Material.row) : value :=
  PyDict [("id", PyInt (Material.id r));
          ("material_name", PyStr (Material.material_name r));
          ("min_percentage", to_python (Material.min_percentage r));
          ("target_price", to_python (Material.target_price r));
          ("track_surface", to_python (Material.track_surface r));
          ("track_deepcore", to_python (Material.track_deepcore r));
          ("enabled", to_python (Material.enabled r))].

(** ORDER BY material_name *)
Definition by_material_name (x y : Material.row) : Prop :=
  String.le (Material.material_name x) (Material.material_name y).

#[global] Instance by_material_name_dec : RelDecision by_material_name.
Proof. intros x y. unfold by_material_name. apply _. Defined.

(** [get_material_config(material_name=None)]: with a name that is not
    empty, the first row of
    SELECT * FROM material_config WHERE material_name = ?
    as a list of one dict, or the empty list; otherwise every row of
    SELECT * FROM material_config ORDER BY material_name *)
Definition get_material_config (material_name : option string)
    (t : Material.table) : list value :=
  match material_name with
  | Some (String c s) =>
      match filter (fun r => Material.material_name r = String c s)
                   (Material.rows t) with
      | r :: _ => [material_config_dict r]
      | [] => []
      end
  | _ => material_config_dict <$> merge_sort by_material_name (Material.rows t)
  end.

(** [save_material_config]: INSERT OR REPLACE on the UNIQUE
    [material_name]: a row with the same name is deleted and the new one
    appended under a new id.  The three flags are passed through [int]. *)
Definition save_material_config (material_name : string)
    (min_percentage : float) (target_price : Z)
    (track_surface track_deepcore enabled : bool) (t : Material.table)
    : res unit * Material.table :=
  match bind (PyFloat min_percentage), bind (PyInt target_price) with
  | Ok c_pct, Ok c_price =>
      let i := Material.seq t + 1 in
      let kept :=
        filter (fun r => Material.material_name r ≠ material_name)
               (Material.rows t) in
      (Ok (),
       {| Material.rows :=
            kept ++ [{| Material.id := i;
                        Material.material_name := material_name;
                        Material.min_percentage := c_pct;
                        Material.target_price := c_price;
                        Material.track_surface :=
                          INTEGER (Z.b2z track_surface);
                        Material.track_deepcore :=
                          INTEGER (Z.b2z track_deepcore);
                        Material.enabled := INTEGER (Z.b2z enabled) |}];
          Material.seq := i |})
  | Raise e, _ | _, Raise e => (Raise e, t)
  end.

(** [delete_material_config]:
    DELETE FROM material_config WHERE material_name = ? *)
Definition delete_material_config (material_name : string)
    (t : Material.table) : res unit * Material.table :=
  (Ok (),
   {| Material.rows :=
        filter (fun r => Material.material_name r ≠ material_name)
               (Material.rows t);
      Material.seq := Material.seq t |}).


(** *** Chat messages, read side *)

(** The text a row holds as its [journal_timestamp], if it holds one. *)
Definition stamp (r : Chat.row) : option string :=
  match Chat.journal_timestamp r with
  | TEXT s => Some s
  | _ => None
  end.

(** [journal_timestamp > ?] against a text: texts compare byte by byte, a
    number sorts before every text, and a NULL is greater than nothing. *)
Definition later_than (since_ts : string) (r : Chat.row) : Prop :=
  match stamp r with
  | Some s => ¬ String.le s since_ts
  | None => False
  end.

#[global] Instance later_than_dec since_ts r : Decision (later_than since_ts r).
Proof. unfold later_than. destruct (stamp r); apply _. Defined.

(** ORDER BY journal_timestamp ASC, on rows that hold a text or, before
    them, none. *)
Definition by_journal_timestamp (x y : Chat.row) : Prop :=
  timestamp_le (stamp x) (stamp y).

#[global] Instance by_journal_timestamp_dec x y :
  Decision (by_journal_timestamp x y).
Proof. unfold by_journal_timestamp. apply _. Defined.

(** [get_new_chat_messages(since_ts)], with [since_ts] a str:
    SELECT * FROM chat_messages WHERE journal_timestamp > ?
    ORDER BY journal_timestamp ASC
    SQLite does not promise an order among rows of equal timestamp; the
    sort used here keeps their table order. *)
Definition get_new_chat_messages (since_ts : string) : M (list Chat.row) :=
  read (fun db =>
    merge_sort by_journal_timestamp
      (filter (later_than since_ts) (chat_messages db))).

(** [clear_chat_messages]: DELETE FROM chat_messages *)
Definition clear_chat_messages : M unit :=
  write (fun db => set_chat_messages [] (sqlite_sequence db) db).

End CoreDatabase.

(** ** The journal directory *)

Module Fs.

(** A journal file: its name in the directory, its modification and
    creation times (as [st_mtime_ns], [st_ctime_ns]) and its text. *)
Record file := {
  name : string;
  st_mtime : Z;
  st_ctime : Z;
  content : string
}.

(** A directory is the list of its files in the order the operating system
    lists them, which is arbitrary; [None] is a path that does not exist. *)
Definition directory : Type := option (list file).

Definition files (d : directory) : list file := default [] d.

Definition lookup (d : directory) (n : string) : option file :=
  List.find (fun f => String.eqb (name f) n) (files d).

(** The fnmatch pattern [Journal.*.log], letter case respected (as on a
    file system that distinguishes it). *)
Definition glob_journal (n : string) : bool :=
  Py.startswith n "Journal." && Py.endswith n ".log"
  && (12 <=? String.length n)%nat.

(** [max(l, key=key)] of a non-empty list: the first element whose key is
    greatest. *)
Fixpoint max_by {A} (key : A -> Z) (best : A) (l : list A) : A :=
  match l with
  | [] => best
  | x :: l' => max_by key (if key best <? key x then x else best) l'
  end.

(** [f.readlines()] in text mode from a given text: a line ends after LF,
    after CR LF, or after a CR that no LF follows; text after the last
    terminator is a last line without one.  [cur] is the line being read,
    in reverse. *)
Definition is_LF (c : ascii) : bool := Ascii.eqb c "010".
Definition is_CR (c : ascii) : bool := Ascii.eqb c "013".

Definition starts_with_LF (s : string) : bool :=
  match s with
  | String c _ => is_LF c
  | EmptyString => false
  end.

Fixpoint readlines_go (cur : string) (s : string) : list string :=
  match s with
  | EmptyString =>
      match cur with
      | EmptyString => []
      | _ => [String.rev cur]
      end
  | String c s' =>
      if is_LF c || (is_CR c && negb (starts_with_LF s'))
      then String.rev (String c cur) :: readlines_go EmptyString s'
      else readlines_go (String c cur) s'
  end.

Definition readlines (s : string) : list string := readlines_go EmptyString s.

(** The text of a string from offset [n] on. *)
Fixpoint drop_string (n : nat) (s : string) : string :=
  match n, s with
  | O, _ => s
  | S k, String _ s' => drop_string k s'
  | S _, EmptyString => EmptyString
  end.


(** The line feed as a text, and the texts that hold no line terminator. *)
Definition LF : string := String "010" EmptyString.

Fixpoint no_terminator (s : string) : bool :=
  match s with
  | EmptyString => true
  | String c s' => negb (is_LF c || is_CR c) && no_terminator s'
  end.

End Fs.

(** ** services/service_gamelog.py *)

Module ServiceGamelog.
Import Py Sqlite CoreDatabase.

(** *** class JournalMonitor *)

(** An open file object: the path it was opened on, and whether [close] has
    been called on it. *)
Record handle := {
  h_path : string;
  h_closed : bool
}.

Record JournalMonitor := {
  current_file : option string;
  file_handle : option handle;
  last_position : nat
}.

(** [JournalMonitor(journal_dir)] *)
Definition JournalMonitor_init : JournalMonitor :=
  {| current_file := None; file_handle := None; last_position := 0 |}.

(** [find_latest_journal]: the globbed file of greatest modification time. *)
Definition find_latest_journal (d : Fs.directory) : option string :=
  match List.filter (fun f => Fs.glob_journal (Fs.name f)) (Fs.files d) with
  | [] => None
  | f :: journal_files => Some (Fs.name (Fs.max_by Fs.st_mtime f journal_files))
  end.

(** [open_journal]: closes the handle held, records the file as current,
    opens it and seeks to its end.  When [open] raises, the monitor keeps
    the handle it has just closed and the result is [False]. *)
Definition open_journal (d : Fs.directory) (journal_file : string)
    (m : JournalMonitor) : JournalMonitor * bool :=
  let closed :=
    (fun h => {| h_path := h_path h; h_closed := true |}) <$> file_handle m in
  match Fs.lookup d journal_file with
  | Some f =>
      ({| current_file := Some journal_file;
          file_handle := Some {| h_path := journal_file; h_closed := false |};
          last_position := String.length (Fs.content f) |}, true)
  | None =>
      ({| current_file := Some journal_file;
          file_handle := closed;
          last_position := last_position m |}, false)
  end.

(** [check_for_new_file] *)
Definition check_for_new_file (d : Fs.directory) (m : JournalMonitor)
    : JournalMonitor * bool :=
  match find_latest_journal d with
  | Some latest =>
      if bool_decide (Some latest ≠ current_file m)
      then open_journal d latest m
      else (m, false)
  | None => (m, false)
  end.

(** What a poll returns for the lines read: each stripped, blank ones
    dropped. *)
Definition stripped_lines (lines : list string) : list string :=
  List.filter (fun l => negb (String.eqb l EmptyString)) (strip <$> lines).

(** [read_new_lines]: everything from [last_position] to the end of the
    file is read and split into lines; each line is stripped and the blank
    ones are dropped.  Any exception yields the empty list. *)
Definition read_new_lines (d : Fs.directory) (m : JournalMonitor)
    : JournalMonitor * list string :=
  match file_handle m with
  | None => (m, [])
  | Some _ =>
      let m1 := (check_for_new_file d m).1 in
      match file_handle m1 with
      | Some h =>
          if h_closed h then (m1, [])
          else
            let text := default EmptyString (Fs.content <$> Fs.lookup d (h_path h)) in
            let new := Fs.drop_string (last_position m1) text in
            let lines := Fs.readlines new in
            ({| current_file := current_file m1;
                file_handle := file_handle m1;
                last_position := last_position m1 + String.length new |},
             stripped_lines lines)
      | None => (m1, [])
      end
  end.

(** [close] *)
Definition close (m : JournalMonitor) : JournalMonitor :=
  {| current_file := current_file m; file_handle := None;
     last_position := last_position m |}.


(** *** class JournalProcessor

    Every handler is [try: ... except Exception: log], so it maps a database
    to a database. *)

Definition handler : Type := value -> Database -> Database.

(** **** Game state events *)

Definition _handle_LoadGame : handler := fun data =>
  try_except (
    commander ← lift (get data "Commander" (PyStr "Unknown"));
    ship ← lift (get data "Ship" (PyStr "Unknown"));
    credits ← lift (get data "Credits" (PyInt 0));
    _ ← update_game_state [("commander_name", commander)];
    update_ship_status [("commander_credits", credits)]).

Definition _handle_Location : handler := fun data =>
  try_except (
    system_name ← lift (get data "StarSystem" (PyStr "Unknown"));
    update_game_state [("current_system", system_name)]).

Definition _handle_FSDJump : handler := fun data =>
  try_except (
    system_name ← lift (get data "StarSystem" (PyStr "Unknown"));
    update_game_state [("current_system", system_name)]).

Definition _handle_Docked : handler := fun data =>
  try_except (
    station ← lift (get data "StationName" (PyStr "Unknown"));
    system ← lift (get data "StarSystem" (PyStr "Unknown"));
    mret tt).

(** **** Ship status events *)

(** The loop of [_handle_Loadout] over the modules. *)
Fixpoint sum_cargo_capacity (cargo_capacity : value) (modules : list value)
    : res value :=
  match modules with
  | [] => Ok cargo_capacity
  | module :: rest =>
      has ← contains "CargoCapacity" module;
      if has : bool then
        c ← getitem module "CargoCapacity";
        cargo_capacity' ← add cargo_capacity c;
        sum_cargo_capacity cargo_capacity' rest
      else sum_cargo_capacity cargo_capacity rest
  end.

Definition _handle_Loadout : handler := fun data =>
  try_except (
    m ← lift (get data "Modules" (PyList []));
    modules ← lift (iter m);
    cargo_capacity ← lift (sum_cargo_capacity (PyInt 0) modules);
    positive ← lift (gt0 cargo_capacity);
    if positive : bool
    then update_ship_status [("cargo_capacity", cargo_capacity)]
    else mret tt).

(** The loop of [_handle_Cargo] over the inventory: the pair of the cargo
    count and the limpet count. *)
Fixpoint count_cargo (cargo_count limpet_count : value) (inventory : list value)
    : res (value * value) :=
  match inventory with
  | [] => Ok (cargo_count, limpet_count)
  | item :: rest =>
      n ← get item "Name" (PyStr "");
      name ← lower n;
      count ← get item "Count" (PyInt 0);
      if is_substring "limpet" name then
        limpet_count' ← add limpet_count count;
        count_cargo cargo_count limpet_count' rest
      else
        cargo_count' ← add cargo_count count;
        count_cargo cargo_count' limpet_count rest
  end.

Definition _handle_Cargo : handler := fun data =>
  try_except (
    inv ← lift (get data "Inventory" (PyList []));
    inventory ← lift (iter inv);
    counts ← lift (count_cargo (PyInt 0) (PyInt 0) inventory);
    update_ship_status [("cargo_count", counts.1); ("limpet_count", counts.2)]).

(** [_handle_Materials] only logs three lengths. *)
Definition _handle_Materials : handler := fun data =>
  try_except (
    raw ← lift (get data "Raw" (PyList []));
    encoded ← lift (get data "Encoded" (PyList []));
    manufactured ← lift (get data "Manufactured" (PyList []));
    mret tt).

(** **** Mining events *)

(** INSERT INTO prospected_asteroids (timestamp, journal_timestamp,
    material_name, percentage, is_motherlode, content_level, is_surface,
    is_deepcore, remaining, processed)
    VALUES (CURRENT_TIMESTAMP, ?, ?, ?, ?, ?, ?, ?, ?, 0) *)
Definition insert_prospected
    (timestamp material_name percentage is_motherlode content is_surface
     is_deepcore remaining : value) : M unit :=
  c_ts ← lift (bind timestamp);
  c_name ← lift (bind material_name);
  c_pct ← lift (bind percentage);
  c_ml ← lift (bind is_motherlode);
  c_content ← lift (bind content);
  c_surface ← lift (bind is_surface);
  c_deep ← lift (bind is_deepcore);
  c_rem ← lift (bind remaining);
  write (fun db =>
    let i := next_id "prospected_asteroids" db in
    set_prospected_asteroids
      (prospected_asteroids db ++
       [{| Asteroid.id := i;
           Asteroid.timestamp := Some (CURRENT_TIMESTAMP (env db));
           Asteroid.journal_timestamp := c_ts;
           Asteroid.material_name := c_name;
           Asteroid.percentage := c_pct;
           Asteroid.is_motherlode := c_ml;
           Asteroid.content_level := c_content;
           Asteroid.is_surface := c_surface;
           Asteroid.is_deepcore := c_deep;
           Asteroid.remaining := c_rem;
           Asteroid.processed := 0 |}])
      (<["prospected_asteroids" := i]> (sqlite_sequence db)) db).

(** The body of the loop of [_handle_ProspectedAsteroid] for one material. *)
Definition prospect_material (timestamp content remaining motherlode : value)
    (material : value) : M unit :=
  n ← lift (get material "Name" (PyStr "Unknown"));
  has_suffix ← lift (contains "_Name" n);
  material_name ← lift (if has_suffix : bool
                        then str_replace n "_Name" EmptyString
                        else Ok n);
  p ← lift (get material "Proportion" (PyFloat 0));
  percentage ← lift (mul_int p 100);
  let is_surface := PyInt (if eq0 motherlode then 1 else 0) in
  deep ← lift (gt0 motherlode);
  let is_deepcore := PyInt (if deep : bool then 1 else 0) in
  deep' ← lift (gt0 motherlode);
  let is_motherlode := PyInt (if deep' : bool then 1 else 0) in
  _ ← insert_prospected timestamp material_name percentage is_motherlode
        content is_surface is_deepcore remaining;
  lift (format_number percentage).

Definition _handle_ProspectedAsteroid : handler := fun data =>
  try_except (
    m ← lift (get data "Materials" (PyList []));
    content ← lift (get data "Content" (PyStr "Unknown"));
    remaining ← lift (get data "Remaining" (PyFloat 100));
    motherlode ← lift (get data "MotherlodeAmount" (PyInt 0));
    now ← read (fun db => utcnow_isoformat (env db));
    timestamp ← lift (get data "timestamp" (PyStr now));
    materials ← lift (iter m);
    for_each (prospect_material timestamp content remaining motherlode)
             materials).

Definition _handle_MiningRefined : handler := fun data =>
  try_except (
    n ← lift (get data "Type" (PyStr "Unknown"));
    has_suffix ← lift (contains "_Name" n);
    material_name ← lift (if has_suffix : bool
                          then str_replace n "_Name" EmptyString
                          else Ok n);
    now ← read (fun db => utcnow_isoformat (env db));
    timestamp ← lift (get data "timestamp" (PyStr now));
    c_ts ← lift (bind timestamp);
    c_name ← lift (bind material_name);
    write (fun db =>
      let i := next_id "refined_materials" db in
      set_refined_materials
        (refined_materials db ++
         [{| Refined.id := i;
             Refined.timestamp := CURRENT_TIMESTAMP (env db);
             Refined.journal_timestamp := c_ts;
             Refined.material_name := c_name;
             Refined.material_type := TEXT "mining" |}])
        (<["refined_materials" := i]> (sqlite_sequence db)) db)).


(** **** FSS / discovery events *)

Definition _handle_FSSSignalDiscovered : handler := fun data =>
  try_except (
    signal_name ← lift (get data "SignalName" (PyStr "Unknown"));
    signal_type ← lift (get data "SignalName_Localised" signal_name);
    is_station ← lift (get data "IsStation" (PyBool false));
    system_address ← lift (get data "SystemAddress" (PyInt 0));
    now ← read (fun db => utcnow_isoformat (env db));
    timestamp ← lift (get data "timestamp" (PyStr now));
    state ← get_game_state;
    system_name ← lift (get state "current_system" (PyStr "Unknown"));
    typed ← lift (contains "FleetCarrier" signal_type);
    carrier ← lift (if typed : bool then Ok true
                    else str_endswith signal_name ")");
    if carrier : bool then
      add_fleet_carrier signal_name system_address system_name timestamp
    else if truthy is_station then
      add_fss_signal signal_name signal_type is_station system_address
                     system_name timestamp
    else mret tt).

(** **** Chat events *)

Definition _handle_ReceiveText : handler := fun data =>
  try_except (add_chat_message data).

(** **** Credits / economy events *)

Definition _handle_MarketSell : handler := fun data =>
  try_except (
    total_sale ← lift (get data "TotalSale" (PyInt 0));
    item ← lift (get data "Type" (PyStr "Unknown"));
    count ← lift (get data "Count" (PyInt 0));
    status ← get_ship_status;
    current_credits ← lift (get status "commander_credits" (PyInt 0));
    new_credits ← lift (add current_credits total_sale);
    update_ship_status [("commander_credits", new_credits)]).

Definition _handle_MarketBuy : handler := fun data =>
  try_except (
    total_cost ← lift (get data "TotalCost" (PyInt 0));
    item ← lift (get data "Type" (PyStr "Unknown"));
    count ← lift (get data "Count" (PyInt 0));
    status ← get_ship_status;
    current_credits ← lift (get status "commander_credits" (PyInt 0));
    new_credits ← lift (sub current_credits total_cost);
    update_ship_status [("commander_credits", new_credits)]).

Definition _handle_SellExplorationData : handler := fun data =>
  try_except (
    base_value ← lift (get data "BaseValue" (PyInt 0));
    bonus ← lift (get data "Bonus" (PyInt 0));
    total ← lift (add base_value bonus);
    status ← get_ship_status;
    current_credits ← lift (get status "commander_credits" (PyInt 0));
    new_credits ← lift (add current_credits total);
    update_ship_status [("commander_credits", new_credits)]).

(** **** Dispatch

    [getattr(self, f'_handle_{event}', None)]: the methods of the class
    whose name starts with [_handle_].  An [event] that is not a str is
    formatted to a name no method has. *)
Definition handlers : list (string * handler) :=
  [("LoadGame", _handle_LoadGame);
   ("Location", _handle_Location);
   ("FSDJump", _handle_FSDJump);
   ("Docked", _handle_Docked);
   ("Loadout", _handle_Loadout);
   ("Cargo", _handle_Cargo);
   ("Materials", _handle_Materials);
   ("ProspectedAsteroid", _handle_ProspectedAsteroid);
   ("MiningRefined", _handle_MiningRefined);
   ("FSSSignalDiscovered", _handle_FSSSignalDiscovered);
   ("ReceiveText", _handle_ReceiveText);
   ("MarketSell", _handle_MarketSell);
   ("MarketBuy", _handle_MarketBuy);
   ("SellExplorationData", _handle_SellExplorationData)].

Definition getattr_handle (event : value) : option handler :=
  match event with
  | PyStr e => snd <$> List.find (fun kh => String.eqb (fst kh) e) handlers
  | _ => None
  end.

Section process.

(** [json.loads]: the decoded object, or [None] when the line is not a JSON
    document (json.JSONDecodeError). *)
Variable json_loads : string -> option value.

(** [process_line]: a line that does not decode is logged and dropped; so is
    an object without [get] (not a JSON object); a decoded event goes to the
    handler named after it, if there is one. *)
Definition process_line (line : string) (db : Database) : Database :=
  match json_loads line with
  | None => db
  | Some data =>
      match get data "event" (PyStr EmptyString) with
      | Raise _ => db
      | Ok event =>
          match getattr_handle event with
          | Some handle_event => handle_event data db
          | None => db
          end
      end
  end.

(** [for line in lines: self.processor.process_line(line)] *)
Definition process_lines (lines : list string) (db : Database) : Database :=
  foldl (fun db line => process_line line db) db lines.

(** *** class LogReaderService *)

Record LogReaderService := {
  monitor : JournalMonitor;
  running : bool;
  heartbeat_counter : Z
}.

(** One iteration of the [while self.running] loop of [_run_loop], on the
    directory as it is when the iteration reads it.  The heartbeat is
    written every tenth iteration; if that write raises, the iteration ends
    in the [except Exception] branch and the counter keeps its value. *)
Definition run_iteration (d : Fs.directory)
    (s : LogReaderService * Database) : LogReaderService * Database :=
  let (svc, db) := s in
  let (m, lines) := read_new_lines d (monitor svc) in
  let db1 := process_lines lines db in
  let counter := heartbeat_counter svc + 1 in
  if 10 <=? counter then
    match update_service_status
            [("last_heartbeat", PyStr (utcnow_isoformat (env db1)))] db1 with
    | (Ok _, db2) =>
        ({| monitor := m; running := running svc; heartbeat_counter := 0 |},
         db2)
    | (Raise _, db2) =>
        ({| monitor := m; running := running svc;
            heartbeat_counter := counter |}, db2)
    end
  else
    ({| monitor := m; running := running svc; heartbeat_counter := counter |},
     db1).

(** [_run_loop] over the successive states of the directory, one per
    iteration, for as long as [running] holds. *)
Fixpoint _run_loop (ds : list Fs.directory) (s : LogReaderService * Database)
    : LogReaderService * Database :=
  match ds with
  | [] => s
  | d :: ds' => if running s.1 then _run_loop ds' (run_iteration d s) else s
  end.

End process.


(** The state Following of the tail reader: the monitor holds an open
    handle on the file [f], which is its current file and the one the
    directory [d] has as its latest journal. *)
Definition following (d : Fs.directory) (m : JournalMonitor) (f : Fs.file)
    : Prop :=
  file_handle m = Some {| h_path := Fs.name f; h_closed := false |}
  /\ current_file m = Some (Fs.name f)
  /\ find_latest_journal d = Some (Fs.name f)
  /\ Fs.lookup d (Fs.name f) = Some f.


(** [stop]: the flag is cleared in the store inside a [try] of its own,
    the monitor is closed. *)
Definition stop (s : LogReaderService * Database)
    : LogReaderService * Database :=
  let (svc, db) := s in
  ({| monitor := close (monitor svc); running := false;
      heartbeat_counter := heartbeat_counter svc |},
   try_except
     (update_service_status
        [("is_running", PyInt 0);
         ("last_heartbeat", PyStr (utcnow_isoformat (env db)))]) db).

(** [start] on the directory [d], with the main loop run over the states
    [ds] the directory takes afterwards.  Without a journal, or when it
    cannot be opened, the service returns at once; when the status cannot be
    written, the [except] branch stops it.  A path is kept as the name of
    the file in the directory. *)
Definition start (json_loads : string -> option value) (d : Fs.directory)
    (ds : list Fs.directory) (s : LogReaderService * Database)
    : LogReaderService * Database :=
  let (svc, db) := s in
  match find_latest_journal d with
  | None => s
  | Some latest_journal =>
      let (m, opened) := open_journal d latest_journal (monitor svc) in
      let svc1 := {| monitor := m; running := running svc;
                     heartbeat_counter := heartbeat_counter svc |} in
      if opened then
        match update_service_status
                [("is_running", PyInt 1);
                 ("pid", PyInt (getpid (env db)));
                 ("last_heartbeat", PyStr (utcnow_isoformat (env db)));
                 ("journal_file", PyStr latest_journal);
                 ("scan_interval", PyFloat 0.5)] db with
        | (Ok _, db1) =>
            _run_loop json_loads ds
              ({| monitor := m; running := true; heartbeat_counter := 0 |},
               db1)
        | (Raise _, db1) => stop (svc1, db1)
        end
      else (svc1, db)
  end.


(** [LogReaderService(journal_dir)] *)
Definition LogReaderService_init : LogReaderService :=
  {| monitor := JournalMonitor_init; running := false;
     heartbeat_counter := 0 |}.


(** The events whose handler writes to the store: every handler but those
    of Docked and Materials, which only log. *)
Definition projected_events : list string :=
  ["LoadGame"; "Location"; "FSDJump"; "Loadout"; "Cargo";
   "ProspectedAsteroid"; "MiningRefined"; "FSSSignalDiscovered";
   "ReceiveText"; "MarketSell"; "MarketBuy"; "SellExplorationData"].

End ServiceGamelog.

(** ** ed_log_reader.py *)

Module EdLogReader.
Import Py Sqlite CoreDatabase.

(** *** class DatabaseManager

    The log reader's own manager over the same tables.  Its methods catch
    [sqlite3.Error] and log it; any other exception leaves the method. *)

Definition except_sqlite_error (body : M unit) : M unit := fun db =>
  match body db with
  | (Raise SqliteError, db') => (Ok tt, db')
  | r => r
  end.

(** [_create_tables]: this schema has no ship status. *)
Definition _create_tables (db : Database) : Database :=
  let now := TEXT (CURRENT_TIMESTAMP (env db)) in
  let gs : gmap string cell :=
    list_to_map [("id", INTEGER 1); ("commander_name", TEXT "Unknown");
                 ("current_system", TEXT "Unknown"); ("log_file_path", NULL);
                 ("last_updated", now)] in
  let sv : gmap string cell :=
    list_to_map [("id", INTEGER 1); ("is_running", INTEGER 0); ("pid", NULL);
                 ("last_heartbeat", now); ("journal_file", NULL);
                 ("scan_interval", REAL 0.5)] in
  set_service_status (Some (default sv (service_status db)))
    (set_game_state (Some (default gs (game_state db))) db).

Definition fresh (e : Env) : Database := _create_tables (no_tables e).

(** [update_game_state(commander=None, system=None, log_path=None)]: an
    argument that is falsy (None, the empty string) names no column. *)
Definition update_game_state (commander system log_path : value) : M unit :=
  except_sqlite_error (fun db =>
    let updates :=
      ((if truthy commander then [("commander_name", commander)] else [])
       ++ (if truthy system then [("current_system", system)] else [])
       ++ (if truthy log_path then [("log_file_path", log_path)] else [])
      )%list in
    match updates with
    | [] => (Ok tt, db)
    | _ =>
        let tail := [("last_updated", TEXT (CURRENT_TIMESTAMP (env db)))] in
        match sql_update game_state_columns updates tail (game_state db) with
        | Ok r => (Ok tt, set_game_state r db)
        | Raise e => (Raise e, db)
        end
    end).

(** [add_prospected_asteroid(data)]:
    INSERT INTO prospected_asteroids (journal_timestamp, material_name,
    percentage, is_motherlode, content_level, is_deepcore, remaining)
    VALUES (?, ?, ?, ?, ?, ?, ?)
    The columns left out take their defaults: [timestamp] NULL,
    [is_surface] 1, [processed] 0. *)
Definition add_prospected_asteroid (data : value) : M unit :=
  except_sqlite_error (
    timestamp ← lift (get data "timestamp" PyNone);
    material_name ← lift (get data "material_name" PyNone);
    percentage ← lift (get data "percentage" PyNone);
    is_motherlode ← lift (get data "is_motherlode" (PyInt 0));
    content_level ← lift (get data "content_level" (PyStr "Unknown"));
    is_deepcore ← lift (get data "is_deepcore" (PyInt 0));
    remaining ← lift (get data "remaining" (PyFloat 100));
    c_ts ← lift (bind timestamp);
    c_name ← lift (bind material_name);
    c_pct ← lift (bind percentage);
    c_ml ← lift (bind is_motherlode);
    c_level ← lift (bind content_level);
    c_deep ← lift (bind is_deepcore);
    c_rem ← lift (bind remaining);
    write (fun db =>
      let i := next_id "prospected_asteroids" db in
      set_prospected_asteroids
        (prospected_asteroids db ++
         [{| Asteroid.id := i;
             Asteroid.timestamp := None;
             Asteroid.journal_timestamp := c_ts;
             Asteroid.material_name := c_name;
             Asteroid.percentage := c_pct;
             Asteroid.is_motherlode := c_ml;
             Asteroid.content_level := c_level;
             Asteroid.is_surface := INTEGER 1;
             Asteroid.is_deepcore := c_deep;
             Asteroid.remaining := c_rem;
             Asteroid.processed := 0 |}])
        (<["prospected_asteroids" := i]> (sqlite_sequence db)) db)).

(** [add_refined_material(journal_timestamp, material_name, material_type)] *)
Definition add_refined_material
    (journal_timestamp material_name material_type : value) : M unit :=
  except_sqlite_error (
    c_ts ← lift (bind journal_timestamp);
    c_name ← lift (bind material_name);
    c_type ← lift (bind material_type);
    write (fun db =>
      let i := next_id "refined_materials" db in
      set_refined_materials
        (refined_materials db ++
         [{| Refined.id := i;
             Refined.timestamp := CURRENT_TIMESTAMP (env db);
             Refined.journal_timestamp := c_ts;
             Refined.material_name := c_name;
             Refined.material_type := c_type |}])
        (<["refined_materials" := i]> (sqlite_sequence db)) db)).

(** [update_service_status(is_running, pid=None, journal_file=None)]:
    UPDATE service_status SET is_running = ?, pid = ?,
    last_heartbeat = CURRENT_TIMESTAMP, journal_file = ? WHERE id = 1 *)
Definition update_service_status (is_running pid journal_file : value)
    : M unit :=
  except_sqlite_error (
    c_pid ← lift (bind pid);
    c_file ← lift (bind journal_file);
    write (fun db =>
      set_service_status
        ((fun r : gmap string cell =>
            <["journal_file" := c_file]>
              (<["last_heartbeat" := TEXT (CURRENT_TIMESTAMP (env db))]>
                 (<["pid" := c_pid]>
                    (<["is_running" :=
                         INTEGER (if truthy is_running then 1 else 0)]> r))))
         <$> service_status db) db)).


(** *** class JournalReader *)

(** An open file object with its own read position. *)
Record handle := {
  h_path : string;
  h_offset : nat;
  h_closed : bool
}.

Record JournalReader := {
  current_file : option string;
  file_handle : option handle;
  position : nat
}.

(** The test of the list comprehension of [_find_latest_journal]. *)
Definition is_journal (f : string) : bool :=
  startswith f "Journal." && endswith f ".log".

(** [journal_files.sort(reverse=True)]: strings in descending order. *)
Definition descending (x y : string) : Prop := String.le y x.

#[global] Instance descending_dec x y : Decision (descending x y).
Proof. unfold descending. apply _. Defined.

#[global] Instance descending_trans : Transitive descending.
Proof.
  intros x y z Hxy Hyz. unfold descending in *.
  by apply (transitivity (R := String.le)) with y.
Qed.

#[global] Instance descending_total : Total descending.
Proof. intros x y. unfold descending. apply (total String.le). Qed.

(** The file [_find_latest_journal] selects: the first of the names that
    pass the test, sorted in reverse.  It raises when the path does not
    exist or holds no such name. *)
Definition latest_journal (d : Fs.directory) : res string :=
  match d with
  | None => Raise FileNotFoundError
  | Some listing =>
      let journal_files :=
        merge_sort descending (List.filter is_journal (Fs.name <$> listing)) in
      match journal_files with
      | [] => Raise FileNotFoundError
      | first :: _ => Ok first
      end
  end.

(** [_find_latest_journal]: records the selected file as current and
    reports it in the service status; an exception is logged and raised
    again. *)
Definition _find_latest_journal (d : Fs.directory) (r : JournalReader)
    : M JournalReader :=
  first ← lift (latest_journal d);
  pid ← read (fun db => getpid (env db));
  _ ← update_service_status (PyBool true) (PyInt pid) (PyStr first);
  mret {| current_file := Some first; file_handle := file_handle r;
          position := position r |}.

(** [open(self.current_file)], then [seek(0, 2)] and [tell()] *)
Definition open_at_end (d : Fs.directory) (path : option string)
    : res handle :=
  match path with
  | None => Raise TypeError
  | Some p =>
      match Fs.lookup d p with
      | Some f =>
          Ok {| h_path := p; h_offset := String.length (Fs.content f);
                h_closed := false |}
      | None => Raise FileNotFoundError
      end
  end.

(** [self.file_handle.readline()]: the next line from the handle's position,
    with its terminator if it has one; the empty string at the end of the
    file. *)
Definition readline (d : Fs.directory) (h : handle) : res string :=
  if h_closed h then Raise ValueError
  else
    let text := default EmptyString (Fs.content <$> Fs.lookup d (h_path h)) in
    Ok (default EmptyString (head (Fs.readlines (Fs.drop_string (h_offset h) text)))).

(** [os.path.getsize(self.current_file)] *)
Definition getsize (d : Fs.directory) (path : option string) : res nat :=
  match path with
  | None => Raise TypeError
  | Some p =>
      match Fs.lookup d p with
      | Some f => Ok (String.length (Fs.content f))
      | None => Raise FileNotFoundError
      end
  end.

(** The body of the [try] of [get_latest_line].  The reader is threaded
    through the result so that what was assigned before an exception is
    kept. *)
Definition get_latest_line_body (d : Fs.directory) (r : JournalReader)
    : Database -> JournalReader * res (option string) * Database :=
  fun db =>
    (* if not self.file_handle: open, seek to the end *)
    let opened :=
      match file_handle r with
      | Some h => Ok (r, h)
      | None =>
          h ← open_at_end d (current_file r);
          Ok ({| current_file := current_file r; file_handle := Some h;
                 position := h_offset h |}, h)
      end in
    match opened with
    | Raise e => (r, Raise e, db)
    | Ok (r1, h) =>
        match readline d h with
        | Raise e => (r1, Raise e, db)
        | Ok line =>
            if negb (String.eqb line EmptyString) then
              let h' := {| h_path := h_path h;
                           h_offset := h_offset h + String.length line;
                           h_closed := false |} in
              ({| current_file := current_file r1; file_handle := Some h';
                  position := h_offset h' |},
               Ok (Some (strip line)), db)
            else
              match getsize d (current_file r1) with
              | Raise e => (r1, Raise e, db)
              | Ok current_size =>
                  if (current_size <? position r1)%nat then
                    let shut := {| h_path := h_path h; h_offset := h_offset h;
                                   h_closed := true |} in
                    let r2 := {| current_file := current_file r1;
                                 file_handle := Some shut;
                                 position := position r1 |} in
                    match _find_latest_journal d r2 db with
                    | (Raise e, db') => (r2, Raise e, db')
                    | (Ok r3, db') =>
                        match open_at_end d (current_file r3) with
                        | Raise e => (r3, Raise e, db')
                        | Ok h2 =>
                            ({| current_file := current_file r3;
                                file_handle := Some h2;
                                position := h_offset h2 |}, Ok None, db')
                        end
                    end
                  else (r1, Ok None, db)
              end
        end
    end.

(** [get_latest_line]: the next line, stripped, or [None]; any exception is
    logged and gives [None]. *)
Definition get_latest_line (d : Fs.directory) (r : JournalReader)
    (db : Database) : JournalReader * option string * Database :=
  match get_latest_line_body d r db with
  | (r', Ok line, db') => (r', line, db')
  | (r', Raise _, db') => (r', None, db')
  end.


(** *** class LogReaderService *)

(** The content level of [_handle_prospected_asteroid]: the first of Low,
    Medium, High that occurs in the localised content text. *)
Definition content_level_of (content : value) : res string :=
  low ← contains "Low" content;
  if low : bool then Ok "Low" else
  medium ← contains "Medium" content;
  if medium : bool then Ok "Medium" else
  high ← contains "High" content;
  if high : bool then Ok "High" else Ok "Unknown".

(** The body of the loop over the materials, for one material. *)
Definition surface_material (timestamp : value) (content_level : string)
    (remaining : value) (material : value) : M unit :=
  name ← lift (get material "Name" (PyStr "Unknown"));
  material_name ← lift (get material "Name_Localised" name);
  proportion ← lift (get material "Proportion" (PyFloat 0));
  let asteroid_data :=
    PyDict [("timestamp", timestamp);
            ("material_name", material_name);
            ("percentage", proportion);
            ("is_motherlode", PyInt 0);
            ("content_level", PyStr content_level);
            ("is_deepcore", PyInt 0);
            ("remaining", remaining)] in
  add_prospected_asteroid asteroid_data.

(** [_handle_prospected_asteroid] *)
Definition _handle_prospected_asteroid (data : value)
    : Database -> Database :=
  try_except (
    timestamp ← lift (get data "timestamp" (PyStr EmptyString));
    m ← lift (get data "Materials" (PyList []));
    motherlode_material ← lift (get data "MotherlodeMaterial" PyNone);
    content ← lift (get data "Content_Localised" (PyStr "Unknown"));
    remaining ← lift (get data "Remaining" (PyFloat 100));
    content_level ← lift (content_level_of content);
    materials ← lift (iter m);
    _ ← for_each (surface_material timestamp content_level remaining)
                 materials;
    if truthy motherlode_material then
      let motherlode_data :=
        PyDict [("timestamp", timestamp);
                ("material_name", motherlode_material);
                ("percentage", PyFloat 100);
                ("is_motherlode", PyInt 1);
                ("content_level", PyStr content_level);
                ("is_deepcore", PyInt 1);
                ("remaining", remaining)] in
      add_prospected_asteroid motherlode_data
    else mret tt).

(** [_handle_mining_refined] *)
Definition _handle_mining_refined (data : value) : Database -> Database :=
  try_except (
    timestamp ← lift (get data "timestamp" (PyStr EmptyString));
    type ← lift (get data "Type" (PyStr "Unknown"));
    material_name ← lift (get data "Type_Localised" type);
    material_type ← lift (get data "Type" (PyStr "Unknown"));
    add_refined_material timestamp material_name material_type).

(** [event == name] for a decoded [event]. *)
Definition is_event (event : value) (name : string) : bool :=
  match event with
  | PyStr e => String.eqb e name
  | _ => false
  end.

Section process.

(** [json.loads]: the decoded object, or [None] when the line is not a JSON
    document (json.JSONDecodeError). *)
Variable json_loads : string -> option value.

(** [_process_journal_line] *)
Definition _process_journal_line (line : string) (db : Database)
    : Database :=
  match json_loads line with
  | None => db
  | Some data =>
      try_except (
        event ← lift (get data "event" (PyStr EmptyString));
        if is_event event "ProspectedAsteroid" then
          write (_handle_prospected_asteroid data)
        else if is_event event "MiningRefined" then
          write (_handle_mining_refined data)
        else if is_event event "Location" || is_event event "FSDJump"
                || is_event event "CarrierJump" then
          system ← lift (get data "StarSystem" (PyStr "Unknown"));
          update_game_state PyNone system PyNone
        else if is_event event "Commander" then
          commander ← lift (get data "Name" (PyStr "Unknown"));
          update_game_state commander PyNone PyNone
        else if is_event event "LoadGame" then
          commander ← lift (get data "Commander" (PyStr "Unknown"));
          update_game_state commander PyNone PyNone
        else mret tt) db
  end.

(** One iteration of [_main_loop]: the heartbeat, at most one line read
    and, unless it is empty, processed. *)
Definition main_loop_iteration (d : Fs.directory)
    (s : JournalReader * Database) : JournalReader * Database :=
  let (r, db) := s in
  match update_service_status (PyBool true) (PyInt (getpid (env db)))
          (match current_file r with Some p => PyStr p | None => PyNone end)
          db with
  | (Raise _, db1) => (r, db1)
  | (Ok _, db1) =>
      match get_latest_line d r db1 with
      | (r', Some line, db2) =>
          if negb (String.eqb line EmptyString)
          then (r', _process_journal_line line db2)
          else (r', db2)
      | (r', None, db2) => (r', db2)
      end
  end.

End process.


(** The row [add_prospected_asteroid] appends for given cells, and the
    store after the append. *)
Definition detection_row (db : Database)
    (c_ts c_name c_pct c_ml c_level c_deep c_rem : cell) : Asteroid.row :=
  {| Asteroid.id := next_id "prospected_asteroids" db;
     Asteroid.timestamp := None;
     Asteroid.journal_timestamp := c_ts;
     Asteroid.material_name := c_name;
     Asteroid.percentage := c_pct;
     Asteroid.is_motherlode := c_ml;
     Asteroid.content_level := c_level;
     Asteroid.is_surface := INTEGER 1;
     Asteroid.is_deepcore := c_deep;
     Asteroid.remaining := c_rem;
     Asteroid.processed := 0 |}.

Definition with_detection (row : Asteroid.row) (db : Database) : Database :=
  set_prospected_asteroids (prospected_asteroids db ++ [row])
    (<["prospected_asteroids" := next_id "prospected_asteroids" db]>
       (sqlite_sequence db)) db.


(** The store after the row of one surface material, given the cells of its
    name and proportion. *)
Definition with_surface (c_ts : cell) (level : string) (c_rem : cell)
    (db : Database) (c : cell * cell) : Database :=
  with_detection
    (detection_row db c_ts c.1 c.2 (INTEGER 0) (TEXT level) (INTEGER 0) c_rem)
    db.


(** *** [JournalReader.read_initial_state] *)

Section initial_state.

Variable json_loads : string -> option value.

(** The body of the loop over the lines of the journal, from the commander
    and the system found so far.  A line that does not decode is skipped
    ([except json.JSONDecodeError: continue]); any other exception leaves
    the loop. *)
Definition scan_line (found : value * value) (line : string)
    : res (value * value) :=
  match json_loads line with
  | None => Ok found
  | Some data =>
      event ← get data "event" (PyStr EmptyString);
      commander ← (if is_event event "Commander"
                   then get data "Name" (PyStr "Unknown")
                   else if is_event event "LoadGame"
                   then get data "Commander" (PyStr "Unknown")
                   else Ok found.1);
      system ← (if is_event event "Location" || is_event event "FSDJump"
                   || is_event event "CarrierJump"
                then get data "StarSystem" (PyStr "Unknown")
                else Ok found.2);
      Ok (commander, system)
  end.

Fixpoint scan_lines (found : value * value) (lines : list string)
    : res (value * value) :=
  match lines with
  | [] => Ok found
  | line :: rest => found' ← scan_line found line; scan_lines found' rest
  end.

(** [read_initial_state]: the whole current journal is scanned; the store
    is written once, after the scan, if a commander or a system was found.
    An exception (the file cannot be opened, a line decodes to something
    without [get]) is logged and nothing is written. *)
Definition read_initial_state (d : Fs.directory) (r : JournalReader)
    : Database -> Database :=
  try_except (
    f ← lift (match current_file r with
              | None => Raise TypeError
              | Some p =>
                  match Fs.lookup d p with
                  | Some f => Ok f
                  | None => Raise FileNotFoundError
                  end
              end);
    found ← lift (scan_lines (PyNone, PyNone) (Fs.readlines (Fs.content f)));
    if truthy found.1 || truthy found.2 then
      update_game_state found.1 found.2
        (match current_file r with Some p => PyStr p | None => PyNone end)
    else mret tt).

(** A line that the scan can digest: it does not decode, or decodes to an
    object. *)
Definition digestible (line : string) : bool :=
  match json_loads line with
  | None | Some (PyDict _) => true
  | Some _ => false
  end.

(** A line that names the current system: it decodes to a Location,
    FSDJump or CarrierJump event. *)
Definition names_system (line : string) : bool :=
  match json_loads line with
  | Some (PyDict data) =>
      let event := default (PyStr EmptyString) (assoc "event" data) in
      is_event event "Location" || is_event event "FSDJump"
      || is_event event "CarrierJump"
  | _ => false
  end.

End initial_state.


(** The events [_process_journal_line] has a branch for. *)
Definition projected_events : list string :=
  ["ProspectedAsteroid"; "MiningRefined"; "Location"; "FSDJump";
   "CarrierJump"; "Commander"; "LoadGame"].


(** [_main_loop] over the successive states of the directory, one per
    turn. *)
Definition _main_loop (json_loads : string -> option value)
    (ds : list Fs.directory) (s : JournalReader * Database)
    : JournalReader * Database :=
  foldl (fun s d => main_loop_iteration json_loads d s) s ds.

(** What [stop] writes to the store:
    [self.database.update_service_status(False, None, None)]. *)
Definition stop (db : Database) : Database :=
  (update_service_status (PyBool false) PyNone PyNone db).2.

End EdLogReader.

(** ** journal_reader.py *)

Module JournalReaderPy.

(** [get_latest_journal]: [max(journals, key=os.path.getctime)] over the
    globbed files, or [None] when there is none. *)
Definition get_latest_journal (d : Fs.directory) : option string :=
  match List.filter (fun f => Fs.glob_journal (Fs.name f)) (Fs.files d) with
  | [] => None
  | f :: journals => Some (Fs.name (Fs.max_by Fs.st_ctime f journals))
  end.


(** The double quote, and the text ["event":"<name>"] that the readers of
    this file look for in a raw line before they decode it. *)
Definition dq : string := String (ascii_of_nat 34) EmptyString.

Definition event_marker (name : string) : string :=
  dq +:+ "event" +:+ dq +:+ ":" +:+ dq +:+ name +:+ dq.

(** The journal the readers open: the text of the file
    [get_latest_journal] selects.  [None] stands for the early
    [return None] and for the [except] branch of a failed [open]. *)
Definition latest_text (d : Fs.directory) : option string :=
  journal_file ← get_latest_journal d;
  Fs.content <$> Fs.lookup d journal_file.

Section readers.

Variable json_loads : string -> option Py.value.

(** The loop of [read_commander]: the first line that holds the marker is
    decoded and decides; [json.loads] or [.get] raising ends the method in
    its [except] branch. *)
Fixpoint first_commander (lines : list string) : Py.res Py.value :=
  match lines with
  | [] => Py.Ok Py.PyNone
  | line :: rest =>
      if Py.is_substring (event_marker "Commander") line then
        match json_loads line with
        | None => Py.Raise Py.ValueError
        | Some data => Py.get data "Name" (Py.PyStr "Unknown")
        end
      else first_commander rest
  end.

(** [read_commander]: the name, or [None]. *)
Definition read_commander (d : Fs.directory) : Py.value :=
  match latest_text d with
  | None => Py.PyNone
  | Some text =>
      match first_commander (Fs.readlines text) with
      | Py.Ok name => name
      | Py.Raise _ => Py.PyNone
      end
  end.

(** The loop of [read_current_system] over [reversed(lines)]: a marked line
    that does not decode, has no [get], or names no system is passed over
    ([except Exception: continue]). *)
Fixpoint last_system (reversed_lines : list string) : Py.value :=
  match reversed_lines with
  | [] => Py.PyNone
  | line :: rest =>
      if Py.is_substring (event_marker "Location") line
         || Py.is_substring (event_marker "FSDJump") line then
        match json_loads line with
        | Some data =>
            match Py.get data "StarSystem" Py.PyNone with
            | Py.Ok star_system =>
                if Py.truthy star_system then star_system
                else last_system rest
            | Py.Raise _ => last_system rest
            end
        | None => last_system rest
        end
      else last_system rest
  end.

(** [read_current_system]: the system, or [None]. *)
Definition read_current_system (d : Fs.directory) : Py.value :=
  match latest_text d with
  | None => Py.PyNone
  | Some text => last_system (reverse (Fs.readlines text))
  end.

End readers.

End JournalReaderPy.

(** ** Readers of the store: ed_mining_scanner.py, start.py, win_mining.py *)

(** A connection as a reader process holds it.  On an unusable one (the file
    is locked, damaged or not a database) every statement raises an
    [sqlite3.Error]. *)
Module Connection.
Import Py CoreDatabase.

Inductive connection :=
| Open (db : Database)
| Unusable.

(** Running a read-only method on a connection. *)
Definition query {A} (c : connection) (m : M A) : res A :=
  match c with
  | Open db => fst (m db)
  | Unusable => Raise SqliteError
  end.


(** Running a method that writes: its result, and the connection over the
    store the method leaves. *)
Definition execute {A} (c : connection) (m : M A) : res A * connection :=
  match c with
  | Open db => let (r, db') := m db in (r, Open db')
  | Unusable => (Raise SqliteError, Unusable)
  end.

End Connection.

Module EdMiningScanner.
Import Py Sqlite CoreDatabase Connection.

(** ORDER BY id ASC *)
Definition by_id (x y : Asteroid.row) : Prop := Asteroid.id x ≤ Asteroid.id y.

#[global] Instance by_id_dec x y : Decision (by_id x y).
Proof. unfold by_id. apply _. Defined.

#[global] Instance by_id_trans : Transitive by_id.
Proof. intros x y z. unfold by_id. lia. Qed.

#[global] Instance by_id_total : Total by_id.
Proof. intros x y. unfold by_id. lia. Qed.

(** [DatabaseReader.get_unprocessed_asteroids]:
    SELECT * FROM prospected_asteroids WHERE processed = 0 ORDER BY id ASC
    An [sqlite3.Error] is logged and gives the empty list. *)
Definition get_unprocessed_asteroids (c : connection) : list Asteroid.row :=
  match query c (read (fun db =>
          merge_sort by_id (filter unprocessed (prospected_asteroids db)))) with
  | Ok rows => rows
  | Raise _ => []
  end.

(** [DatabaseReader.get_service_status]: the dict built from the row, or
    [{'is_running': False}] when there is no row or the read fails. *)
Definition get_service_status (c : connection) : value :=
  match query c (read service_status) with
  | Ok (Some row) =>
      let col k := to_python (default NULL (row !! k)) in
      PyDict [("is_running", PyBool (truthy (col "is_running")));
              ("pid", col "pid");
              ("last_heartbeat", col "last_heartbeat");
              ("journal_file", col "journal_file")]
  | Ok None => PyDict [("is_running", PyBool false)]
  | Raise _ => PyDict [("is_running", PyBool false)]
  end.


(** [DatabaseReader.mark_asteroid_processed]:
    UPDATE prospected_asteroids SET processed = 1 WHERE id = ?
    An [sqlite3.Error] is logged; another exception leaves the method. *)
Definition mark_asteroid_processed (asteroid_id : Z) (c : connection)
    : res unit * connection :=
  match execute c (CoreDatabase.mark_asteroid_processed asteroid_id) with
  | (Raise SqliteError, c') => (Ok tt, c')
  | r => r
  end.

(** What the loop of [_update_scan_data] does to the store:
      for asteroid in reversed(asteroids):
          ...
          self.database.mark_asteroid_processed(asteroid['id'])
    The statements left out fill the detection table and speak; they catch
    their own exceptions.  An exception of the marking ends the loop. *)
Fixpoint mark_each (asteroids : list Asteroid.row) (c : connection)
    : res unit * connection :=
  match asteroids with
  | [] => (Ok tt, c)
  | asteroid :: rest =>
      match mark_asteroid_processed (Asteroid.id asteroid) c with
      | (Ok _, c') => mark_each rest c'
      | (Raise e, c') => (Raise e, c')
      end
  end.

Definition consume_detections (c : connection) : res unit * connection :=
  mark_each (reverse (get_unprocessed_asteroids c)) c.

(** An id that SQLite can hold. *)
Definition fits_int64 (z : Z) : Prop := - 2 ^ 63 <= z < 2 ^ 63.

#[global] Instance fits_int64_dec z : Decision (fits_int64 z).
Proof. unfold fits_int64. apply _. Defined.


(** A detection once the scanner has consumed it: flagged as processed if
    it was not. *)
Definition consumed (r : Asteroid.row) : Asteroid.row :=
  if decide (unprocessed r) then mark_processed (Asteroid.id r) r else r.


(** [DatabaseReader.get_refined_materials_count]: the number of rows, or 0
    when the read fails. *)
Definition get_refined_materials_count (c : connection) : Z :=
  match query c (CoreDatabase.get_refined_materials_count None) with
  | Ok count => count
  | Raise _ => 0
  end.

(** [DatabaseReader.clear_refined_materials]: an [sqlite3.Error] is
    logged. *)
Definition clear_refined_materials (c : connection) : connection :=
  (execute c CoreDatabase.clear_refined_materials).2.


(** [DatabaseReader.get_game_state]: three columns of the row, or the
    commander and the system as Unknown when there is no row or the read
    fails. *)
Definition get_game_state (c : connection) : value :=
  match query c (read game_state) with
  | Ok (Some row) =>
      let col k := to_python (default NULL (row !! k)) in
      PyDict [("commander_name", col "commander_name");
              ("current_system", col "current_system");
              ("last_updated", col "last_updated")]
  | Ok None | Raise _ =>
      PyDict [("commander_name", PyStr "Unknown");
              ("current_system", PyStr "Unknown")]
  end.

End EdMiningScanner.

Module Launcher.
Import Py CoreDatabase Connection.

(** [is_running] of [LogLauncher] (start.py) and of [LogReaderManager]
    (windows/win_mining.py), which are the same method:
      try: db = get_db(); status = db.get_service_status()
           return bool(status.get('is_running', 0))
      except Exception: return False
    [get_db] hands out the manager, or raises when the database cannot be
    opened. *)
Definition is_running (get_db : res connection) : bool :=
  let answer :=
    db ← get_db;
    status ← query db get_service_status;
    flag ← get status "is_running" (PyInt 0);
    Ok (truthy flag) in
  match answer with
  | Ok b => b
  | Raise _ => false
  end.

End Launcher.

(** ** The specification's own wording, where a property compares it with
    the code *)

Module Spec.
Import Py.

(** Chat subtype classification: an ordered list of rules, each a test on
    the sender and the channel (both in lower case) with the subtype it
    gives.  The first rule that matches wins; [other] is the default. *)
Definition chat_rules : list ((string -> string -> bool) * string) :=
  [ (fun sender _ => is_substring "security" sender
                     || is_substring "system defence" sender, "sec");
    (fun sender _ => is_substring "pirate" sender
                     || is_substring "wing" sender, "pirate");
    (fun _ channel => String.eqb channel "system"
                      || String.eqb channel "local", "system");
    (fun _ channel => String.eqb channel "squadron", "sq");
    (fun _ channel => String.eqb channel "friend", "friends") ].

Definition first_match (sender channel : string) : string :=
  default "other"
    (snd <$> List.find (fun rule => fst rule sender channel) chat_rules).

(** A sender that none of the sender rules is about. *)
Definition unrelated_sender (sender : string) : bool :=
  negb (is_substring "security" (lower_string sender)
        || is_substring "system defence" (lower_string sender)
        || is_substring "pirate" (lower_string sender)
        || is_substring "wing" (lower_string sender)).

(** The cargo capacity a module of a Loadout event declares: none is 0.  A
    module that is no object, or whose capacity is no int, has none. *)
Definition module_capacity (module : value) : option Z :=
  match module with
  | PyDict d =>
      match assoc "CargoCapacity" d with
      | None => Some 0
      | Some (PyInt z) => Some z
      | Some _ => None
      end
  | _ => None
  end.

Definition total_capacity (capacities : list Z) : Z :=
  foldl Z.add 0 capacities.


(** What a surface material of a prospecting event contributes to its
    detection row: the name (the localised one if there is one) and the
    proportion, each as SQLite stores it.  An entry that is no object, or
    whose name or proportion cannot be stored, contributes nothing. *)
Definition surface_cells (material : value) : res (Sqlite.cell * Sqlite.cell) :=
  name ← get material "Name" (PyStr "Unknown");
  material_name ← get material "Name_Localised" name;
  proportion ← get material "Proportion" (PyFloat 0);
  c_name ← Sqlite.bind material_name;
  c_pct ← Sqlite.bind proportion;
  Ok (c_name, c_pct).

End Spec.

(** ** What a Cargo event holds *)

(** ** windows/win_chat.py: what the chat window reads from the store

    Of the window, the messages it has handed to [_add_message_to_table], in
    order, and [last_timestamp]; the widgets are not modelled. *)

Module WinChat.
Import Py Sqlite CoreDatabase.

Record ChatMonitorWindow := {
  shown : list Chat.row;
  last_timestamp : string
}.

(** The state [__init__] and [_clear_chat] set. *)
Definition ChatMonitorWindow_init : ChatMonitorWindow :=
  {| shown := []; last_timestamp := "1970-01-01T00:00:00Z" |}.

(** The body of the loop of [_update_data]: the message is added to the
    table and [last_timestamp] becomes [msg["journal_timestamp"]], which is
    a text in every row the query returns. *)
Definition show_message (w : ChatMonitorWindow) (msg : Chat.row)
    : ChatMonitorWindow :=
  {| shown := shown w ++ [msg];
     last_timestamp := default (last_timestamp w) (stamp msg) |}.

(** [_update_data], called by the timer, on the store as it is then. *)
Definition _update_data (db : Database) (w : ChatMonitorWindow)
    : ChatMonitorWindow :=
  match (get_new_chat_messages (last_timestamp w) db).1 with
  | Ok messages => foldl show_message w messages
  | Raise _ => w
  end.

(** [_clear_chat]: the table of the store and the table of the window are
    emptied and [last_timestamp] is set back. *)
Definition _clear_chat (db : Database) : Database * ChatMonitorWindow :=
  ((clear_chat_messages db).2, ChatMonitorWindow_init).

(** The timer firing once on each of the successive states of the store. *)
Definition polls (dbs : list Database) (w : ChatMonitorWindow)
    : ChatMonitorWindow :=
  foldl (fun w db => _update_data db w) w dbs.

End WinChat.


Module Inventory.
Import Py.

(** An entry of the inventory is read as its name and its count.  The
    handler takes for limpets the entries whose name, in lower case, holds
    [limpet]. *)
Definition is_limpet (entry : string * Z) : bool :=
  is_substring "limpet" (lower_string entry.1).

Definition total (entries : list (string * Z)) : Z :=
  foldr (fun entry sum => entry.2 + sum) 0 entries.

Definition limpets (entries : list (string * Z)) : Z :=
  total (List.filter is_limpet entries).

Definition cargo (entries : list (string * Z)) : Z :=
  total (List.filter (fun entry => negb (is_limpet entry)) entries).

(** An item of the event that reads as the entry: a JSON object whose Name
    is the str and whose Count is the int. *)
Definition reads_as (item : value) (entry : string * Z) : Prop :=
  get item "Name" (PyStr EmptyString) = Ok (PyStr entry.1)
  /\ get item "Count" (PyInt 0) = Ok (PyInt entry.2).

End Inventory.


(** ** Invariants of the store *)

Module Invariants.
Import Py Sqlite CoreDatabase.

(** The ids of an AUTOINCREMENT table: strictly increasing in insertion
    order, and none above the counter [sqlite_sequence] keeps for the
    table. *)
Definition numbered (ids : list Z) (counter : option Z) : Prop :=
  StronglySorted Z.lt ids /\ Forall (fun i => i <= default 0 counter) ids.

#[global] Instance numbered_dec ids counter : Decision (numbered ids counter).
Proof. unfold numbered. apply _. Defined.

Definition well_numbered (db : Database) : Prop :=
  numbered (Carrier.id <$> fleet_carriers db)
           (sqlite_sequence db !! "fleet_carriers")
  /\ numbered (Signal.id <$> fss_signals db)
              (sqlite_sequence db !! "fss_signals")
  /\ numbered (Asteroid.id <$> prospected_asteroids db)
              (sqlite_sequence db !! "prospected_asteroids")
  /\ numbered (Refined.id <$> refined_materials db)
              (sqlite_sequence db !! "refined_materials")
  /\ numbered (Chat.id <$> chat_messages db)
              (sqlite_sequence db !! "chat_messages").

#[global] Instance well_numbered_dec db : Decision (well_numbered db).
Proof. unfold well_numbered. apply _. Defined.

(** What projecting journal lines may do to the store: the clock, the
    process id and the service status row are not its business; the signal,
    detection, refined-material and chat tables only receive new rows at
    their end; a singleton row that exists keeps existing. *)
Definition grows (db db' : Database) : Prop :=
  env db' = env db
  /\ service_status db' = service_status db
  /\ (is_Some (game_state db) -> is_Some (game_state db'))
  /\ (is_Some (ship_status db) -> is_Some (ship_status db'))
  /\ fss_signals db `prefix_of` fss_signals db'
  /\ prospected_asteroids db `prefix_of` prospected_asteroids db'
  /\ refined_materials db `prefix_of` refined_materials db'
  /\ chat_messages db `prefix_of` chat_messages db'.

(** The UNIQUE index on the name of a fleet carrier: no row carries a name
    that the index takes for equal to the name of a row inserted before
    it. *)
Definition distinct_carriers (db : Database) : Prop :=
  StronglySorted
    (fun r r' => cell_eqb (Carrier.signal_name r) (Carrier.signal_name r')
                 = false)
    (fleet_carriers db).

(** All at once, for a run from [db] to [db']. *)
Definition step (db db' : Database) : Prop :=
  grows db db'
  /\ (well_numbered db -> well_numbered db')
  /\ (distinct_carriers db -> distinct_carriers db').

(** A statement, or a sequence of statements, all of whose runs are
    steps. *)
Definition steps {A} (m : M A) : Prop := forall db, step db (m db).2.


(** The service status row exists and says that the service runs. *)
Definition flagged_running (db : Database) : Prop :=
  exists r, service_status db = Some r
            /\ r !! "is_running" = Some (INTEGER 1).


(** The column [journal_timestamp] of the chat messages has TEXT affinity:
    a row holds a text there, or NULL. *)
Definition text_stamped (db : Database) : Prop :=
  Forall (fun r => match Chat.journal_timestamp r with
                   | NULL | TEXT _ => True
                   | _ => False
                   end) (chat_messages db).

#[global] Instance text_stamped_dec db : Decision (text_stamped db).
Proof.
  unfold text_stamped. apply Forall_dec.
  intros r. destruct (Chat.journal_timestamp r); apply _.
Defined.

End Invariants.


(** ** Sample journals, events and stores *)

Module Samples.
Import Py Sqlite CoreDatabase.

Definition env0 : Env :=
  {| CURRENT_TIMESTAMP := "2025-11-29 12:00:00";
     utcnow_isoformat := "2025-11-29T12:00:00.000000";
     getpid := 4242 |}.

(** Five seconds later. *)
Definition env1 : Env :=
  {| CURRENT_TIMESTAMP := "2025-11-29 12:00:05";
     utcnow_isoformat := "2025-11-29T12:00:05.000000";
     getpid := 4242 |}.

(** The event of the docstring of [_handle_prospected_asteroid]. *)
Definition prospected_event : value :=
  PyDict [("timestamp", PyStr "2025-11-29T11:59:51Z");
          ("event", PyStr "ProspectedAsteroid");
          ("Materials",
           PyList [PyDict [("Name", PyStr "Platinum");
                           ("Proportion", PyFloat 51.662041)];
                   PyDict [("Name", PyStr "Praseodymium");
                           ("Proportion", PyFloat 11.502447)]]);
          ("MotherlodeMaterial", PyStr "Painite");
          ("Content", PyStr "$AsteroidMaterialContent_Medium;");
          ("Content_Localised", PyStr "Material Content: Medium");
          ("Remaining", PyFloat 100)].

(** An asteroid with one surface material at 63.4 percent. *)
Definition osmium_event : value :=
  PyDict [("timestamp", PyStr "2025-11-29T12:03:10Z");
          ("event", PyStr "ProspectedAsteroid");
          ("Materials",
           PyList [PyDict [("Name", PyStr "Osmium");
                           ("Proportion", PyFloat 63.4)]]);
          ("Content", PyStr "$AsteroidMaterialContent_High;");
          ("Content_Localised", PyStr "Material Content: High");
          ("Remaining", PyFloat 100)].

Definition location_event : value :=
  PyDict [("timestamp", PyStr "2025-11-29T11:40:02Z");
          ("event", PyStr "Location");
          ("StarSystem", PyStr "Sol")].

(** A ship with two cargo racks, and the same ship refitted without any. *)
Definition loadout_event : value :=
  PyDict [("timestamp", PyStr "2025-11-29T11:41:00Z");
          ("event", PyStr "Loadout");
          ("Modules",
           PyList [PyDict [("Slot", PyStr "Slot01_Size5");
                           ("CargoCapacity", PyInt 32)];
                   PyDict [("Slot", PyStr "PowerPlant")];
                   PyDict [("Slot", PyStr "Slot02_Size5");
                           ("CargoCapacity", PyInt 32)]])].

Definition loadout_no_cargo : value :=
  PyDict [("timestamp", PyStr "2025-11-29T11:55:00Z");
          ("event", PyStr "Loadout");
          ("Modules",
           PyList [PyDict [("Slot", PyStr "PowerPlant")];
                   PyDict [("Slot", PyStr "Slot01_Size5")]])].

Definition chat_event : value :=
  PyDict [("timestamp", PyStr "2025-11-29T11:50:00Z");
          ("event", PyStr "ReceiveText");
          ("From_Localised", PyStr "System Defence Patrol");
          ("Message_Localised", PyStr "Scan detected.");
          ("Channel", PyStr "npc")].

(** Journal lines.  A line holds double quotes, which are written by their
    character code. *)
Definition dq : string := String (ascii_of_nat 34) EmptyString.

Definition quoted (s : string) : string := dq +:+ s +:+ dq.

Definition location_line : string :=
  "{ " +:+ quoted "timestamp" +:+ ":" +:+ quoted "2025-11-29T11:40:02Z"
  +:+ ", " +:+ quoted "event" +:+ ":" +:+ quoted "Location"
  +:+ ", " +:+ quoted "StarSystem" +:+ ":" +:+ quoted "Sol" +:+ " }".

Definition chat_line : string :=
  "{ " +:+ quoted "timestamp" +:+ ":" +:+ quoted "2025-11-29T11:50:00Z"
  +:+ ", " +:+ quoted "event" +:+ ":" +:+ quoted "ReceiveText"
  +:+ ", " +:+ quoted "From_Localised" +:+ ":"
  +:+ quoted "System Defence Patrol"
  +:+ ", " +:+ quoted "Message_Localised" +:+ ":" +:+ quoted "Scan detected."
  +:+ ", " +:+ quoted "Channel" +:+ ":" +:+ quoted "npc" +:+ " }".


(** A decoder that knows the two well-formed lines above; it stands for
    [json.loads] on this journal. *)
Definition sample_loads (line : string) : option value :=
  if String.eqb line location_line then Some location_event
  else if String.eqb line chat_line then Some chat_event
  else None.


(** The store as created at noon, read five seconds later. *)
Definition db_later : Database := set_env env1 (fresh env0).

(** The store after the Loadout event of the ship with two cargo racks. *)
Definition db_with_racks : Database :=
  ServiceGamelog._handle_Loadout loadout_event (fresh env0).


(** The same asteroid prospected twice, five seconds apart, by the
    refactored service. *)
Definition db_two_scans : Database :=
  ServiceGamelog._handle_ProspectedAsteroid osmium_event
    (set_env env1
       (ServiceGamelog._handle_ProspectedAsteroid osmium_event (fresh env0))).

(** The ids of the rows a query returned. *)
Definition ids (result : res (list Asteroid.row)) : list Z :=
  match result with
  | Ok rows => Asteroid.id <$> rows
  | Raise _ => []
  end.


(** A journal directory with yesterday's and today's journal, and the same
    directory after another program has rewritten yesterday's file: only
    the times of that file differ. *)
Definition dir_untouched : Fs.directory :=
  Some [ {| Fs.name := "Journal.2025-11-28T200000.01.log";
            Fs.st_mtime := 1764367200; Fs.st_ctime := 1764360000;
            Fs.content := "" |};
         {| Fs.name := "Journal.2025-11-29T110000.01.log";
            Fs.st_mtime := 1764417600; Fs.st_ctime := 1764414000;
            Fs.content := "" |} ].

Definition dir_touched : Fs.directory :=
  Some [ {| Fs.name := "Journal.2025-11-28T200000.01.log";
            Fs.st_mtime := 1764420000; Fs.st_ctime := 1764420000;
            Fs.content := "" |};
         {| Fs.name := "Journal.2025-11-29T110000.01.log";
            Fs.st_mtime := 1764417600; Fs.st_ctime := 1764414000;
            Fs.content := "" |} ].


(** A journal being written: the game has flushed the first half of a
    line, and later the second half with its line feed. *)
Definition half_line : string :=
  "{ " +:+ quoted "timestamp" +:+ ":" +:+ quoted "2025-11-2".

Definition other_half : string :=
  "9T11:40:02Z" +:+ dq +:+ ", " +:+ quoted "event" +:+ ":"
  +:+ quoted "Location" +:+ " }".

Definition journal_mid_write : Fs.file :=
  {| Fs.name := "Journal.2025-11-29T110000.01.log";
     Fs.st_mtime := 1764417600; Fs.st_ctime := 1764414000;
     Fs.content := half_line |}.

Definition journal_completed : Fs.file :=
  {| Fs.name := "Journal.2025-11-29T110000.01.log";
     Fs.st_mtime := 1764417601; Fs.st_ctime := 1764414000;
     Fs.content := half_line +:+ other_half +:+ Fs.LF |}.

(** A monitor that opened the journal when it was still empty. *)
Definition monitor_at_start : ServiceGamelog.JournalMonitor :=
  {| ServiceGamelog.current_file := Some "Journal.2025-11-29T110000.01.log";
     ServiceGamelog.file_handle :=
       Some {| ServiceGamelog.h_path := "Journal.2025-11-29T110000.01.log";
               ServiceGamelog.h_closed := false |};
     ServiceGamelog.last_position := 0 |}.


(** The journal after the game has written one event, and after it has
    written a second one. *)
Definition journal_one_line : Fs.file :=
  {| Fs.name := "Journal.2025-11-29T110000.01.log";
     Fs.st_mtime := 1764417600; Fs.st_ctime := 1764414000;
     Fs.content := location_line +:+ Fs.LF |}.

Definition journal_two_lines : Fs.file :=
  {| Fs.name := "Journal.2025-11-29T110000.01.log";
     Fs.st_mtime := 1764417650; Fs.st_ctime := 1764414000;
     Fs.content := (location_line +:+ Fs.LF) +:+ (chat_line +:+ Fs.LF) |}.


(** The game has started a new journal and written an event to it, while
    the monitor still follows yesterday's. *)
Definition dir_rotated : Fs.directory :=
  Some [ {| Fs.name := "Journal.2025-11-28T200000.01.log";
            Fs.st_mtime := 1764367200; Fs.st_ctime := 1764360000;
            Fs.content := "" |};
         journal_one_line ].

Definition monitor_on_yesterday : ServiceGamelog.JournalMonitor :=
  {| ServiceGamelog.current_file := Some "Journal.2025-11-28T200000.01.log";
     ServiceGamelog.file_handle :=
       Some {| ServiceGamelog.h_path := "Journal.2025-11-28T200000.01.log";
               ServiceGamelog.h_closed := false |};
     ServiceGamelog.last_position := 0 |}.


(** A log reader that opened the journal when it was still empty. *)
Definition reader_at_start : EdLogReader.JournalReader :=
  {| EdLogReader.current_file := Some "Journal.2025-11-29T110000.01.log";
     EdLogReader.file_handle :=
       Some {| EdLogReader.h_path := "Journal.2025-11-29T110000.01.log";
               EdLogReader.h_offset := 0;
               EdLogReader.h_closed := false |};
     EdLogReader.position := 0 |}.


Definition reader_on_yesterday : EdLogReader.JournalReader :=
  {| EdLogReader.current_file := Some "Journal.2025-11-28T200000.01.log";
     EdLogReader.file_handle :=
       Some {| EdLogReader.h_path := "Journal.2025-11-28T200000.01.log";
               EdLogReader.h_offset := 0;
               EdLogReader.h_closed := false |};
     EdLogReader.position := 0 |}.


(** A journal whose second line is the JSON number 42, and a decoder that
    knows it. *)
Definition journal_with_number : Fs.file :=
  {| Fs.name := "Journal.2025-11-29T110000.01.log";
     Fs.st_mtime := 1764417650; Fs.st_ctime := 1764414000;
     Fs.content := (location_line +:+ Fs.LF) +:+ ("42" +:+ Fs.LF) |}.

Definition loads_with_number (line : string) : option value :=
  if String.eqb (strip line) "42" then Some (PyInt 42)
  else sample_loads (strip line).


(** A journal that opens with the commander's line, and a decoder that
    knows its lines. *)
Definition commander_event : value :=
  PyDict [("timestamp", PyStr "2025-11-29T11:39:58Z");
          ("event", PyStr "Commander");
          ("FID", PyStr "F1234567");
          ("Name", PyStr "Jameson")].

Definition commander_line : string :=
  "{ " +:+ quoted "timestamp" +:+ ":" +:+ quoted "2025-11-29T11:39:58Z"
  +:+ ", " +:+ quoted "event" +:+ ":" +:+ quoted "Commander"
  +:+ ", " +:+ quoted "FID" +:+ ":" +:+ quoted "F1234567"
  +:+ ", " +:+ quoted "Name" +:+ ":" +:+ quoted "Jameson" +:+ " }".

Definition journal_with_commander : Fs.file :=
  {| Fs.name := "Journal.2025-11-29T110000.01.log";
     Fs.st_mtime := 1764417650; Fs.st_ctime := 1764414000;
     Fs.content := (commander_line +:+ Fs.LF) +:+ (location_line +:+ Fs.LF)
                   +:+ (chat_line +:+ Fs.LF) |}.

Definition loads_journal (line : string) : option value :=
  if String.eqb (strip line) commander_line then Some commander_event
  else loads_with_number line.


(** A hold with twelve tons of platinum and twenty limpets, which the
    journal lists under the name [drones]. *)
Definition cargo_event : value :=
  PyDict [("timestamp", PyStr "2025-11-29T12:10:00Z");
          ("event", PyStr "Cargo");
          ("Vessel", PyStr "Ship");
          ("Inventory",
           PyList [PyDict [("Name", PyStr "platinum"); ("Count", PyInt 12);
                           ("Stolen", PyInt 0)];
                   PyDict [("Name", PyStr "drones");
                           ("Name_Localised", PyStr "Limpet");
                           ("Count", PyInt 20); ("Stolen", PyInt 0)]])].


Definition market_sell_event : value :=
  PyDict [("timestamp", PyStr "2025-11-29T13:00:00Z");
          ("event", PyStr "MarketSell");
          ("MarketID", PyInt 3228883456);
          ("Type", PyStr "platinum");
          ("Count", PyInt 12);
          ("SellPrice", PyInt 125000);
          ("TotalSale", PyInt 1500000)].


(** A signal that the handler files as a fleet carrier, and a decoder for a
    journal in which every line is that signal. *)
Definition carrier_event : value :=
  PyDict [("timestamp", PyStr "2025-11-29T12:20:00Z");
          ("event", PyStr "FSSSignalDiscovered");
          ("SystemAddress", PyInt 10477373803);
          ("SignalName", PyStr "Deep Space Hauler (K7Q-B2Z)");
          ("IsStation", PyBool true)].

Definition loads_carrier (line : string) : option value := Some carrier_event.


Definition refined_event : value :=
  PyDict [("timestamp", PyStr "2025-11-29T12:30:00Z");
          ("event", PyStr "MiningRefined");
          ("Type", PyStr "$platinum_name;");
          ("Type_Localised", PyStr "Platinum")].


(** An event neither service projects, and a decoder for a journal in which
    every line is that event. *)
Definition music_event : value :=
  PyDict [("timestamp", PyStr "2025-11-29T12:40:00Z");
          ("event", PyStr "Music");
          ("MusicTrack", PyStr "Exploration")].

Definition loads_music (line : string) : option value := Some music_event.


(** A LoadGame event whose credits exceed what SQLite can hold. *)
Definition load_game_event : value :=
  PyDict [("timestamp", PyStr "2025-11-29T11:39:59Z");
          ("event", PyStr "LoadGame");
          ("Commander", PyStr "Jameson");
          ("Ship", PyStr "Python");
          ("Credits", PyInt 18446744073709551616)].


(** A table of material configurations: Painite, then Platinum. *)
Definition material_configs : Material.table :=
  {| Material.rows :=
       [ {| Material.id := 1; Material.material_name := "Painite";
            Material.min_percentage := REAL 25; Material.target_price := INTEGER 0;
            Material.track_surface := INTEGER 1;
            Material.track_deepcore := INTEGER 1;
            Material.enabled := INTEGER 1 |};
         {| Material.id := 2; Material.material_name := "Platinum";
            Material.min_percentage := REAL 20;
            Material.target_price := INTEGER 200000;
            Material.track_surface := INTEGER 1;
            Material.track_deepcore := INTEGER 0;
            Material.enabled := INTEGER 1 |} ];
     Material.seq := 2 |}.

End Samples.

(** * Properties *)

Import Py Sqlite CoreDatabase.

(** ** Reasoning about the monads *)

Lemma bind_res_ok {A B} (m : res A) (f : A -> res B) (b : B) :
  (m ≫= f) = Ok b -> exists a, m = Ok a /\ f a = Ok b.
Proof. destruct m; simpl; [eauto | discriminate]. Qed.

Lemma bind_M_ok {A B} (m : M A) (f : A -> M B) db (b : B) db' :
  (m ≫= f) db = (Ok b, db') ->
  exists a db1, m db = (Ok a, db1) /\ f a db1 = (Ok b, db').
Proof.
  unfold mbind, M_bind.
  destruct (m db) as [[a|e] db1]; [eauto | discriminate].
Qed.

Lemma lift_ok {A} (r : res A) db (a : A) db' :
  lift r db = (Ok a, db') -> r = Ok a /\ db' = db.
Proof. unfold lift. intros [= -> ->]. done. Qed.

Lemma read_ok {A} (f : Database -> A) db (a : A) db' :
  read f db = (Ok a, db') -> a = f db /\ db' = db.
Proof. unfold read. intros [= <- <-]. done. Qed.

Lemma write_ok (f : Database -> Database) db u db' :
  write f db = (Ok u, db') -> db' = f db.
Proof. unfold write. intros [= _ <-]. done. Qed.

(** Splits a successful run of a sequence of binds into its steps. *)
Ltac inv_M H :=
  repeat match type of H with
  | (mbind _ _) _ = (Ok _, _) =>
      let a := fresh "a" in
      let db1 := fresh "db" in
      let H1 := fresh "H" in
      apply bind_M_ok in H as (a & db1 & H1 & H);
      first [ apply lift_ok in H1 as [H1 ->]
            | apply read_ok in H1 as [-> ->]
            | idtac ]
  end.

(** ** Chat classification *)

Lemma chat_subtype_first_match (sender channel : string) :
  chat_subtype sender channel
  = Spec.first_match (lower_string sender) channel.
Proof.
  unfold chat_subtype, Spec.first_match, Spec.chat_rules. simpl.
  repeat (match goal with |- context [if ?b then _ else _] =>
            destruct b eqn:? end; simpl; try reflexivity).
Qed.

(** C7.  The subtype [add_chat_message] stores is the one the ordered,
    case-insensitive rule list gives: the row it appends carries
    [chat_subtype] of the sender and the lower-cased channel, and
    [chat_subtype] agrees with the first matching rule of the
    specification's list.  In particular the sender System Defence Patrol
    is [sec] on every channel, and an unrelated sender on the squadron
    channel (in any letter case) is [sq]. *)
Theorem chat_subtype_is_first_matching_rule :
  (forall data db db',
      add_chat_message data db = (Ok tt, db') ->
      exists sender channel row,
        get data "From_Localised" (PyStr "Unknown") = Ok (PyStr sender)
        /\ get data "Channel" (PyStr "unknown") = Ok (PyStr channel)
        /\ chat_messages db' = (chat_messages db ++ [row])%list
        /\ Chat.subtype row
           = TEXT (Spec.first_match (lower_string sender)
                                    (lower_string channel)))
  /\ (forall channel,
         chat_subtype "System Defence Patrol" (lower_string channel) = "sec")
  /\ (forall sender channel,
         Spec.unrelated_sender sender = true ->
         lower_string channel = "squadron" ->
         chat_subtype sender (lower_string channel) = "sq").
Proof.
  split; [|split].
  - intros data db db' H. unfold add_chat_message in H. inv_M H.
    apply write_ok in H. subst db'.
    destruct a1 as [| | | |sender| |]; try discriminate.
    destruct a as [| | | |channel| |]; try discriminate.
    simpl in *. simplify_eq.
    eexists _, _, _. repeat split; try eassumption.
    simpl. by rewrite chat_subtype_first_match.
  - intros channel. reflexivity.
  - intros sender channel Hun ->. unfold Spec.unrelated_sender in Hun.
    apply negb_true_iff in Hun.
    repeat (apply orb_false_iff in Hun as [Hun ?]).
    unfold chat_subtype. by repeat match goal with H : _ = false |- _ =>
      rewrite H; clear H end.
Qed.

Lemma chat_subtype_witness :
  exists row,
    chat_messages (snd (add_chat_message Samples.chat_event
                          (fresh Samples.env0))) = [row]
    /\ Chat.subtype row = TEXT "sec".
Proof.
  destruct (proj1 chat_subtype_is_first_matching_rule Samples.chat_event
              (fresh Samples.env0)
              (snd (add_chat_message Samples.chat_event (fresh Samples.env0)))
              eq_refl)
    as (sender & channel & row & Hs & Hc & Hrows & Hsub).
  exists row. split; [exact Hrows|].
  injection Hs as <-. injection Hc as <-. exact Hsub.
Defined.

(** ** Malformed lines *)


Lemma run_iteration_keeps_running json_loads d svc db :
  ServiceGamelog.running
    (fst (ServiceGamelog.run_iteration json_loads d (svc, db)))
  = ServiceGamelog.running svc.
Proof.
  unfold ServiceGamelog.run_iteration.
  destruct (ServiceGamelog.read_new_lines d (ServiceGamelog.monitor svc))
    as [m lines].
  destruct (10 <=? ServiceGamelog.heartbeat_counter svc + 1); [|reflexivity].
  destruct (update_service_status _ _) as [[u|e] db2]; reflexivity.
Qed.



(** ** The is-running query *)

(** C10.  [is_running] answers [False], and does not raise, when the store
    cannot be opened, when the status read fails, and when the store holds
    no service-status record; the reader's [get_service_status] of
    ed_mining_scanner.py reports [is_running: False] in the last two
    cases.  The answer is a function of the store alone. *)
Theorem is_running_false_without_status :
  (forall e, Launcher.is_running (Raise e) = false)
  /\ Launcher.is_running (Ok Connection.Unusable) = false
  /\ (forall db,
         service_status db = None ->
         Launcher.is_running (Ok (Connection.Open db)) = false)
  /\ EdMiningScanner.get_service_status Connection.Unusable
     = PyDict [("is_running", PyBool false)]
  /\ (forall db,
         service_status db = None ->
         EdMiningScanner.get_service_status (Connection.Open db)
         = PyDict [("is_running", PyBool false)]).
Proof.
  repeat split; try reflexivity.
  - intros db Hnone. unfold Launcher.is_running. simpl.
    unfold get_service_status, read. simpl. by rewrite Hnone.
  - intros db Hnone. unfold EdMiningScanner.get_service_status. simpl.
    by rewrite Hnone.
Qed.

Lemma is_running_witness :
  Launcher.is_running (Ok (Connection.Open (no_tables Samples.env0))) = false.
Proof.
  apply (proj1 (proj2 (proj2 is_running_false_without_status))).
  reflexivity.
Defined.

(** ** Partial updates of the singleton tables *)

Lemma bound_params_keys (kwargs : list (string * value))
    (params : list (string * cell)) :
  mapM (fun kv => c ← bind kv.2; Ok (kv.1, c)) kwargs = Ok params ->
  params.*1 = kwargs.*1.
Proof.
  revert params. induction kwargs as [|[k v] kwargs IH]; intros params H.
  - injection H as <-. reflexivity.
  - simpl in H. apply bind_res_ok in H as ([k' c] & Hc & H).
    apply bind_res_ok in Hc as (c' & Hc & [= <- <-]).
    apply bind_res_ok in H as (rest & Hrest & [= <-]).
    simpl. f_equal. by apply IH.
Qed.

Lemma foldl_assign_other (l : list (string * cell)) (r : gmap string cell)
    (col : string) :
  col ∉ l.*1 -> foldl assign r l !! col = r !! col.
Proof.
  revert r. induction l as [|[k c] l IH]; intros r Hnot; [reflexivity|].
  simpl in *. apply not_elem_of_cons in Hnot as [Hne Hnot].
  rewrite IH by assumption. unfold assign. simpl.
  by apply lookup_insert_ne.
Qed.

Lemma sql_update_other columns kwargs tail (r r' : gmap string cell)
    (col : string) :
  sql_update columns kwargs tail (Some r) = Ok (Some r') ->
  col ∉ kwargs.*1 -> col ∉ tail.*1 ->
  r' !! col = r !! col.
Proof.
  unfold sql_update. intros H Hk Ht.
  destruct kwargs as [|kv kwargs]; [discriminate|].
  destruct (forallb _ _); [|discriminate].
  apply bind_res_ok in H as (params & Hparams & H).
  destruct (id_is_1 _); [|discriminate]. injection H as <-.
  apply foldl_assign_other. rewrite fmap_app.
  apply bound_params_keys in Hparams. rewrite Hparams.
  intros [?|?]%elem_of_app; contradiction.
Qed.

Lemma sql_update_no_row columns kwargs tail r' :
  sql_update columns kwargs tail None = Ok r' -> r' = None.
Proof.
  unfold sql_update. intros H.
  destruct kwargs as [|kv kwargs]; [discriminate|].
  destruct (forallb _ _); [|discriminate].
  apply bind_res_ok in H as (params & Hparams & H). by injection H.
Qed.

Lemma sql_update_column columns kwargs tail table table' (col : string) :
  sql_update columns kwargs tail table = Ok table' ->
  col ∉ kwargs.*1 -> col ∉ tail.*1 ->
  column table' col = column table col.
Proof.
  intros H Hk Ht. destruct table as [r|].
  - destruct table' as [r'|].
    + simpl. by eapply sql_update_other.
    + exfalso. unfold sql_update in H.
      destruct kwargs as [|kv kwargs]; [discriminate|].
      destruct (forallb _ _); [|discriminate].
      apply bind_res_ok in H as (params & Hparams & H).
      destruct (id_is_1 _); discriminate.
  - apply sql_update_no_row in H. by subst.
Qed.

(** Settles a decidable statement about given data by evaluating its
    decision procedure. *)
Ltac decide_by_computation := apply (bool_decide_unpack _); by vm_compute.

Lemma ed_update_game_state_other commander system log_path db db'
    (col : string) :
  EdLogReader.update_game_state commander system log_path db = (Ok tt, db') ->
  db' = set_game_state (game_state db') db
  /\ ((col = "commander_name" /\ truthy commander = false
       \/ col = "current_system" /\ truthy system = false
       \/ col = "log_file_path" /\ truthy log_path = false
       \/ col = "id") ->
      column (game_state db') col = column (game_state db) col).
Proof.
  unfold EdLogReader.update_game_state, EdLogReader.except_sqlite_error.
  set (updates := (_ ++ _ ++ _)%list).
  assert (Hkeys : (col = "commander_name" /\ truthy commander = false
       \/ col = "current_system" /\ truthy system = false
       \/ col = "log_file_path" /\ truthy log_path = false
       \/ col = "id") -> col ∉ updates.*1).
  { subst updates. intros Hc.
    destruct (truthy commander), (truthy system), (truthy log_path); simpl;
      destruct Hc as [[-> Ht]|[[-> Ht]|[[-> Ht]| ->]]];
      try discriminate Ht; decide_by_computation. }
  clearbody updates. intros H. destruct updates as [|u us].
  { injection H as <-. by destruct db. }
  destruct (sql_update _ _ _ _) as [r|e] eqn:E.
  - injection H as <-. split; [done|]. intros Hc. simpl.
    eapply sql_update_column; [exact E|by apply Hkeys|].
    simpl. intros Hin%list_elem_of_singleton.
    destruct Hc as [[-> _]|[[-> _]|[[-> _]| ->]]]; discriminate.
  - destruct e; try discriminate H. injection H as <-.
    split; [by destruct db|done].
Qed.

(** C9, as the code has it.  A partial update of a singleton table changes
    that table only, and in it only the columns named by the keywords and,
    for the game state and the ship status, the [last_updated] column, which
    every such write sets to the current time; the service status has no
    such column and keeps every column that is not named.  The log reader's
    own [update_game_state] names the columns whose argument is truthy and
    keeps the others, [last_updated] apart.  A write that raises changes
    nothing. *)
Theorem partial_update_keeps_unnamed_columns
    (kwargs : list (string * value)) (db : Database) (col : string) :
  col ∉ kwargs.*1 ->
  (forall db',
      update_game_state kwargs db = (Ok tt, db') ->
      db' = set_game_state (game_state db') db
      /\ (col ≠ "last_updated" ->
          column (game_state db') col = column (game_state db) col))
  /\ (forall db',
         update_ship_status kwargs db = (Ok tt, db') ->
         db' = set_ship_status (ship_status db') db
         /\ (col ≠ "last_updated" ->
             column (ship_status db') col = column (ship_status db) col))
  /\ (forall db',
         update_service_status kwargs db = (Ok tt, db') ->
         db' = set_service_status (service_status db') db
         /\ column (service_status db') col = column (service_status db) col)
  /\ (forall e,
         (fst (update_game_state kwargs db) = Raise e ->
          snd (update_game_state kwargs db) = db)
         /\ (fst (update_ship_status kwargs db) = Raise e ->
             snd (update_ship_status kwargs db) = db)
         /\ (fst (update_service_status kwargs db) = Raise e ->
             snd (update_service_status kwargs db) = db))
  /\ (forall commander system log_path db',
         EdLogReader.update_game_state commander system log_path db
         = (Ok tt, db') ->
         db' = set_game_state (game_state db') db
         /\ (truthy commander = false ->
             column (game_state db') "commander_name"
             = column (game_state db) "commander_name")
         /\ (truthy system = false ->
             column (game_state db') "current_system"
             = column (game_state db) "current_system")
         /\ (truthy log_path = false ->
             column (game_state db') "log_file_path"
             = column (game_state db) "log_file_path")).
Proof.
  intros Hcol.
  split; [|split; [|split; [|split]]]; [| | | |
    intros commander system log_path db' H;
    repeat split;
    [ eapply (ed_update_game_state_other _ _ _ _ _ "id"); exact H
    | intros Hf;
      eapply (ed_update_game_state_other _ _ _ _ _ "commander_name");
        [exact H | by left]
    | intros Hf;
      eapply (ed_update_game_state_other _ _ _ _ _ "current_system");
        [exact H | by right; left]
    | intros Hf;
      eapply (ed_update_game_state_other _ _ _ _ _ "log_file_path");
        [exact H | by right; right; left] ] ];
  repeat split.
  - unfold update_game_state in H.
    destruct (sql_update _ _ _ _) as [r|e]; by simplify_eq.
  - intros Hne. unfold update_game_state in H.
    destruct (sql_update _ _ _ _) as [r|e] eqn:E; simplify_eq. simpl.
    eapply sql_update_column; [exact E|exact Hcol|].
    simpl. by intros ->%list_elem_of_singleton.
  - unfold update_ship_status in H.
    destruct (sql_update _ _ _ _) as [r|e]; by simplify_eq.
  - intros Hne. unfold update_ship_status in H.
    destruct (sql_update _ _ _ _) as [r|e] eqn:E; simplify_eq. simpl.
    eapply sql_update_column; [exact E|exact Hcol|].
    simpl. by intros ->%list_elem_of_singleton.
  - unfold update_service_status in H.
    destruct (sql_update _ _ _ _) as [r|e]; by simplify_eq.
  - unfold update_service_status in H.
    destruct (sql_update _ _ _ _) as [r|e] eqn:E; simplify_eq. simpl.
    eapply sql_update_column; [exact E|exact Hcol|].
    simpl. apply not_elem_of_nil.
  - unfold update_game_state.
    destruct (sql_update _ _ _ _) as [r|e']; [discriminate|done].
  - unfold update_ship_status.
    destruct (sql_update _ _ _ _) as [r|e']; [discriminate|done].
  - unfold update_service_status.
    destruct (sql_update _ _ _ _) as [r|e']; [discriminate|done].
Qed.

(** C9 as the specification states it fails: a write that names only
    [current_system] also replaces the last-update timestamp of the session
    state, which held the creation time, by the current time. *)
Lemma update_game_state_replaces_last_updated :
  fst (update_game_state [("current_system", PyStr "Sol")] Samples.db_later)
  = Ok tt
  /\ column (game_state Samples.db_later) "last_updated"
     = Some (TEXT "2025-11-29 12:00:00")
  /\ column (game_state
               (snd (update_game_state [("current_system", PyStr "Sol")]
                       Samples.db_later))) "last_updated"
     = Some (TEXT "2025-11-29 12:00:05").
Proof. repeat split; by vm_compute. Qed.

Lemma partial_update_witness :
  ("cargo_capacity" ∉ [("cargo_count", PyInt 5)].*1)
  /\ column (ship_status
               (snd (update_ship_status [("cargo_count", PyInt 5)]
                       Samples.db_later))) "cargo_capacity"
     = column (ship_status Samples.db_later) "cargo_capacity".
Proof.
  assert (Hcol : "cargo_capacity" ∉ [("cargo_count", PyInt 5)].*1)
    by decide_by_computation.
  split; [exact Hcol|].
  apply (proj1 (proj2 (partial_update_keeps_unnamed_columns
                         [("cargo_count", PyInt 5)] Samples.db_later
                         "cargo_capacity" Hcol))
           (snd (update_ship_status [("cargo_count", PyInt 5)]
                   Samples.db_later))).
  - by vm_compute.
  - discriminate.
Defined.

(** ** Loadout *)

Lemma contains_key (k : string) (d : list (string * value)) :
  contains k (PyDict d) = Ok (bool_decide (is_Some (assoc k d))).
Proof.
  simpl. f_equal.
  induction d as [|[k' v] d IH]; simpl.
  - done.
  - destruct (String.eqb k k'); simpl; [done|exact IH].
Qed.

Lemma sum_cargo_capacity_total (modules : list value) (capacities : list Z)
    (acc : Z) :
  mapM Spec.module_capacity modules = Some capacities ->
  ServiceGamelog.sum_cargo_capacity (PyInt acc) modules
  = Ok (PyInt (foldl Z.add acc capacities)).
Proof.
  intros H. apply mapM_Some in H. revert acc.
  induction H as [|module c modules capacities Hc _ IH]; intros acc.
  - reflexivity.
  - simpl. destruct module as [| | | | | |d]; try discriminate.
    rewrite contains_key. simpl in Hc |- *.
    destruct (assoc "CargoCapacity" d) as [v|] eqn:E.
    + destruct v; try discriminate. injection Hc as <-. simpl. apply IH.
    + injection Hc as <-. simpl. rewrite Z.add_0_r. apply IH.
Qed.

Lemma bind_lift_Ok {A B} (a : A) (f : A -> M B) db :
  (lift (Ok a) ≫= f) db = f a db.
Proof. reflexivity. Qed.

Lemma id_is_1_insert (r : gmap string cell) (col : string) (c : cell) :
  col ≠ "id" -> id_is_1 (<[col := c]> r) = id_is_1 r.
Proof. intros Hne. unfold id_is_1. by rewrite lookup_insert_ne. Qed.

(** C6, as the code has it.  For a Loadout event whose modules are objects
    with int capacities summing to [total]: when [total] is positive (and
    fits an SQLite integer) the ship-status row becomes the old row with
    [cargo_capacity] replaced by [total] and [last_updated] by the current
    time; when [total] is zero or negative the event changes nothing. *)
Theorem loadout_overwrites_capacity_when_positive
    (data : value) (modules : list value) (capacities : list Z)
    (db : Database) (row : gmap string cell) :
  get data "Modules" (PyList []) = Ok (PyList modules) ->
  mapM Spec.module_capacity modules = Some capacities ->
  ship_status db = Some row ->
  id_is_1 row = true ->
  Spec.total_capacity capacities < 2 ^ 63 ->
  (0 < Spec.total_capacity capacities ->
   ServiceGamelog._handle_Loadout data db
   = set_ship_status
       (Some (<["last_updated" := TEXT (CURRENT_TIMESTAMP (env db))]>
                (<["cargo_capacity" :=
                     INTEGER (Spec.total_capacity capacities)]> row))) db)
  /\ (Spec.total_capacity capacities <= 0 ->
      ServiceGamelog._handle_Loadout data db = db).
Proof.
  intros Hget Hcaps Hrow Hid Hfit.
  unfold ServiceGamelog._handle_Loadout, try_except.
  rewrite Hget, bind_lift_Ok.
  change (iter (PyList modules)) with (Ok modules). rewrite bind_lift_Ok.
  rewrite (sum_cargo_capacity_total _ _ _ Hcaps).
  fold (Spec.total_capacity capacities).
  rewrite bind_lift_Ok.
  change (gt0 (PyInt (Spec.total_capacity capacities)))
    with (Ok (0 <? Spec.total_capacity capacities)).
  rewrite bind_lift_Ok.
  split; intros Htotal.
  - rewrite (proj2 (Z.ltb_lt _ _) Htotal).
    unfold update_ship_status, sql_update. rewrite Hrow.
    change (forallb _ _) with true. cbv iota.
    simpl mapM. unfold bind.
    replace ((- 2 ^ 63 <=? Spec.total_capacity capacities)
             && (Spec.total_capacity capacities <? 2 ^ 63)) with true
      by (symmetry; apply andb_true_iff; split;
          [apply Z.leb_le|apply Z.ltb_lt]; lia).
    simpl. unfold assign. simpl.
    rewrite !id_is_1_insert by discriminate. by rewrite Hid.
  - rewrite (proj2 (Z.ltb_ge _ _) Htotal). reflexivity.
Qed.

(** C6 as the specification states it fails: a ship whose capacity was 64 is refitted
    without cargo racks; the Loadout event sums to zero, and the stored
    capacity stays 64. *)
Lemma loadout_of_zero_keeps_old_capacity :
  column (ship_status Samples.db_with_racks) "cargo_capacity"
  = Some (INTEGER 64)
  /\ mapM Spec.module_capacity
       [PyDict [("Slot", PyStr "PowerPlant")];
        PyDict [("Slot", PyStr "Slot01_Size5")]] = Some [0; 0]
  /\ column (ship_status
               (ServiceGamelog._handle_Loadout Samples.loadout_no_cargo
                  Samples.db_with_racks)) "cargo_capacity"
     = Some (INTEGER 64).
Proof. repeat split; by vm_compute. Qed.

Lemma loadout_witness :
  column (ship_status
            (ServiceGamelog._handle_Loadout Samples.loadout_event
               (fresh Samples.env0))) "cargo_capacity"
  = Some (INTEGER 64).
Proof.
  pose proof (loadout_overwrites_capacity_when_positive
                Samples.loadout_event
                [PyDict [("Slot", PyStr "Slot01_Size5");
                         ("CargoCapacity", PyInt 32)];
                 PyDict [("Slot", PyStr "PowerPlant")];
                 PyDict [("Slot", PyStr "Slot02_Size5");
                         ("CargoCapacity", PyInt 32)]]
                [32; 0; 32] (fresh Samples.env0)
                (default ∅ (ship_status (fresh Samples.env0)))
                eq_refl eq_refl eq_refl eq_refl eq_refl) as [Hpos _].
  rewrite Hpos by reflexivity. by vm_compute.
Defined.

(** ** Unconsumed prospecting detections *)

(** C5, as the code has it.  The accessor of the store returns rows with
    [processed = 0] only, newest first (descending capture timestamp), and
    at most [limit] of them (all of them for a negative limit); a row it
    leaves out is not newer than any row it returns.  The reader of
    ed_mining_scanner.py returns every row with [processed = 0], in
    ascending id order, and takes no limit. *)
Theorem unprocessed_asteroids_newest_first (limit : Z) (db : Database) :
  - 2 ^ 63 <= limit < 2 ^ 63 ->
  (exists rows rest,
      get_unprocessed_asteroids limit db = (Ok rows, db)
      /\ (rows ++ rest)%list ≡ₚ filter unprocessed (prospected_asteroids db)
      /\ StronglySorted newest_first (rows ++ rest)%list
      /\ length rows
         = (if limit <? 0
            then length (filter unprocessed (prospected_asteroids db))
            else Nat.min (Z.to_nat limit)
                   (length (filter unprocessed (prospected_asteroids db)))))
  /\ EdMiningScanner.get_unprocessed_asteroids (Connection.Open db)
     ≡ₚ filter unprocessed (prospected_asteroids db)
  /\ StronglySorted EdMiningScanner.by_id
       (EdMiningScanner.get_unprocessed_asteroids (Connection.Open db)).
Proof.
  intros Hlimit. split; [|split].
  - set (all := filter unprocessed (prospected_asteroids db)).
    set (sorted := merge_sort newest_first all).
    assert (Hperm : sorted ≡ₚ all) by apply merge_sort_Permutation.
    assert (Hsorted : StronglySorted newest_first sorted)
      by apply (StronglySorted_merge_sort _).
    assert (Hrun : get_unprocessed_asteroids limit db
                   = (Ok (if limit <? 0 then sorted
                          else take (Z.to_nat limit) sorted), db)).
    { unfold get_unprocessed_asteroids. unfold bind.
      replace ((- 2 ^ 63 <=? limit) && (limit <? 2 ^ 63)) with true
        by (symmetry; apply andb_true_iff; split;
            [apply Z.leb_le|apply Z.ltb_lt]; lia).
      reflexivity. }
    destruct (limit <? 0) eqn:Hneg.
    + exists sorted, []. rewrite app_nil_r.
      repeat split; try done. by rewrite Hperm.
    + exists (take (Z.to_nat limit) sorted), (drop (Z.to_nat limit) sorted).
      rewrite take_drop. repeat split; try done.
      rewrite length_take. by rewrite Hperm.
  - unfold EdMiningScanner.get_unprocessed_asteroids. simpl.
    apply merge_sort_Permutation.
  - unfold EdMiningScanner.get_unprocessed_asteroids. simpl.
    apply (StronglySorted_merge_sort _).
Qed.

(** C5 as the specification states it fails: of two unconsumed detections the store's
    accessor returns the later one first, and with a limit of one it returns
    the later one alone. *)
Lemma unprocessed_asteroids_not_oldest_first :
  (Asteroid.timestamp <$> prospected_asteroids Samples.db_two_scans)
  = [Some "2025-11-29 12:00:00"; Some "2025-11-29 12:00:05"]
  /\ (Asteroid.id <$> prospected_asteroids Samples.db_two_scans) = [1; 2]
  /\ Samples.ids (fst (get_unprocessed_asteroids 100 Samples.db_two_scans))
     = [2; 1]
  /\ Samples.ids (fst (get_unprocessed_asteroids 1 Samples.db_two_scans))
     = [2].
Proof. repeat split; by vm_compute. Qed.

Lemma unprocessed_asteroids_witness :
  exists rows,
    get_unprocessed_asteroids 1 Samples.db_two_scans
    = (Ok rows, Samples.db_two_scans)
    /\ length rows = 1%nat.
Proof.
  destruct (unprocessed_asteroids_newest_first 1 Samples.db_two_scans)
    as [(rows & rest & Hrun & _ & _ & Hlen) _]; [lia|].
  exists rows. split; [exact Hrun|]. rewrite Hlen. by vm_compute.
Defined.

(** ** Locating the journal *)

Lemma max_by_spec {A} (key : A -> Z) (l : list A) (best : A) :
  Fs.max_by key best l ∈ best :: l
  /\ forall x, x ∈ best :: l -> key x <= key (Fs.max_by key best l).
Proof.
  revert best. induction l as [|y l IH]; intros best; simpl.
  - split; [left|]. intros x ->%list_elem_of_singleton. lia.
  - destruct (IH (if key best <? key y then y else best)) as [Hin Hmax].
    split.
    + apply elem_of_cons in Hin as [->|Hin].
      * destruct (key best <? key y); [right; left|left].
      * right; by right.
    + intros x Hx.
      assert (Hstep : key best <= key (if key best <? key y then y else best)
                      /\ key y <= key (if key best <? key y then y else best)).
      { destruct (key best <? key y) eqn:E; [apply Z.ltb_lt in E|
                                              apply Z.ltb_ge in E]; lia. }
      pose proof (Hmax _ (list_elem_of_here _ _)) as Hhead.
      apply elem_of_cons in Hx as [->|Hx]; [lia|].
      apply elem_of_cons in Hx as [->|Hx]; [lia|].
      apply Hmax. by right.
Qed.

Lemma elem_of_List_filter {A} (p : A -> bool) (l : list A) (x : A) :
  x ∈ List.filter p l <-> x ∈ l /\ p x = true.
Proof. rewrite !list_elem_of_In. apply filter_In. Qed.

(** The globbed file of greatest key, as both time-based locators compute
    it. *)
Lemma globbed_max (key : Fs.file -> Z) (listing : list Fs.file)
    (f0 : Fs.file) :
  f0 ∈ listing -> Fs.glob_journal (Fs.name f0) = true ->
  exists g gs,
    List.filter (fun f => Fs.glob_journal (Fs.name f)) listing = g :: gs
    /\ Fs.max_by key g gs ∈ listing
    /\ Fs.glob_journal (Fs.name (Fs.max_by key g gs)) = true
    /\ forall f, f ∈ listing -> Fs.glob_journal (Fs.name f) = true ->
                 key f <= key (Fs.max_by key g gs).
Proof.
  intros Hin Hglob.
  destruct (List.filter _ listing) as [|g gs] eqn:E.
  - assert (H : f0 ∈ List.filter (fun f => Fs.glob_journal (Fs.name f)) listing)
      by by apply elem_of_List_filter.
    rewrite E in H. by apply elem_of_nil in H.
  - exists g, gs. split; [reflexivity|].
    destruct (max_by_spec key gs g) as [Htop Hmax].
    rewrite <- E in Htop. apply elem_of_List_filter in Htop as [Htop Hg].
    repeat split; try assumption.
    intros f Hf Hfg. apply Hmax. rewrite <- E. by apply elem_of_List_filter.
Qed.

Lemma ascii_compare_refl (c : ascii) : Ascii.compare c c = Eq.
Proof. unfold Ascii.compare. apply N.compare_refl. Qed.

Lemma compare_refl (s : string) : String.compare s s = Eq.
Proof.
  induction s as [|c s IH]; [reflexivity|]. simpl.
  by rewrite ascii_compare_refl.
Qed.

Lemma compare_app_prefix (p a b : string) :
  String.compare (p +:+ a) (p +:+ b) = String.compare a b.
Proof.
  induction p as [|c p IH]; [reflexivity|]. simpl.
  by rewrite ascii_compare_refl.
Qed.

Lemma compare_app_suffix (a b s : string) :
  String.length a = String.length b ->
  String.compare (a +:+ s) (b +:+ s) = String.compare a b.
Proof.
  revert b. induction a as [|c a IH]; intros [|c' b] Hlen; try discriminate.
  - apply compare_refl.
  - simpl. destruct (Ascii.compare c c'); try reflexivity.
    apply IH. by injection Hlen.
Qed.

(** Among journal names whose tokens have one length, the order of the
    names is the order of the tokens. *)
Lemma journal_name_order (t1 t2 : string) :
  String.length t1 = String.length t2 ->
  String.leb ("Journal." +:+ t1 +:+ ".log") ("Journal." +:+ t2 +:+ ".log")
  = String.leb t1 t2.
Proof.
  intros Hlen. unfold String.leb.
  by rewrite compare_app_prefix, compare_app_suffix.
Qed.

(** The head of the reverse-sorted names is the greatest of them. *)
Lemma reverse_sorted_head (names : list string) (n0 : string) :
  n0 ∈ names -> EdLogReader.is_journal n0 = true ->
  exists top rest,
    merge_sort EdLogReader.descending
      (List.filter EdLogReader.is_journal names) = top :: rest
    /\ top ∈ names
    /\ EdLogReader.is_journal top = true
    /\ forall n, n ∈ names -> EdLogReader.is_journal n = true ->
                 String.le n top.
Proof.
  intros Hin Hj.
  set (l := List.filter EdLogReader.is_journal names).
  assert (Hl : n0 ∈ l) by by apply elem_of_List_filter.
  pose proof (merge_sort_Permutation EdLogReader.descending l) as Hperm.
  pose proof (StronglySorted_merge_sort EdLogReader.descending l) as Hsorted.
  destruct (merge_sort EdLogReader.descending l) as [|top rest].
  - rewrite <- Hperm in Hl. by apply elem_of_nil in Hl.
  - exists top, rest. split; [reflexivity|].
    assert (Htop : top ∈ l) by (rewrite <- Hperm; left).
    apply elem_of_List_filter in Htop as [Htop Htopj].
    repeat split; try assumption.
    intros n Hn Hnj.
    assert (Hnl : n ∈ top :: rest)
      by (rewrite Hperm; by apply elem_of_List_filter).
    apply StronglySorted_cons in Hsorted as [Hall _].
    apply elem_of_cons in Hnl as [->|Hnl]; [done|].
    rewrite Forall_forall in Hall. by apply Hall.
Qed.

(** C3, as the code has it.  When the directory holds a file that matches,
    each locator returns a matching file of the directory.  The one of
    ed_log_reader.py returns the lexicographically greatest matching name
    (for tokens of one length: the greatest token), and its choice depends
    on the names alone.  The one of service_gamelog.py returns a matching
    file of greatest modification time, the one of journal_reader.py a
    matching file of greatest creation time. *)
Theorem journal_locators (listing : list Fs.file) :
  (forall n0,
      n0 ∈ Fs.name <$> listing -> EdLogReader.is_journal n0 = true ->
      exists top,
        EdLogReader.latest_journal (Some listing) = Ok top
        /\ top ∈ Fs.name <$> listing
        /\ EdLogReader.is_journal top = true
        /\ forall n, n ∈ Fs.name <$> listing ->
                     EdLogReader.is_journal n = true -> String.le n top)
  /\ (forall listing',
         Fs.name <$> listing' = Fs.name <$> listing ->
         EdLogReader.latest_journal (Some listing')
         = EdLogReader.latest_journal (Some listing))
  /\ (forall t1 t2,
         String.length t1 = String.length t2 ->
         String.leb ("Journal." +:+ t1 +:+ ".log")
                    ("Journal." +:+ t2 +:+ ".log")
         = String.leb t1 t2)
  /\ (forall f0,
         f0 ∈ listing -> Fs.glob_journal (Fs.name f0) = true ->
         exists top,
           ServiceGamelog.find_latest_journal (Some listing)
           = Some (Fs.name top)
           /\ top ∈ listing
           /\ Fs.glob_journal (Fs.name top) = true
           /\ forall f, f ∈ listing -> Fs.glob_journal (Fs.name f) = true ->
                        Fs.st_mtime f <= Fs.st_mtime top)
  /\ (forall f0,
         f0 ∈ listing -> Fs.glob_journal (Fs.name f0) = true ->
         exists top,
           JournalReaderPy.get_latest_journal (Some listing)
           = Some (Fs.name top)
           /\ top ∈ listing
           /\ Fs.glob_journal (Fs.name top) = true
           /\ forall f, f ∈ listing -> Fs.glob_journal (Fs.name f) = true ->
                        Fs.st_ctime f <= Fs.st_ctime top).
Proof.
  split; [|split; [|split; [|split]]].
  - intros n0 Hin Hj.
    destruct (reverse_sorted_head _ _ Hin Hj)
      as (top & rest & Hsort & Htop & Htopj & Hmax).
    exists top. unfold EdLogReader.latest_journal. rewrite Hsort. done.
  - intros listing' Hnames. unfold EdLogReader.latest_journal.
    by rewrite Hnames.
  - apply journal_name_order.
  - intros f0 Hin Hglob.
    destruct (globbed_max Fs.st_mtime _ _ Hin Hglob)
      as (g & gs & Hfilter & Htop & Htopg & Hmax).
    exists (Fs.max_by Fs.st_mtime g gs).
    unfold ServiceGamelog.find_latest_journal. simpl. rewrite Hfilter. done.
  - intros f0 Hin Hglob.
    destruct (globbed_max Fs.st_ctime _ _ Hin Hglob)
      as (g & gs & Hfilter & Htop & Htopg & Hmax).
    exists (Fs.max_by Fs.st_ctime g gs).
    unfold JournalReaderPy.get_latest_journal. simpl. rewrite Hfilter. done.
Qed.

(** C3 as the specification states it fails: after another program has rewritten
    yesterday's journal, the locators of service_gamelog.py and of
    journal_reader.py return yesterday's file, whose name is the smaller
    one; on the directory that differs in the file times only they return
    today's. *)
Lemma locator_follows_file_times :
  (Fs.name <$> Fs.files Samples.dir_touched)
  = (Fs.name <$> Fs.files Samples.dir_untouched)
  /\ String.ltb "Journal.2025-11-28T200000.01.log"
                "Journal.2025-11-29T110000.01.log" = true
  /\ ServiceGamelog.find_latest_journal Samples.dir_untouched
     = Some "Journal.2025-11-29T110000.01.log"
  /\ ServiceGamelog.find_latest_journal Samples.dir_touched
     = Some "Journal.2025-11-28T200000.01.log"
  /\ JournalReaderPy.get_latest_journal Samples.dir_untouched
     = Some "Journal.2025-11-29T110000.01.log"
  /\ JournalReaderPy.get_latest_journal Samples.dir_touched
     = Some "Journal.2025-11-28T200000.01.log".
Proof. repeat split; by vm_compute. Qed.

Lemma journal_locators_witness :
  exists top,
    EdLogReader.latest_journal Samples.dir_touched = Ok top
    /\ top ∈ Fs.name <$> Fs.files Samples.dir_touched
    /\ EdLogReader.is_journal top = true
    /\ forall n, n ∈ Fs.name <$> Fs.files Samples.dir_touched ->
                 EdLogReader.is_journal n = true -> String.le n top.
Proof.
  apply (proj1 (journal_locators (Fs.files Samples.dir_touched))
           "Journal.2025-11-29T110000.01.log").
  - decide_by_computation.
  - reflexivity.
Defined.

(** ** Tailing the journal *)

Lemma string_app_cons (c : ascii) (s t : string) :
  String c s +:+ t = String c (s +:+ t).
Proof. reflexivity. Qed.

Lemma string_length_app (a b : string) :
  String.length (a +:+ b) = (String.length a + String.length b)%nat.
Proof.
  induction a as [|x a IH]; [reflexivity|].
  rewrite string_app_cons. simpl. by rewrite IH.
Qed.

Lemma drop_string_app (a b : string) :
  Fs.drop_string (String.length a) (a +:+ b) = b.
Proof. induction a as [|x a IH]; [by destruct b|]. exact IH. Qed.

(** Text without a terminator is read as one line, joined to what was
    already read of that line. *)
Lemma readlines_go_no_terminator (s cur : string) :
  Fs.no_terminator s = true ->
  String.rev_app cur s ≠ EmptyString ->
  Fs.readlines_go cur s = [String.rev_app cur s].
Proof.
  revert cur. induction s as [|c s IH]; intros cur Hno Hne.
  - simpl. destruct cur as [|x cur]; [done|]. reflexivity.
  - simpl in Hno. apply andb_true_iff in Hno as [Hc Hno].
    apply negb_true_iff in Hc. apply orb_false_iff in Hc as [Hlf Hcr].
    simpl. rewrite Hlf, Hcr. simpl. by apply (IH (String c cur)).
Qed.

Lemma starts_with_LF_app (s0 s2 : string) :
  Fs.starts_with_LF ((s0 +:+ Fs.LF) +:+ s2) = Fs.starts_with_LF (s0 +:+ Fs.LF).
Proof. by destruct s0. Qed.

(** Reading past a line feed starts a new line. *)
Lemma readlines_go_app (s0 s2 cur : string) :
  Fs.readlines_go cur ((s0 +:+ Fs.LF) +:+ s2)
  = (Fs.readlines_go cur (s0 +:+ Fs.LF) ++ Fs.readlines_go EmptyString s2)%list.
Proof.
  revert cur. induction s0 as [|c s0 IH]; intros cur; [reflexivity|].
  rewrite !string_app_cons. simpl. rewrite starts_with_LF_app.
  destruct (Fs.is_LF c || Fs.is_CR c && negb (Fs.starts_with_LF (s0 +:+ Fs.LF))).
  - by rewrite IH.
  - apply IH.
Qed.

(** The lines of complete lines followed by an unterminated rest. *)
Lemma readlines_complete_partial (complete partial : string) :
  complete = EmptyString \/ (exists c0, complete = c0 +:+ Fs.LF) ->
  Fs.no_terminator partial = true -> partial ≠ EmptyString ->
  Fs.readlines (complete +:+ partial)
  = (Fs.readlines complete ++ [partial])%list.
Proof.
  intros Hcomplete Hno Hne. unfold Fs.readlines.
  assert (Hlast : Fs.readlines_go EmptyString partial = [partial])
    by by apply readlines_go_no_terminator.
  destruct Hcomplete as [->|[c0 ->]].
  - exact Hlast.
  - by rewrite readlines_go_app, Hlast.
Qed.

Lemma stripped_lines_app (l1 l2 : list string) :
  ServiceGamelog.stripped_lines (l1 ++ l2)
  = (ServiceGamelog.stripped_lines l1 ++ ServiceGamelog.stripped_lines l2)%list.
Proof.
  unfold ServiceGamelog.stripped_lines. by rewrite fmap_app, List.filter_app.
Qed.

(** A poll of a monitor that is following a file. *)
Lemma read_new_lines_following d m f :
  ServiceGamelog.following d m f ->
  ServiceGamelog.read_new_lines d m
  = ({| ServiceGamelog.current_file := ServiceGamelog.current_file m;
        ServiceGamelog.file_handle := ServiceGamelog.file_handle m;
        ServiceGamelog.last_position :=
          ServiceGamelog.last_position m
          + String.length (Fs.drop_string (ServiceGamelog.last_position m)
                                          (Fs.content f)) |},
     ServiceGamelog.stripped_lines
       (Fs.readlines (Fs.drop_string (ServiceGamelog.last_position m)
                                     (Fs.content f)))).
Proof.
  intros (Hh & Hcur & Hlatest & Hfile).
  unfold ServiceGamelog.read_new_lines, ServiceGamelog.check_for_new_file.
  rewrite Hh, Hlatest, Hcur.
  rewrite bool_decide_eq_false_2 by (intros Hne; exact (Hne eq_refl)).
  simpl. rewrite Hh. simpl. by rewrite Hfile, Hcur.
Qed.

Lemma readlines_go_line (rest cur : string) :
  Fs.no_terminator rest = true ->
  Fs.readlines_go cur (rest +:+ Fs.LF) = [String.rev_app cur (rest +:+ Fs.LF)].
Proof.
  revert cur. induction rest as [|c rest IH]; intros cur Hno; [reflexivity|].
  simpl in Hno. apply andb_true_iff in Hno as [Hc Hno].
  apply negb_true_iff in Hc. apply orb_false_iff in Hc as [Hlf Hcr].
  rewrite string_app_cons. simpl. rewrite Hlf, Hcr. simpl.
  by apply (IH (String c cur)).
Qed.

Lemma strip_nonblank_nonempty (s : string) :
  strip s ≠ EmptyString -> s ≠ EmptyString.
Proof. by intros H ->. Qed.

(** A line read by [readline] from an open handle of the log reader. *)
Lemma ed_readline_partial d (h : EdLogReader.handle) (f : Fs.file)
    (consumed partial : string) :
  EdLogReader.h_closed h = false ->
  EdLogReader.h_path h = Fs.name f ->
  EdLogReader.h_offset h = String.length consumed ->
  Fs.lookup d (Fs.name f) = Some f ->
  Fs.content f = consumed +:+ partial ->
  Fs.no_terminator partial = true -> partial ≠ EmptyString ->
  EdLogReader.readline d h = Ok partial.
Proof.
  intros Hopen Hpath Hoff Hfile Hcontent Hno Hne.
  unfold EdLogReader.readline. rewrite Hopen, Hpath, Hfile, Hoff. simpl.
  rewrite Hcontent, drop_string_app. unfold Fs.readlines.
  by rewrite readlines_go_no_terminator.
Qed.

(** C4, as the code has it.  A poll reads to the end of the file and returns
    what it read, the unterminated text after the last line feed included
    (stripped, as the last line of the poll), and the read position moves
    to the end of the file.  When the rest of that line is appended with its
    line feed, the next poll returns that rest as a line of its own: the
    completed line is never returned whole.  [get_latest_line] of
    ed_log_reader.py likewise returns the unterminated text at once. *)
Theorem unterminated_text_is_returned_at_once :
  (forall d1 d2 m f1 f2 (consumed complete partial rest : string),
      ServiceGamelog.following d1 m f1 ->
      ServiceGamelog.last_position m = String.length consumed ->
      Fs.content f1 = consumed +:+ complete +:+ partial ->
      complete = EmptyString \/ (exists c0, complete = c0 +:+ Fs.LF) ->
      Fs.no_terminator partial = true ->
      strip partial ≠ EmptyString ->
      ServiceGamelog.following d2 (fst (ServiceGamelog.read_new_lines d1 m)) f2 ->
      Fs.content f2 = Fs.content f1 +:+ rest +:+ Fs.LF ->
      Fs.no_terminator rest = true ->
      snd (ServiceGamelog.read_new_lines d1 m)
      = (ServiceGamelog.stripped_lines (Fs.readlines complete)
         ++ [strip partial])%list
      /\ ServiceGamelog.last_position (fst (ServiceGamelog.read_new_lines d1 m))
         = String.length (Fs.content f1)
      /\ snd (ServiceGamelog.read_new_lines d2
                (fst (ServiceGamelog.read_new_lines d1 m)))
         = ServiceGamelog.stripped_lines [rest +:+ Fs.LF])
  /\ (forall d r h f (consumed partial : string) db,
         EdLogReader.file_handle r = Some h ->
         EdLogReader.h_closed h = false ->
         EdLogReader.h_path h = Fs.name f ->
         EdLogReader.h_offset h = String.length consumed ->
         Fs.lookup d (Fs.name f) = Some f ->
         Fs.content f = consumed +:+ partial ->
         Fs.no_terminator partial = true ->
         partial ≠ EmptyString ->
         exists r',
           EdLogReader.get_latest_line d r db = (r', Some (strip partial), db)
           /\ EdLogReader.position r' = String.length (Fs.content f)).
Proof.
  split.
  - intros d1 d2 m f1 f2 consumed complete partial rest
      Hfollow Hpos Hcontent Hcomplete Hno Hnonblank Hfollow2 Hcontent2 Hno2.
    pose proof (strip_nonblank_nonempty _ Hnonblank) as Hne.
    rewrite (read_new_lines_following _ _ _ Hfollow) in Hfollow2 |- *.
    rewrite (read_new_lines_following _ _ _ Hfollow2).
    cbn [fst snd ServiceGamelog.last_position].
    rewrite Hpos, Hcontent, drop_string_app.
    assert (Hend : (String.length consumed
                    + String.length (complete +:+ partial))%nat
                   = String.length (consumed +:+ complete +:+ partial))
      by by rewrite !string_length_app.
    rewrite Hend. split; [|split; [reflexivity|]].
    + rewrite readlines_complete_partial by assumption.
      rewrite stripped_lines_app. f_equal.
      unfold ServiceGamelog.stripped_lines. simpl.
      destruct (String.eqb (strip partial) EmptyString) eqn:E; [|reflexivity].
      by apply String.eqb_eq in E.
    + rewrite Hcontent2, Hcontent, drop_string_app. unfold Fs.readlines.
      by rewrite readlines_go_line.
  - intros d r h f consumed partial db
      Hh Hopen Hpath Hoff Hfile Hcontent Hno Hne.
    unfold EdLogReader.get_latest_line, EdLogReader.get_latest_line_body.
    rewrite Hh. simpl.
    rewrite (ed_readline_partial d h f consumed partial) by assumption.
    destruct (String.eqb partial EmptyString) eqn:E.
    { by apply String.eqb_eq in E. }
    simpl. eexists. split; [reflexivity|]. simpl.
    by rewrite Hoff, Hcontent, string_length_app.
Qed.

(** C4 as the specification states it fails: polled while the game is in the middle
    of writing a line, the monitor returns the half line; polled again when
    the line is complete, it returns the other half.  No poll returns the
    line. *)
Lemma poll_returns_half_lines :
  Fs.no_terminator Samples.half_line = true
  /\ snd (ServiceGamelog.read_new_lines
            (Some [Samples.journal_mid_write]) Samples.monitor_at_start)
     = [Samples.half_line]
  /\ snd (ServiceGamelog.read_new_lines
            (Some [Samples.journal_completed])
            (fst (ServiceGamelog.read_new_lines
                    (Some [Samples.journal_mid_write])
                    Samples.monitor_at_start)))
     = [Samples.other_half].
Proof. repeat split; by vm_compute. Qed.

Lemma unterminated_text_witness :
  snd (ServiceGamelog.read_new_lines
         (Some [Samples.journal_mid_write]) Samples.monitor_at_start)
  = [strip Samples.half_line]
  /\ ServiceGamelog.last_position
       (fst (ServiceGamelog.read_new_lines
               (Some [Samples.journal_mid_write]) Samples.monitor_at_start))
     = String.length Samples.half_line
  /\ snd (ServiceGamelog.read_new_lines
            (Some [Samples.journal_completed])
            (fst (ServiceGamelog.read_new_lines
                    (Some [Samples.journal_mid_write])
                    Samples.monitor_at_start)))
     = ServiceGamelog.stripped_lines [Samples.other_half +:+ Fs.LF].
Proof.
  apply (proj1 unterminated_text_is_returned_at_once
           (Some [Samples.journal_mid_write])
           (Some [Samples.journal_completed])
           Samples.monitor_at_start
           Samples.journal_mid_write Samples.journal_completed
           EmptyString EmptyString Samples.half_line Samples.other_half).
  - repeat split; reflexivity.
  - reflexivity.
  - reflexivity.
  - by left.
  - reflexivity.
  - by vm_compute.
  - repeat split; reflexivity.
  - reflexivity.
  - reflexivity.
Defined.

(** ** Prospecting *)

(** C1, on the code.  The event of the log reader's docstring carries two
    surface materials and the motherlode material Painite.  The handler of
    service_gamelog.py stores two rows, none for Painite and none marked as
    motherlode or deep core: it looks for a key MotherlodeAmount and never
    reads MotherlodeMaterial.  The handler of ed_log_reader.py stores the
    three rows the specification describes. *)
Theorem gamelog_prospecting_drops_motherlode_row :
  get Samples.prospected_event "MotherlodeMaterial" PyNone
  = Ok (PyStr "Painite")
  /\ ((fun r => (Asteroid.material_name r, Asteroid.is_motherlode r,
                 Asteroid.is_deepcore r))
      <$> prospected_asteroids
            (ServiceGamelog._handle_ProspectedAsteroid
               Samples.prospected_event (fresh Samples.env0)))
     = [(TEXT "Platinum", INTEGER 0, INTEGER 0);
        (TEXT "Praseodymium", INTEGER 0, INTEGER 0)]
  /\ ((fun r => (Asteroid.material_name r, Asteroid.percentage r,
                 Asteroid.is_motherlode r, Asteroid.is_deepcore r))
      <$> prospected_asteroids
            (EdLogReader._handle_prospected_asteroid
               Samples.prospected_event (EdLogReader.fresh Samples.env0)))
     = [(TEXT "Platinum", REAL 51.662041, INTEGER 0, INTEGER 0);
        (TEXT "Praseodymium", REAL 11.502447, INTEGER 0, INTEGER 0);
        (TEXT "Painite", REAL 100, INTEGER 1, INTEGER 1)].
Proof. repeat split; by vm_compute. Qed.

(** C2, on the code.  For a surface material of proportion 63.4 the handler
    of service_gamelog.py stores 63.4 * 100 = 6340.0, which is not 63.4; the
    handler of ed_log_reader.py stores 63.4. *)
Theorem gamelog_prospecting_rescales_percentage :
  (Asteroid.percentage
   <$> prospected_asteroids
         (ServiceGamelog._handle_ProspectedAsteroid
            Samples.osmium_event (fresh Samples.env0)))
  = [REAL 6340]
  /\ PrimFloat.eqb 6340 63.4 = false
  /\ (Asteroid.percentage
      <$> prospected_asteroids
            (EdLogReader._handle_prospected_asteroid
               Samples.osmium_event (EdLogReader.fresh Samples.env0)))
     = [REAL 63.4].
Proof. repeat split; by vm_compute. Qed.

(** One insert of the log reader's manager, when every value can be
    bound. *)
Lemma add_prospected_asteroid_ok
    (timestamp material_name percentage remaining : value)
    (is_motherlode is_deepcore : Z) (content_level : string)
    (c_ts c_name c_pct c_rem : cell) (db : Database) :
  bind timestamp = Ok c_ts -> bind material_name = Ok c_name ->
  bind percentage = Ok c_pct -> bind remaining = Ok c_rem ->
  - 2 ^ 63 <= is_motherlode < 2 ^ 63 -> - 2 ^ 63 <= is_deepcore < 2 ^ 63 ->
  EdLogReader.add_prospected_asteroid
    (PyDict [("timestamp", timestamp);
             ("material_name", material_name);
             ("percentage", percentage);
             ("is_motherlode", PyInt is_motherlode);
             ("content_level", PyStr content_level);
             ("is_deepcore", PyInt is_deepcore);
             ("remaining", remaining)]) db
  = (Ok tt,
     EdLogReader.with_detection
       (EdLogReader.detection_row db c_ts c_name c_pct (INTEGER is_motherlode)
          (TEXT content_level) (INTEGER is_deepcore) c_rem) db).
Proof.
  intros Hts Hname Hpct Hrem Hml Hdeep.
  unfold EdLogReader.add_prospected_asteroid, EdLogReader.except_sqlite_error.
  change (get (PyDict _) "timestamp" PyNone) with (Ok timestamp).
  change (get (PyDict _) "material_name" PyNone) with (Ok material_name).
  change (get (PyDict _) "percentage" PyNone) with (Ok percentage).
  change (get (PyDict _) "is_motherlode" (PyInt 0))
    with (Ok (PyInt is_motherlode)).
  change (get (PyDict _) "content_level" (PyStr "Unknown"))
    with (Ok (PyStr content_level)).
  change (get (PyDict _) "is_deepcore" (PyInt 0)) with (Ok (PyInt is_deepcore)).
  change (get (PyDict _) "remaining" (PyFloat 100)) with (Ok remaining).
  rewrite !bind_lift_Ok, Hts, bind_lift_Ok, Hname, bind_lift_Ok, Hpct,
    bind_lift_Ok.
  assert (Hint : forall z, - 2 ^ 63 <= z < 2 ^ 63 ->
                           bind (PyInt z) = Ok (INTEGER z)).
  { intros z Hz. unfold bind.
    replace ((- 2 ^ 63 <=? z) && (z <? 2 ^ 63)) with true; [done|].
    symmetry. apply andb_true_iff. split; [apply Z.leb_le|apply Z.ltb_lt]; lia. }
  rewrite (Hint _ Hml), bind_lift_Ok.
  change (bind (PyStr content_level)) with (Ok (TEXT content_level)).
  rewrite bind_lift_Ok, (Hint _ Hdeep), bind_lift_Ok, Hrem, bind_lift_Ok.
  reflexivity.
Qed.

Lemma mapM_res_cons {A B} (f : A -> res B) (x : A) (l : list A)
    (ys : list B) :
  mapM f (x :: l) = Ok ys ->
  exists y ys', f x = Ok y /\ mapM f l = Ok ys' /\ ys = y :: ys'.
Proof.
  simpl. intros H. apply bind_res_ok in H as (y & Hy & H).
  apply bind_res_ok in H as (ys' & Hys' & [= <-]). eauto.
Qed.

Lemma surface_material_ok (timestamp remaining material : value)
    (level : string) (c_ts c_rem : cell) (c : cell * cell) (db : Database) :
  bind timestamp = Ok c_ts -> bind remaining = Ok c_rem ->
  Spec.surface_cells material = Ok c ->
  EdLogReader.surface_material timestamp level remaining material db
  = (Ok tt, EdLogReader.with_surface c_ts level c_rem db c).
Proof.
  intros Hts Hrem Hc. unfold Spec.surface_cells in Hc.
  apply bind_res_ok in Hc as (name & Hname & Hc).
  apply bind_res_ok in Hc as (material_name & Hmname & Hc).
  apply bind_res_ok in Hc as (proportion & Hprop & Hc).
  apply bind_res_ok in Hc as (c_name & Hcname & Hc).
  apply bind_res_ok in Hc as (c_pct & Hcpct & [= <-]).
  unfold EdLogReader.surface_material.
  rewrite Hname, bind_lift_Ok, Hmname, bind_lift_Ok, Hprop, bind_lift_Ok.
  by apply add_prospected_asteroid_ok.
Qed.

Lemma for_each_surface_ok (timestamp remaining : value) (level : string)
    (c_ts c_rem : cell) (materials : list value) (cells : list (cell * cell))
    (db : Database) :
  bind timestamp = Ok c_ts -> bind remaining = Ok c_rem ->
  mapM Spec.surface_cells materials = Ok cells ->
  for_each (EdLogReader.surface_material timestamp level remaining)
           materials db
  = (Ok tt, foldl (EdLogReader.with_surface c_ts level c_rem) db cells).
Proof.
  intros Hts Hrem. revert cells db.
  induction materials as [|m materials IH]; intros cells db Hcells.
  - injection Hcells as <-. reflexivity.
  - apply mapM_res_cons in Hcells as (c & cells' & Hc & Hcells' & ->).
    simpl. unfold mbind at 1, M_bind.
    rewrite (surface_material_ok _ _ _ _ _ _ _ _ Hts Hrem Hc).
    by apply IH.
Qed.

(** The rows a run of surface inserts leaves after those of the store. *)
Lemma surface_rows (c_ts c_rem : cell) (level : string)
    (cells : list (cell * cell)) (db : Database) :
  exists rows,
    prospected_asteroids
      (foldl (EdLogReader.with_surface c_ts level c_rem) db cells)
    = (prospected_asteroids db ++ rows)%list
    /\ Asteroid.material_name <$> rows = cells.*1
    /\ Asteroid.percentage <$> rows = cells.*2
    /\ Asteroid.is_motherlode <$> rows = replicate (length cells) (INTEGER 0)
    /\ Asteroid.is_deepcore <$> rows = replicate (length cells) (INTEGER 0)
    /\ Forall (fun r => Asteroid.journal_timestamp r = c_ts
                        /\ Asteroid.content_level r = TEXT level
                        /\ Asteroid.remaining r = c_rem
                        /\ Asteroid.processed r = 0) rows.
Proof.
  revert db. induction cells as [|c cells IH]; intros db.
  - exists []. simpl. rewrite app_nil_r. repeat split; constructor.
  - simpl.
    destruct (IH (EdLogReader.with_surface c_ts level c_rem db c))
      as (rows & Hrows & Hnames & Hpcts & Hml & Hdeep & Hshared).
    exists (EdLogReader.detection_row db c_ts c.1 c.2 (INTEGER 0)
              (TEXT level) (INTEGER 0) c_rem :: rows).
    rewrite Hrows. split.
    { unfold EdLogReader.with_surface, EdLogReader.with_detection.
      cbn [prospected_asteroids set_prospected_asteroids].
      by rewrite <- app_assoc. }
    rewrite !fmap_cons, Hnames, Hpcts, Hml, Hdeep.
    repeat split; try reflexivity. by constructor.
Qed.

(** The prospecting fan-out of ed_log_reader.py.  For an event whose [N]
    surface materials are objects with a storable name and proportion, and
    whose MotherlodeMaterial is present and not empty, the handler appends
    exactly [N + 1] rows: one per material, in order, with the proportion
    stored as it is and both flags 0, then one for the motherlode material
    with percentage 100.0 and both flags 1; all share the event's timestamp,
    content level and remaining mass, and are unprocessed. *)
Theorem log_reader_prospecting_fan_out
    (data timestamp remaining motherlode content : value)
    (materials : list value) (level : string)
    (cells : list (cell * cell)) (c_ts c_rem c_ml : cell) (db : Database) :
  get data "timestamp" (PyStr EmptyString) = Ok timestamp ->
  bind timestamp = Ok c_ts ->
  get data "Materials" (PyList []) = Ok (PyList materials) ->
  mapM Spec.surface_cells materials = Ok cells ->
  get data "MotherlodeMaterial" PyNone = Ok motherlode ->
  truthy motherlode = true ->
  bind motherlode = Ok c_ml ->
  get data "Content_Localised" (PyStr "Unknown") = Ok content ->
  EdLogReader.content_level_of content = Ok level ->
  get data "Remaining" (PyFloat 100) = Ok remaining ->
  bind remaining = Ok c_rem ->
  exists rows,
    prospected_asteroids (EdLogReader._handle_prospected_asteroid data db)
    = (prospected_asteroids db ++ rows)%list
    /\ length rows = S (length materials)
    /\ Asteroid.material_name <$> rows = (cells.*1 ++ [c_ml])%list
    /\ Asteroid.percentage <$> rows = (cells.*2 ++ [REAL 100])%list
    /\ Asteroid.is_motherlode <$> rows
       = (replicate (length materials) (INTEGER 0) ++ [INTEGER 1])%list
    /\ Asteroid.is_deepcore <$> rows
       = (replicate (length materials) (INTEGER 0) ++ [INTEGER 1])%list
    /\ Forall (fun r => Asteroid.journal_timestamp r = c_ts
                        /\ Asteroid.content_level r = TEXT level
                        /\ Asteroid.remaining r = c_rem
                        /\ Asteroid.processed r = 0) rows.
Proof.
  intros Hts Hcts Hmat Hcells Hml Htruthy Hcml Hcontent Hlevel Hrem Hcrem.
  unfold EdLogReader._handle_prospected_asteroid, try_except.
  rewrite Hts, bind_lift_Ok, Hmat, bind_lift_Ok, Hml, bind_lift_Ok,
    Hcontent, bind_lift_Ok, Hrem, bind_lift_Ok, Hlevel, bind_lift_Ok.
  change (iter (PyList materials)) with (Ok materials).
  rewrite bind_lift_Ok. unfold mbind at 1, M_bind.
  rewrite (for_each_surface_ok _ _ level _ _ _ _ _ Hcts Hcrem Hcells).
  rewrite Htruthy.
  rewrite (add_prospected_asteroid_ok timestamp motherlode (PyFloat 100)
             remaining 1 1 level c_ts c_ml (REAL 100) c_rem _
             Hcts Hcml eq_refl Hcrem) by lia.
  destruct (surface_rows c_ts c_rem level cells db)
    as (rows & Hrows & Hnames & Hpcts & Hflag & Hdeep & Hshared).
  set (db1 := foldl (EdLogReader.with_surface c_ts level c_rem) db cells)
    in *.
  assert (Hlen : length cells = length materials).
  { clear -Hcells. revert cells Hcells.
    induction materials as [|m materials IH]; intros cells Hcells.
    - by injection Hcells as <-.
    - apply mapM_res_cons in Hcells as (c & cells' & _ & Hcells' & ->).
      simpl. f_equal. by apply IH. }
  exists (rows ++ [EdLogReader.detection_row db1 c_ts c_ml (REAL 100)
                     (INTEGER 1) (TEXT level) (INTEGER 1) c_rem])%list.
  cbn [snd]. unfold EdLogReader.with_detection.
  cbn [prospected_asteroids set_prospected_asteroids].
  rewrite Hrows, <- app_assoc, !fmap_app, Hnames, Hpcts, Hflag, Hdeep, Hlen.
  repeat split; try reflexivity.
  - rewrite length_app. simpl.
    assert (Hn : length rows = length cells).
    { rewrite <- (length_fmap Asteroid.material_name rows), Hnames.
      apply length_fmap. }
    rewrite Hn, Hlen. lia.
  - apply Forall_app. split; [exact Hshared|]. by repeat constructor.
Qed.

Lemma log_reader_prospecting_witness :
  exists rows,
    prospected_asteroids
      (EdLogReader._handle_prospected_asteroid Samples.prospected_event
         (EdLogReader.fresh Samples.env0)) = rows
    /\ length rows = 3%nat
    /\ Asteroid.percentage <$> rows
       = [REAL 51.662041; REAL 11.502447; REAL 100].
Proof.
  destruct (log_reader_prospecting_fan_out Samples.prospected_event
              (PyStr "2025-11-29T11:59:51Z") (PyFloat 100) (PyStr "Painite")
              (PyStr "Material Content: Medium")
              [PyDict [("Name", PyStr "Platinum");
                       ("Proportion", PyFloat 51.662041)];
               PyDict [("Name", PyStr "Praseodymium");
                       ("Proportion", PyFloat 11.502447)]]
              "Medium"
              [(TEXT "Platinum", REAL 51.662041);
               (TEXT "Praseodymium", REAL 11.502447)]
              (TEXT "2025-11-29T11:59:51Z") (REAL 100) (TEXT "Painite")
              (EdLogReader.fresh Samples.env0)
              eq_refl eq_refl eq_refl eq_refl eq_refl eq_refl eq_refl
              eq_refl eq_refl eq_refl eq_refl)
    as (rows & Hrows & Hlen & _ & Hpct & _).
  exists rows. split; [exact Hrows|]. split; [exact Hlen|exact Hpct].
Defined.

(** ** What projecting a line may do to the store *)

Import Invariants.

Lemma grows_refl db : grows db db.
Proof. unfold grows. by repeat split. Qed.

Lemma grows_trans a b c : grows a b -> grows b c -> grows a c.
Proof.
  intros (?&?&?&?&?&?&?&?) (?&?&?&?&?&?&?&?). unfold grows.
  repeat split; try congruence; try (by etrans); auto.
Qed.

Lemma step_refl db : step db db.
Proof. split; [apply grows_refl | by split]. Qed.

Lemma step_trans a b c : step a b -> step b c -> step a c.
Proof.
  intros (Hg1 & Hn1 & Hc1) (Hg2 & Hn2 & Hc2).
  split; [by eapply grows_trans | split; auto].
Qed.

Lemma steps_ret {A} (a : A) : steps (mret a : M A).
Proof. intros db. apply step_refl. Qed.

Lemma steps_lift {A} (r : res A) : steps (lift r).
Proof. intros db. apply step_refl. Qed.

Lemma steps_read {A} (f : Database -> A) : steps (read f).
Proof. intros db. apply step_refl. Qed.

Lemma steps_bind {A B} (m : M A) (f : A -> M B) :
  steps m -> (forall a, steps (f a)) -> steps (m ≫= f).
Proof.
  intros Hm Hf db. unfold mbind, M_bind.
  specialize (Hm db). destruct (m db) as [[a|e] db1]; simpl in *.
  - eapply step_trans; [exact Hm | apply Hf].
  - exact Hm.
Qed.

Lemma steps_for_each {A} (body : A -> M unit) (l : list A) :
  (forall a, steps (body a)) -> steps (for_each body l).
Proof.
  intros Hbody. induction l as [|x l IH]; simpl.
  - apply steps_ret.
  - apply steps_bind; [apply Hbody | intros _; exact IH].
Qed.

Lemma steps_try_except (body : M unit) db :
  steps body -> step db (try_except body db).
Proof. intros H. apply H. Qed.

(** An insert: the new row gets the next id of its table. *)
Lemma numbered_snoc (ids : list Z) (counter : option Z) :
  numbered ids counter ->
  numbered (ids ++ [default 0 counter + 1]) (Some (default 0 counter + 1)).
Proof.
  intros [Hsorted Hbound]. split.
  - induction ids as [|i ids IH]; simpl.
    + repeat constructor.
    + inversion Hsorted as [|? ? Hs Hlt]; subst.
      inversion Hbound as [|? ? Hi Hb]; subst.
      constructor; [by apply IH|].
      apply Forall_app. split; [done|]. constructor; [lia | constructor].
  - apply Forall_app. split.
    + eapply Forall_impl; [exact Hbound|]. simpl. intros; lia.
    + constructor; [simpl; lia | constructor].
Qed.

Lemma numbered_filter {A} (f : A -> Z) (P : A -> Prop)
    `{forall x, Decision (P x)} (l : list A) (counter : option Z) :
  numbered (f <$> l) counter -> numbered (f <$> filter P l) counter.
Proof.
  intros [Hsorted Hbound]. split.
  - clear Hbound. induction l as [|x l IH]; [constructor|].
    rewrite fmap_cons in Hsorted.
    inversion Hsorted as [|? ? Hs Hlt]; subst.
    rewrite filter_cons. destruct (decide (P x)); [|by apply IH].
    rewrite fmap_cons. constructor; [by apply IH|].
    apply Forall_forall. intros i Hi.
    apply list_elem_of_fmap in Hi as (y & -> & Hy).
    apply list_elem_of_filter in Hy as [_ Hy].
    rewrite Forall_forall in Hlt. apply Hlt. by apply list_elem_of_fmap_2.
  - apply Forall_forall. intros i Hi.
    apply list_elem_of_fmap in Hi as (y & -> & Hy).
    apply list_elem_of_filter in Hy as [_ Hy].
    rewrite Forall_forall in Hbound. apply Hbound. by apply list_elem_of_fmap_2.
Qed.

Lemma sql_update_is_Some columns kwargs tail (r : gmap string cell) r' :
  sql_update columns kwargs tail (Some r) = Ok r' -> is_Some r'.
Proof.
  unfold sql_update. destruct kwargs as [|kv kwargs]; [discriminate|].
  destruct (forallb _ _); [|discriminate].
  destruct (mapM _ _) as [params|]; simpl; [|discriminate].
  destruct (id_is_1 _); [|discriminate]. intros [= <-]. eauto.
Qed.

Lemma steps_update_game_state kwargs : steps (update_game_state kwargs).
Proof.
  intros db. unfold update_game_state.
  destruct (sql_update _ _ _ _) as [r|e] eqn:E; simpl; [|apply step_refl].
  split; [|by split]. unfold grows; simpl. repeat split; try done.
  intros [r0 Hr0]. rewrite Hr0 in E. by eapply sql_update_is_Some.
Qed.

Lemma steps_update_ship_status kwargs : steps (update_ship_status kwargs).
Proof.
  intros db. unfold update_ship_status.
  destruct (sql_update _ _ _ _) as [r|e] eqn:E; simpl; [|apply step_refl].
  split; [|by split]. unfold grows; simpl. repeat split; try done.
  intros [r0 Hr0]. rewrite Hr0 in E. by eapply sql_update_is_Some.
Qed.

(** Closes the numbering of the store after an insert into one table: the
    table that received the row by [numbered_snoc], the others because their
    counter was not touched. *)
Ltac renumber :=
  intros (Hcarriers & Hsignals & Hasteroids & Hrefined & Hchat);
  unfold well_numbered, next_id; simpl;
  rewrite ?fmap_app, ?lookup_insert_eq; simpl;
  rewrite ?lookup_insert_ne by done;
  (split; [|split; [|split; [|split]]]);
  first [assumption | by apply numbered_snoc].

(** A statement that appends one row, under the next id of its table. *)
Ltac step_append :=
  intros ?; unfold write; simpl; split;
  [ unfold grows; simpl; repeat split; try done; by apply prefix_app_r
  | split; [renumber | done] ].

Ltac steps_seq :=
  repeat match goal with
  | |- steps (mret _) => apply steps_ret
  | |- steps (lift _) => apply steps_lift
  | |- steps (read _) => apply steps_read
  | |- steps get_game_state => apply steps_read
  | |- steps get_ship_status => apply steps_read
  | |- steps (update_game_state _) => apply steps_update_game_state
  | |- steps (update_ship_status _) => apply steps_update_ship_status
  | |- steps (mbind _ _) => apply steps_bind; [|intros ?]
  | |- steps (for_each _ _) => apply steps_for_each; intros ?
  | |- steps (if ?b then _ else _) => destruct b
  | |- _ => progress cbv beta zeta
  end.

Lemma StronglySorted_filter {A} (R : relation A) (P : A -> Prop)
    `{forall x, Decision (P x)} (l : list A) :
  StronglySorted R l -> StronglySorted R (filter P l).
Proof.
  induction 1 as [|x l Hs IH Hx]; [constructor|].
  rewrite filter_cons. destruct (decide (P x)); [|exact IH].
  constructor; [exact IH|].
  apply Forall_forall. intros y [_ Hy]%list_elem_of_filter.
  rewrite Forall_forall in Hx. by apply Hx.
Qed.

Lemma steps_add_fleet_carrier signal_name system_address system_name ts :
  steps (add_fleet_carrier signal_name system_address system_name ts).
Proof.
  unfold add_fleet_carrier. steps_seq.
  intros db; unfold write; simpl; split; [|split].
  - unfold grows; simpl. by repeat split.
  - intros (Hcarriers & Hrest).
    eapply (numbered_filter Carrier.id) in Hcarriers.
    revert Hcarriers Hrest. intros Hcarriers (Hsignals & Hasteroids & Hrefined & Hchat).
    unfold well_numbered, next_id; simpl.
    rewrite ?fmap_app, ?lookup_insert_eq; simpl.
    rewrite ?lookup_insert_ne by done.
    (split; [|split; [|split; [|split]]]); try assumption.
    apply numbered_snoc. exact Hcarriers.
  - unfold distinct_carriers. simpl. intros Hdistinct.
    apply StronglySorted_app_2.
    + intros r r' [Hr _]%list_elem_of_filter ->%list_elem_of_singleton.
      exact Hr.
    + by apply StronglySorted_filter.
    + repeat constructor.
Qed.

Lemma steps_add_fss_signal signal_name signal_type is_station system_address
    system_name journal_timestamp :
  steps (add_fss_signal signal_name signal_type is_station system_address
           system_name journal_timestamp).
Proof. unfold add_fss_signal. steps_seq. step_append. Qed.

Lemma steps_insert_prospected timestamp material_name percentage
    is_motherlode content is_surface is_deepcore remaining :
  steps (ServiceGamelog.insert_prospected timestamp material_name percentage
           is_motherlode content is_surface is_deepcore remaining).
Proof. unfold ServiceGamelog.insert_prospected. steps_seq. step_append. Qed.

Lemma steps_add_chat_message data : steps (add_chat_message data).
Proof. unfold add_chat_message. steps_seq. step_append. Qed.

(** Every handler of the journal processor is a step. *)
Ltac handler_steps :=
  intros data db; apply steps_try_except;
  repeat match goal with
  | |- steps (add_fleet_carrier _ _ _ _) => apply steps_add_fleet_carrier
  | |- steps (add_fss_signal _ _ _ _ _ _) => apply steps_add_fss_signal
  | |- steps (ServiceGamelog.insert_prospected _ _ _ _ _ _ _ _) =>
      apply steps_insert_prospected
  | |- steps (add_chat_message _) => apply steps_add_chat_message
  | |- steps (write _) => step_append
  | |- _ => progress steps_seq
  end.

Lemma handlers_step :
  Forall (fun kh : string * ServiceGamelog.handler =>
            forall data db, step db (kh.2 data db))
         ServiceGamelog.handlers.
Proof.
  unfold ServiceGamelog.handlers.
  repeat apply Forall_cons_2; try apply Forall_nil_2; simpl.
  - unfold ServiceGamelog._handle_LoadGame. handler_steps.
  - unfold ServiceGamelog._handle_Location. handler_steps.
  - unfold ServiceGamelog._handle_FSDJump. handler_steps.
  - unfold ServiceGamelog._handle_Docked. handler_steps.
  - unfold ServiceGamelog._handle_Loadout. handler_steps.
  - unfold ServiceGamelog._handle_Cargo. handler_steps.
  - unfold ServiceGamelog._handle_Materials. handler_steps.
  - unfold ServiceGamelog._handle_ProspectedAsteroid,
      ServiceGamelog.prospect_material. handler_steps.
  - unfold ServiceGamelog._handle_MiningRefined. handler_steps.
  - unfold ServiceGamelog._handle_FSSSignalDiscovered. handler_steps.
  - unfold ServiceGamelog._handle_ReceiveText. handler_steps.
  - unfold ServiceGamelog._handle_MarketSell. handler_steps.
  - unfold ServiceGamelog._handle_MarketBuy. handler_steps.
  - unfold ServiceGamelog._handle_SellExplorationData. handler_steps.
Qed.

Lemma process_line_step json_loads (line : string) db :
  step db (ServiceGamelog.process_line json_loads line db).
Proof.
  unfold ServiceGamelog.process_line.
  destruct (json_loads line) as [data|]; [|apply step_refl].
  destruct (get data "event" _) as [event|]; [|apply step_refl].
  destruct (ServiceGamelog.getattr_handle event) as [h|] eqn:Hh;
    [|apply step_refl].
  unfold ServiceGamelog.getattr_handle in Hh.
  destruct event as [| | | |e| |]; try discriminate.
  destruct (List.find _ _) as [kh|] eqn:Hfind; [|discriminate].
  injection Hh as <-. apply List.find_some in Hfind as [Hin _].
  pose proof handlers_step as Hall. rewrite Forall_forall in Hall.
  apply Hall. by apply list_elem_of_In.
Qed.

Lemma process_lines_step json_loads (lines : list string) db :
  step db (ServiceGamelog.process_lines json_loads lines db).
Proof.
  unfold ServiceGamelog.process_lines. revert db.
  induction lines as [|line lines IH]; intros db; simpl.
  - apply step_refl.
  - eapply step_trans; [apply process_line_step | apply IH].
Qed.

Lemma steps_write (f : Database -> Database) :
  (forall db, step db (f db)) -> steps (write f).
Proof. intros Hf db. apply Hf. Qed.

Lemma steps_except_sqlite_error (body : M unit) :
  steps body -> steps (EdLogReader.except_sqlite_error body).
Proof.
  intros Hbody db. unfold EdLogReader.except_sqlite_error.
  specialize (Hbody db). by destruct (body db) as [[[]|[]] db'].
Qed.

Lemma steps_ed_update_game_state commander system log_path :
  steps (EdLogReader.update_game_state commander system log_path).
Proof.
  apply steps_except_sqlite_error. intros db.
  set (updates := (_ ++ _ ++ _)%list). clearbody updates.
  destruct updates as [|u us]; [apply step_refl|]. cbv beta iota zeta.
  destruct (sql_update _ _ _ _) as [r|e] eqn:E; simpl; [|apply step_refl].
  split; [|by split]. unfold grows; simpl. repeat split; try done.
  intros [r0 Hr0]. rewrite Hr0 in E. by eapply sql_update_is_Some.
Qed.

Lemma steps_add_prospected_asteroid data :
  steps (EdLogReader.add_prospected_asteroid data).
Proof.
  apply steps_except_sqlite_error. steps_seq. step_append.
Qed.

Lemma steps_add_refined_material journal_timestamp material_name material_type :
  steps (EdLogReader.add_refined_material journal_timestamp material_name
           material_type).
Proof.
  apply steps_except_sqlite_error. steps_seq. step_append.
Qed.

Ltac ed_steps :=
  repeat match goal with
  | |- steps (EdLogReader.add_prospected_asteroid _) =>
      apply steps_add_prospected_asteroid
  | |- steps (EdLogReader.add_refined_material _ _ _) =>
      apply steps_add_refined_material
  | |- steps (EdLogReader.update_game_state _ _ _) =>
      apply steps_ed_update_game_state
  | |- _ => progress steps_seq
  end.

Lemma ed_handle_prospected_asteroid_step data db :
  step db (EdLogReader._handle_prospected_asteroid data db).
Proof.
  unfold EdLogReader._handle_prospected_asteroid,
    EdLogReader.surface_material.
  apply steps_try_except. ed_steps.
Qed.

Lemma ed_handle_mining_refined_step data db :
  step db (EdLogReader._handle_mining_refined data db).
Proof.
  unfold EdLogReader._handle_mining_refined. apply steps_try_except. ed_steps.
Qed.

Lemma ed_process_journal_line_step json_loads (line : string) db :
  step db (EdLogReader._process_journal_line json_loads line db).
Proof.
  unfold EdLogReader._process_journal_line.
  destruct (json_loads line) as [data|]; [|apply step_refl].
  apply steps_try_except. apply steps_bind; [apply steps_lift|intros event].
  repeat match goal with
         | |- steps (if ?b then _ else _) => destruct b
         end;
    first [ apply steps_write; intros;
            first [ apply ed_handle_prospected_asteroid_step
                  | apply ed_handle_mining_refined_step ]
          | ed_steps ].
Qed.

Lemma numbered_NoDup (ids : list Z) (counter : option Z) :
  numbered ids counter -> NoDup ids.
Proof.
  intros [Hsorted _]. induction Hsorted as [|i ids Hs IH Hlt].
  - constructor.
  - constructor; [|exact IH]. intros Hin.
    rewrite Forall_forall in Hlt. specialize (Hlt i Hin). lia.
Qed.

Lemma fresh_well_numbered e : well_numbered (fresh e).
Proof. unfold well_numbered, numbered. simpl. repeat split; constructor. Qed.

(** Projection is append-only (service_gamelog.py).  Whatever the lines of
    a batch decode to, processing them leaves the clock, the process id and
    the service status row alone, keeps the game state and ship status rows
    in existence, and changes the signal, detection, refined-material and
    chat tables only by adding rows at their end: no handler deletes or
    rewrites a row of these tables. *)
Theorem gamelog_projection_is_append_only
    (json_loads : string -> option value) (lines : list string)
    (db : Database) :
  grows db (ServiceGamelog.process_lines json_loads lines db).
Proof. apply process_lines_step. Qed.

(** Ids stay increasing (service_gamelog.py).  If in every AUTOINCREMENT
    table the ids increase strictly in insertion order and none exceeds the
    table's counter, the same holds after processing any batch of lines; in
    particular no two detections share an id, which is what
    [mark_asteroid_processed] relies on. *)
Theorem gamelog_projection_keeps_ids_increasing
    (json_loads : string -> option value) (lines : list string)
    (db : Database) :
  well_numbered db ->
  well_numbered (ServiceGamelog.process_lines json_loads lines db)
  /\ NoDup (Asteroid.id
            <$> prospected_asteroids
                  (ServiceGamelog.process_lines json_loads lines db)).
Proof.
  intros Hdb.
  assert (Hafter : well_numbered
                     (ServiceGamelog.process_lines json_loads lines db))
    by by apply process_lines_step.
  split; [exact Hafter|].
  destruct Hafter as (_ & _ & Hasteroids & _). by eapply numbered_NoDup.
Qed.

Lemma gamelog_projection_keeps_ids_witness :
  well_numbered (fresh Samples.env0)
  /\ well_numbered
       (ServiceGamelog.process_lines Samples.sample_loads
          [Samples.location_line; Samples.chat_line] (fresh Samples.env0)).
Proof.
  split; [apply fresh_well_numbered|].
  apply (gamelog_projection_keeps_ids_increasing Samples.sample_loads
           [Samples.location_line; Samples.chat_line] (fresh Samples.env0)).
  apply fresh_well_numbered.
Defined.

(** The same two properties for the dispatcher of ed_log_reader.py: one
    journal line, whatever it decodes to, only appends to the detection and
    refined-material tables, never touches the service status row, and
    keeps the ids of every table strictly increasing. *)
Theorem log_reader_projection_is_append_only
    (json_loads : string -> option value) (line : string) (db : Database) :
  grows db (EdLogReader._process_journal_line json_loads line db)
  /\ (well_numbered db ->
      well_numbered (EdLogReader._process_journal_line json_loads line db)).
Proof.
  destruct (ed_process_journal_line_step json_loads line db)
    as (Hgrows & Hnumbered & _).
  by split.
Qed.

(** ** The scanner's queue of detections *)

Import Connection.

Lemma increasing_ids_inj {A} (f : A -> Z) (l : list A) (x y : A) :
  StronglySorted Z.lt (f <$> l) -> x ∈ l -> y ∈ l -> f x = f y -> x = y.
Proof.
  induction l as [|a l IH]; intros Hsorted Hx Hy Hxy.
  - by apply elem_of_nil in Hx.
  - rewrite fmap_cons in Hsorted.
    inversion Hsorted as [|? ? Hs Hlt]; subst.
    rewrite Forall_forall in Hlt.
    apply elem_of_cons in Hx as [->|Hx]; apply elem_of_cons in Hy as [->|Hy].
    + reflexivity.
    + specialize (Hlt (f y) (list_elem_of_fmap_2 f l y Hy)). lia.
    + specialize (Hlt (f x) (list_elem_of_fmap_2 f l x Hx)). lia.
    + by apply IH.
Qed.

Lemma increasing_ids_sorted (rows : list Asteroid.row) :
  StronglySorted Z.lt (Asteroid.id <$> rows) ->
  StronglySorted EdMiningScanner.by_id rows.
Proof.
  induction rows as [|r rows IH]; intros Hsorted; [constructor|].
  rewrite fmap_cons in Hsorted.
  inversion Hsorted as [|? ? Hs Hlt]; subst.
  constructor; [by apply IH|].
  rewrite Forall_fmap in Hlt. eapply Forall_impl; [exact Hlt|].
  simpl. unfold EdMiningScanner.by_id. intros; lia.
Qed.

Lemma sort_by_id_of_increasing (rows : list Asteroid.row) :
  StronglySorted Z.lt (Asteroid.id <$> rows) ->
  merge_sort EdMiningScanner.by_id rows = rows.
Proof.
  intros Hsorted. apply (StronglySorted_unique_strong EdMiningScanner.by_id).
  - intros x y Hx Hy Hxy Hyx.
    rewrite merge_sort_Permutation in Hx.
    apply (increasing_ids_inj Asteroid.id rows); try done.
    unfold EdMiningScanner.by_id in *. lia.
  - apply StronglySorted_merge_sort; apply _.
  - by apply increasing_ids_sorted.
  - apply merge_sort_Permutation.
Qed.

Lemma scanner_query_of_numbered (db : Database) :
  well_numbered db ->
  EdMiningScanner.get_unprocessed_asteroids (Open db)
  = filter unprocessed (prospected_asteroids db).
Proof.
  intros (_ & _ & Hasteroids & _).
  unfold EdMiningScanner.get_unprocessed_asteroids. simpl.
  apply sort_by_id_of_increasing.
  by apply (numbered_filter Asteroid.id unprocessed) in Hasteroids as [? _].
Qed.

(** Insertion order (ed_mining_scanner.py).  On a store whose ids are
    increasing, the scanner's query returns the unprocessed detections in
    the order in which they were inserted: sorting by id changes nothing. *)
Theorem scanner_reads_detections_in_insertion_order (db : Database) :
  well_numbered db ->
  EdMiningScanner.get_unprocessed_asteroids (Open db)
  = filter unprocessed (prospected_asteroids db).
Proof. apply scanner_query_of_numbered. Qed.

Lemma scanner_insertion_order_witness :
  well_numbered Samples.db_two_scans
  /\ Asteroid.id <$> EdMiningScanner.get_unprocessed_asteroids
                       (Open Samples.db_two_scans) = [1; 2].
Proof.
  assert (H : well_numbered Samples.db_two_scans).
  { unfold well_numbered, numbered. vm_compute.
    repeat split; repeat constructor; discriminate. }
  split; [exact H|].
  rewrite (scanner_reads_detections_in_insertion_order _ H).
  reflexivity.
Defined.

Lemma bind_fitting_int (z : Z) :
  EdMiningScanner.fits_int64 z -> bind (PyInt z) = Ok (INTEGER z).
Proof.
  intros [Hlo Hhi]. unfold bind.
  destruct (Z.leb_spec (- 2 ^ 63) z); [|lia].
  destruct (Z.ltb_spec z (2 ^ 63)); [reflexivity|lia].
Qed.

Lemma scanner_mark_ok (asteroid_id : Z) (db : Database) :
  EdMiningScanner.fits_int64 asteroid_id ->
  EdMiningScanner.mark_asteroid_processed asteroid_id (Open db)
  = (Ok tt,
     Open (set_prospected_asteroids
             (mark_processed asteroid_id <$> prospected_asteroids db)
             (sqlite_sequence db) db)).
Proof.
  intros Hfits.
  unfold EdMiningScanner.mark_asteroid_processed, execute,
    mark_asteroid_processed.
  rewrite (bind_fitting_int _ Hfits), bind_lift_Ok. reflexivity.
Qed.

Lemma mark_processed_id (i : Z) (r : Asteroid.row) :
  Asteroid.id (mark_processed i r) = Asteroid.id r.
Proof. unfold mark_processed. by destruct (bool_decide _). Qed.

Lemma mark_processed_own (r : Asteroid.row) :
  Asteroid.processed (mark_processed (Asteroid.id r) r) = 1.
Proof. unfold mark_processed. by rewrite bool_decide_eq_true_2. Qed.

Lemma mark_processed_twice (i j : Z) (r : Asteroid.row) :
  Asteroid.id r = i ->
  mark_processed j (mark_processed i r) = mark_processed i r.
Proof.
  intros <-. unfold mark_processed at 2 3.
  rewrite bool_decide_eq_true_2 by done.
  unfold mark_processed. simpl. by destruct (bool_decide _).
Qed.

(** The store after the scanner has marked the rows of [l], one by one. *)
Lemma mark_each_ok (l : list Asteroid.row) (db : Database) :
  Forall (fun r => EdMiningScanner.fits_int64 (Asteroid.id r)) l ->
  exists rows,
    EdMiningScanner.mark_each l (Open db)
    = (Ok tt, Open (set_prospected_asteroids rows (sqlite_sequence db) db))
    /\ rows
       = (fun r => if bool_decide (Asteroid.id r ∈ Asteroid.id <$> l)
                   then mark_processed (Asteroid.id r) r else r)
         <$> prospected_asteroids db.
Proof.
  revert db. induction l as [|a l IH]; intros db Hfits.
  - exists (prospected_asteroids db). split.
    + simpl. by destruct db.
    + rewrite <- (list_fmap_id (prospected_asteroids db)) at 1.
      apply list_fmap_ext. by intros _ r _.
  - apply Forall_cons in Hfits as [Ha Hfits]. simpl.
    rewrite (scanner_mark_ok _ _ Ha).
    destruct (IH (set_prospected_asteroids
                    (mark_processed (Asteroid.id a) <$> prospected_asteroids db)
                    (sqlite_sequence db) db) Hfits) as (rows & -> & ->).
    eexists. split; [reflexivity|]. simpl.
    rewrite <- list_fmap_compose. apply list_fmap_ext. intros _ r _. simpl.
    rewrite mark_processed_id.
    destruct (decide (Asteroid.id r = Asteroid.id a)) as [Heq|Hne].
    + rewrite (bool_decide_eq_true_2 (_ ∈ _ :: _)) by (rewrite Heq; left).
      rewrite Heq.
      assert (Hm : mark_processed (Asteroid.id a) r
                   = mark_processed (Asteroid.id r) r) by by rewrite Heq.
      destruct (bool_decide _);
        [rewrite mark_processed_twice by done|]; by rewrite <- Heq.
    + assert (Hr : mark_processed (Asteroid.id a) r = r).
      { unfold mark_processed. by rewrite bool_decide_eq_false_2. }
      rewrite Hr.
      destruct (decide (Asteroid.id r ∈ Asteroid.id <$> l)) as [Hin|Hnin].
      * rewrite !bool_decide_eq_true_2; [done| by right | done].
      * rewrite !bool_decide_eq_false_2; [done| |done].
        intros [?|?]%elem_of_cons; contradiction.
Qed.

Lemma consumed_is_processed (r : Asteroid.row) :
  ~ unprocessed (EdMiningScanner.consumed r).
Proof.
  unfold EdMiningScanner.consumed, unprocessed.
  destruct (decide _) as [Hr|Hr]; [|exact Hr].
  by rewrite mark_processed_own.
Qed.

Lemma filter_none {A} (P : A -> Prop) `{forall x, Decision (P x)}
    (l : list A) :
  Forall (fun x => ~ P x) l -> filter P l = [].
Proof.
  induction 1 as [|x l Hx Hl IH]; [reflexivity|].
  by rewrite filter_cons, decide_False.
Qed.

(** Consumption (ed_mining_scanner.py).  On a store with increasing ids that
    SQLite can hold, the scanner's loop, which marks every detection its
    query returned, succeeds; it flags exactly the detections that were
    unprocessed and changes nothing else in the store; and the query then
    returns no detection: each detection is handed to the scanner once. *)
Theorem scanner_consumes_each_detection_once (db : Database) :
  well_numbered db ->
  Forall (fun r => EdMiningScanner.fits_int64 (Asteroid.id r))
         (prospected_asteroids db) ->
  exists db',
    EdMiningScanner.consume_detections (Open db) = (Ok tt, Open db')
    /\ db' = set_prospected_asteroids
               (EdMiningScanner.consumed <$> prospected_asteroids db)
               (sqlite_sequence db) db
    /\ EdMiningScanner.get_unprocessed_asteroids (Open db') = [].
Proof.
  intros Hdb Hfits. unfold EdMiningScanner.consume_detections.
  rewrite (scanner_query_of_numbered db Hdb).
  set (l := reverse (filter unprocessed (prospected_asteroids db))).
  assert (Hl : forall r, r ∈ l <-> unprocessed r /\ r ∈ prospected_asteroids db).
  { intros r. unfold l. by rewrite elem_of_reverse, list_elem_of_filter. }
  destruct (mark_each_ok l db) as (rows & Hrun & Hrows).
  { apply Forall_forall. intros r Hr. apply Hl in Hr as [_ Hr].
    rewrite Forall_forall in Hfits. by apply Hfits. }
  assert (Hconsumed : rows = EdMiningScanner.consumed <$> prospected_asteroids db).
  { rewrite Hrows. apply list_fmap_ext. intros i r Hr.
    apply list_elem_of_lookup_2 in Hr.
    unfold EdMiningScanner.consumed.
    destruct (decide (unprocessed r)) as [Hu|Hp].
    - rewrite bool_decide_eq_true_2; [done|].
      apply list_elem_of_fmap_2. by apply Hl.
    - rewrite bool_decide_eq_false_2; [done|].
      intros (r' & Hid & Hr')%list_elem_of_fmap.
      apply Hl in Hr' as [Hu' Hr']. apply Hp.
      destruct Hdb as (_ & _ & [Hsorted _] & _).
      by rewrite (increasing_ids_inj Asteroid.id _ r r' Hsorted Hr Hr' Hid). }
  eexists. split; [exact Hrun|]. split; [by rewrite Hconsumed|].
  unfold EdMiningScanner.get_unprocessed_asteroids. simpl.
  rewrite Hconsumed, filter_none; [reflexivity|].
  apply Forall_fmap, Forall_forall. intros r _. apply consumed_is_processed.
Qed.

Lemma scanner_consumes_witness :
  EdMiningScanner.get_unprocessed_asteroids
    (EdMiningScanner.consume_detections (Open Samples.db_two_scans)).2 = [].
Proof.
  assert (Hdb : well_numbered Samples.db_two_scans).
  { unfold well_numbered, numbered. vm_compute.
    repeat split; repeat constructor; discriminate. }
  assert (Hfits : Forall (fun r => EdMiningScanner.fits_int64 (Asteroid.id r))
                         (prospected_asteroids Samples.db_two_scans)).
  { simpl. repeat (apply Forall_cons_2; [by vm_compute|]). apply Forall_nil_2. }
  destruct (scanner_consumes_each_detection_once _ Hdb Hfits)
    as (db' & -> & _ & Hnone).
  exact Hnone.
Defined.

(** Marking (core_database.py).  After [mark_asteroid_processed(id)], the
    query for unprocessed detections returns, under any limit, only rows
    that were unprocessed before and carry another id; without a limit it
    returns all of those.  The rows themselves are handed out unchanged. *)
Theorem marked_detection_is_not_returned_again
    (asteroid_id limit : Z) (db db' db'' : Database)
    (rows : list Asteroid.row) :
  mark_asteroid_processed asteroid_id db = (Ok tt, db') ->
  get_unprocessed_asteroids limit db' = (Ok rows, db'') ->
  (forall r, r ∈ rows ->
     Asteroid.id r <> asteroid_id
     /\ r ∈ filter unprocessed (prospected_asteroids db))
  /\ (limit < 0 ->
      forall r, r ∈ filter unprocessed (prospected_asteroids db) ->
                Asteroid.id r <> asteroid_id -> r ∈ rows).
Proof.
  intros Hmark Hget.
  unfold mark_asteroid_processed in Hmark. inv_M Hmark.
  apply write_ok in Hmark as ->.
  unfold get_unprocessed_asteroids in Hget. inv_M Hget.
  apply read_ok in Hget as [-> _]. simpl.
  assert (Hin : forall r,
    r ∈ merge_sort newest_first
          (filter unprocessed (mark_processed asteroid_id <$> prospected_asteroids db))
    <-> (Asteroid.id r <> asteroid_id
         /\ r ∈ filter unprocessed (prospected_asteroids db))).
  { intros r. rewrite merge_sort_Permutation, !list_elem_of_filter,
      list_elem_of_fmap. split.
    - intros (Hu & r0 & -> & Hr0). unfold mark_processed in *.
      destruct (bool_decide_reflect (Asteroid.id r0 = asteroid_id)) as [Heq|Hne].
      + discriminate Hu.
      + done.
    - intros (Hne & Hu & Hr). split; [done|]. exists r. split; [|done].
      unfold mark_processed. by rewrite bool_decide_eq_false_2. }
  split.
  - intros r Hr. apply Hin. destruct (limit <? 0); [done|].
    apply elem_of_take in Hr as (i & Hi & _).
    by eapply list_elem_of_lookup_2.
  - intros Hlimit r Hr Hne. apply Z.ltb_lt in Hlimit. rewrite Hlimit.
    by apply Hin.
Qed.

Lemma marked_detection_witness :
  exists rows db',
    get_unprocessed_asteroids 100
      (mark_asteroid_processed 1 Samples.db_two_scans).2 = (Ok rows, db')
    /\ Forall (fun r => Asteroid.id r <> 1) rows.
Proof.
  eexists _, _. split; [reflexivity|].
  apply Forall_forall. intros r Hr.
  by apply (marked_detection_is_not_returned_again 1 100
              Samples.db_two_scans _ _ _ eq_refl eq_refl).
Defined.

(** ** Reading back what was written to a singleton table *)

Lemma dict_of_row_get (columns : list string) (r : gmap string cell)
    (k : string) (c : cell) (dflt : value) :
  k ∈ columns -> r !! k = Some c ->
  get (dict_of_row columns r) k dflt = Ok (to_python c).
Proof.
  intros Hk Hr. unfold dict_of_row, get. f_equal.
  induction columns as [|k0 columns IH]; [by apply elem_of_nil in Hk|].
  simpl. destruct (decide (k = k0)) as [<-|Hne].
  - rewrite Hr. simpl. by rewrite String.eqb_refl.
  - apply elem_of_cons in Hk as [?|Hk]; [done|].
    destruct (r !! k0) as [c0|]; simpl; [|by apply IH].
    apply String.eqb_neq in Hne. rewrite Hne. by apply IH.
Qed.

Lemma foldl_assign_lookup (l : list (string * cell)) (r : gmap string cell)
    (k : string) (c : cell) :
  NoDup l.*1 -> (k, c) ∈ l -> foldl assign r l !! k = Some c.
Proof.
  revert r. induction l as [|[k0 c0] l IH]; intros r Hnodup Hin.
  - by apply elem_of_nil in Hin.
  - simpl in Hnodup. apply NoDup_cons in Hnodup as [Hk0 Hnodup].
    apply elem_of_cons in Hin as [[= -> ->]|Hin]; simpl.
    + rewrite foldl_assign_other by done. unfold assign. simpl.
      apply lookup_insert_eq.
    + by apply IH.
Qed.

Lemma bound_params_elem (kwargs : list (string * value))
    (params : list (string * cell)) (k : string) (v : value) :
  mapM (fun kv => c ← bind kv.2; Ok (kv.1, c)) kwargs = Ok params ->
  (k, v) ∈ kwargs ->
  exists c, bind v = Ok c /\ (k, c) ∈ params.
Proof.
  revert params. induction kwargs as [|[k0 v0] kwargs IH]; intros params H Hin.
  - by apply elem_of_nil in Hin.
  - simpl in H. apply bind_res_ok in H as ([k' c'] & Hc & H).
    apply bind_res_ok in Hc as (c0 & Hc & [= <- <-]).
    apply bind_res_ok in H as (rest & Hrest & [= <-]).
    apply elem_of_cons in Hin as [[= -> ->]|Hin].
    + exists c0. split; [done|left].
    + destruct (IH rest Hrest Hin) as (c & Hv & Hc'). exists c.
      split; [done|by right].
Qed.

Lemma sql_update_reads_back columns kwargs tail (r : gmap string cell)
    (table' : option (gmap string cell)) (k : string) (v : value) :
  sql_update columns kwargs tail (Some r) = Ok table' ->
  NoDup kwargs.*1 -> (k, v) ∈ kwargs -> k ∉ tail.*1 ->
  exists c r', bind v = Ok c /\ table' = Some r' /\ k ∈ columns
               /\ r' !! k = Some c.
Proof.
  unfold sql_update. intros H Hnodup Hin Htail.
  destruct kwargs as [|kv kwargs]; [discriminate|].
  destruct (forallb _ _) eqn:Hcols; [|discriminate].
  apply bind_res_ok in H as (params & Hparams & H).
  destruct (id_is_1 _); [|discriminate]. injection H as <-.
  destruct (bound_params_elem _ _ k v Hparams Hin) as (c & Hc & Hkc).
  exists c, (foldl assign r (params ++ tail)).
  split; [done|]. split; [done|]. split.
  - rewrite forallb_forall in Hcols.
    apply list_elem_of_In, Hcols in Hin. by apply bool_decide_eq_true_1 in Hin.
  - rewrite foldl_app, foldl_assign_other by done.
    apply foldl_assign_lookup; [|done].
    by rewrite (bound_params_keys _ _ Hparams).
Qed.

(** Round trip (core_database.py).  After a successful [update_*] of a
    singleton table that has its row, the matching [get_*] returns a dict in
    which every column named in the update holds the value that was passed,
    as SQLite stores it ([last_updated], which the statement sets itself,
    apart). *)
Theorem singleton_update_reads_back
    (kwargs : list (string * value)) (db db' : Database)
    (k : string) (v : value) :
  NoDup kwargs.*1 -> (k, v) ∈ kwargs -> k <> "last_updated" ->
  (is_Some (game_state db) ->
   update_game_state kwargs db = (Ok tt, db') ->
   exists c, bind v = Ok c
             /\ ((get_game_state db').1 ≫= fun d => get d k PyNone)
                = Ok (to_python c))
  /\ (is_Some (ship_status db) ->
      update_ship_status kwargs db = (Ok tt, db') ->
      exists c, bind v = Ok c
                /\ ((get_ship_status db').1 ≫= fun d => get d k PyNone)
                   = Ok (to_python c))
  /\ (is_Some (service_status db) ->
      update_service_status kwargs db = (Ok tt, db') ->
      exists c, bind v = Ok c
                /\ ((get_service_status db').1 ≫= fun d => get d k PyNone)
                   = Ok (to_python c)).
Proof.
  intros Hnodup Hin Hk.
  assert (Htail : forall now : cell, k ∉ [("last_updated", now)].*1).
  { intros now. simpl. by intros ->%list_elem_of_singleton. }
  repeat split.
  - intros [r Hr].
    unfold update_game_state. rewrite Hr.
    destruct (sql_update _ _ _ _) as [table'|] eqn:E; [|discriminate].
    intros [= <-].
    destruct (sql_update_reads_back _ _ _ _ _ k v E Hnodup Hin (Htail _))
      as (c & r' & Hc & -> & Hcol & Hr').
    exists c. split; [done|].
    change (get (dict_of_row game_state_columns r') k PyNone
            = Ok (to_python c)).
    by apply dict_of_row_get.
  - intros [r Hr].
    unfold update_ship_status. rewrite Hr.
    destruct (sql_update _ _ _ _) as [table'|] eqn:E; [|discriminate].
    intros [= <-].
    destruct (sql_update_reads_back _ _ _ _ _ k v E Hnodup Hin (Htail _))
      as (c & r' & Hc & -> & Hcol & Hr').
    exists c. split; [done|].
    change (get (dict_of_row ship_status_columns r') k PyNone
            = Ok (to_python c)).
    by apply dict_of_row_get.
  - intros [r Hr].
    unfold update_service_status. rewrite Hr.
    destruct (sql_update _ _ _ _) as [table'|] eqn:E; [|discriminate].
    intros [= <-].
    destruct (sql_update_reads_back _ _ _ _ _ k v E Hnodup Hin)
      as (c & r' & Hc & -> & Hcol & Hr'); [apply not_elem_of_nil|].
    exists c. split; [done|].
    change (get (dict_of_row service_status_columns r') k PyNone
            = Ok (to_python c)).
    by apply dict_of_row_get.
Qed.

Lemma singleton_update_witness :
  exists c,
    bind (PyStr "Sol") = Ok c
    /\ ((get_game_state
           (update_game_state [("current_system", PyStr "Sol")]
              (fresh Samples.env0)).2).1
        ≫= fun d => get d "current_system" PyNone)
       = Ok (to_python c).
Proof.
  destruct (singleton_update_reads_back
              [("current_system", PyStr "Sol")] (fresh Samples.env0)
              (update_game_state [("current_system", PyStr "Sol")]
                 (fresh Samples.env0)).2
              "current_system" (PyStr "Sol")) as [Hgame _].
  - simpl. apply NoDup_singleton.
  - left.
  - discriminate.
  - apply Hgame; [by eexists | reflexivity].
Defined.

(** ** The running flag *)

Lemma sql_update_succeeds columns kwargs tail (r : gmap string cell)
    (params : list (string * cell)) :
  kwargs <> [] ->
  Forall (fun kv : string * value => kv.1 ∈ columns) kwargs ->
  mapM (fun kv => c ← bind kv.2; Ok (kv.1, c)) kwargs = Ok params ->
  "id" ∉ kwargs.*1 -> "id" ∉ tail.*1 ->
  r !! "id" = Some (INTEGER 1) ->
  sql_update columns kwargs tail (Some r)
  = Ok (Some (foldl assign r (params ++ tail))).
Proof.
  intros Hne Hcols Hparams Hk Ht Hid. unfold sql_update.
  destruct kwargs as [|kv kwargs]; [done|].
  assert (Hall : forallb (fun kv : string * value =>
                            bool_decide (kv.1 ∈ columns)) (kv :: kwargs)
                 = true).
  { apply forallb_forall. intros x Hx%list_elem_of_In.
    rewrite Forall_forall in Hcols. by apply bool_decide_eq_true_2, Hcols. }
  rewrite Hall, Hparams. simpl.
  assert (Hid' : id_is_1 (foldl assign r (params ++ tail)) = true).
  { unfold id_is_1. rewrite foldl_assign_other, Hid; [done|].
    rewrite fmap_app, (bound_params_keys _ _ Hparams).
    intros [?|?]%elem_of_app; contradiction. }
  by rewrite Hid'.
Qed.

Lemma launcher_reads_flag (db : Database) (z : Z) :
  column (service_status db) "is_running" = Some (INTEGER z) ->
  Launcher.is_running (Ok (Open db)) = negb (z =? 0).
Proof.
  unfold column. destruct (service_status db) as [r|] eqn:Hr; [|discriminate].
  simpl. intros Hflag.
  assert (Hq : query (Open db) get_service_status
               = Ok (dict_of_row service_status_columns r)).
  { unfold query, get_service_status, read. cbn [fst]. by rewrite Hr. }
  unfold Launcher.is_running. cbn [mbind res_bind]. rewrite Hq.
  change (Ok (dict_of_row service_status_columns r) ≫= _)
    with (get (dict_of_row service_status_columns r) "is_running" (PyInt 0)
          ≫= fun flag => Ok (truthy flag)).
  rewrite (dict_of_row_get _ _ _ (INTEGER z)); [done| |done].
  unfold service_status_columns. set_solver.
Qed.

Lemma heartbeat_keeps_column (v : value) (db : Database) (col : string) :
  col <> "last_heartbeat" ->
  column (service_status
            (update_service_status [("last_heartbeat", v)] db).2) col
  = column (service_status db) col.
Proof.
  intros Hcol. unfold update_service_status.
  destruct (sql_update _ _ _ _) as [table'|] eqn:E; [|done]. simpl.
  eapply sql_update_column; [exact E| |apply not_elem_of_nil].
  simpl. by intros ->%list_elem_of_singleton.
Qed.

Lemma run_iteration_keeps_column json_loads d s (col : string) :
  col <> "last_heartbeat" ->
  column (service_status (ServiceGamelog.run_iteration json_loads d s).2) col
  = column (service_status s.2) col.
Proof.
  intros Hcol. destruct s as [svc db]. unfold ServiceGamelog.run_iteration.
  destruct (ServiceGamelog.read_new_lines d _) as [m lines].
  destruct (process_lines_step json_loads lines db) as [(_ & Hstatus & _) _].
  destruct (10 <=? _).
  - pose proof (heartbeat_keeps_column
                  (PyStr (utcnow_isoformat
                            (env (ServiceGamelog.process_lines json_loads
                                    lines db))))
                  (ServiceGamelog.process_lines json_loads lines db) col Hcol)
      as Hbeat.
    destruct (update_service_status _ _) as [[u|e] db2]; simpl in *;
      by rewrite Hbeat, Hstatus.
  - simpl. by rewrite Hstatus.
Qed.

Lemma run_loop_keeps_column json_loads ds s (col : string) :
  col <> "last_heartbeat" ->
  column (service_status (ServiceGamelog._run_loop json_loads ds s).2) col
  = column (service_status s.2) col.
Proof.
  intros Hcol. revert s. induction ds as [|d ds IH]; intros s; [done|].
  simpl. destruct (ServiceGamelog.running s.1); [|done].
  by rewrite IH, run_iteration_keeps_column.
Qed.

Lemma find_some_of_elem {A} (p : A -> bool) (l : list A) (x : A) :
  x ∈ l -> p x = true -> is_Some (List.find p l).
Proof.
  intros Hx Hp. destruct (List.find p l) eqn:E; [eauto|].
  apply list_elem_of_In in Hx.
  by rewrite (List.find_none _ _ E x Hx) in Hp.
Qed.

Lemma latest_journal_can_be_opened (d : Fs.directory) (n : string) :
  ServiceGamelog.find_latest_journal d = Some n -> is_Some (Fs.lookup d n).
Proof.
  unfold ServiceGamelog.find_latest_journal.
  destruct (List.filter _ _) as [|f fs] eqn:E; [discriminate|].
  intros [= <-].
  destruct (max_by_spec Fs.st_mtime fs f) as [Hin _].
  rewrite <- E in Hin. apply elem_of_List_filter in Hin as [Hin _].
  unfold Fs.lookup. apply (find_some_of_elem _ _ _ Hin).
  apply String.eqb_refl.
Qed.

Lemma update_service_status_succeeds (kwargs : list (string * value))
    (params : list (string * cell)) (db : Database) (r : gmap string cell) :
  service_status db = Some r -> r !! "id" = Some (INTEGER 1) ->
  kwargs <> [] ->
  Forall (fun kv : string * value => kv.1 ∈ service_status_columns) kwargs ->
  mapM (fun kv => c ← bind kv.2; Ok (kv.1, c)) kwargs = Ok params ->
  "id" ∉ kwargs.*1 ->
  update_service_status kwargs db
  = (Ok tt, set_service_status (Some (foldl assign r params)) db).
Proof.
  intros Hr Hid Hne Hcols Hparams Hk. unfold update_service_status.
  rewrite Hr, (sql_update_succeeds _ _ [] r params); try done.
  - by rewrite app_nil_r.
  - apply not_elem_of_nil.
Qed.

(** The running flag (service_gamelog.py, start.py, win_mining.py).  When
    the service starts on a directory that holds a journal, over a store
    that has its service status row, the launcher's [is_running] answers
    True after [start] has written the status and after any number of turns
    of the main loop, whatever the journal holds and whatever the lines
    decode to; after [stop] it answers False. *)
Theorem gamelog_service_is_seen_running_until_stopped
    (json_loads : string -> option value) (d : Fs.directory)
    (ds : list Fs.directory) (svc : ServiceGamelog.LogReaderService)
    (db : Database) :
  column (service_status db) "id" = Some (INTEGER 1) ->
  is_Some (ServiceGamelog.find_latest_journal d) ->
  EdMiningScanner.fits_int64 (getpid (env db)) ->
  Launcher.is_running
    (Ok (Open (ServiceGamelog.start json_loads d ds (svc, db)).2)) = true
  /\ Launcher.is_running
       (Ok (Open (ServiceGamelog.stop
                    (ServiceGamelog.start json_loads d ds (svc, db))).2))
     = false.
Proof.
  intros Hid [latest Hlatest] Hpid.
  unfold column in Hid.
  destruct (service_status db) as [r|] eqn:Hr; [simpl in Hid|discriminate].
  destruct (latest_journal_can_be_opened d latest Hlatest) as [f Hf].
  unfold ServiceGamelog.start. rewrite Hlatest.
  unfold ServiceGamelog.open_journal. rewrite Hf.
  set (params := [("is_running", INTEGER 1);
                  ("pid", INTEGER (getpid (env db)));
                  ("last_heartbeat", TEXT (utcnow_isoformat (env db)));
                  ("journal_file", TEXT latest);
                  ("scan_interval", REAL 0.5)]).
  rewrite (update_service_status_succeeds _ params db r Hr Hid).
  2: done.
  2: { repeat constructor; simpl; decide_by_computation. }
  2: { cbn -[bind]. by rewrite (bind_fitting_int _ Hpid). }
  2: { simpl. decide_by_computation. }
  set (s := ServiceGamelog._run_loop json_loads ds _).
  assert (Hflag : column (service_status s.2) "is_running" = Some (INTEGER 1)).
  { unfold s. rewrite run_loop_keeps_column by done.
    subst params. simpl. unfold assign. simpl.
    rewrite !lookup_insert_ne by done. by rewrite lookup_insert_eq. }
  assert (Hid2 : column (service_status s.2) "id" = Some (INTEGER 1)).
  { unfold s. rewrite run_loop_keeps_column by done.
    subst params. simpl. unfold assign. simpl.
    by rewrite !lookup_insert_ne by done. }
  split; [by rewrite (launcher_reads_flag _ 1 Hflag)|].
  destruct s as [svc2 db2]. simpl in Hflag, Hid2.
  unfold column in Hid2.
  destruct (service_status db2) as [r2|] eqn:Hr2; [simpl in Hid2|discriminate].
  unfold ServiceGamelog.stop, try_except.
  rewrite (update_service_status_succeeds _
             [("is_running", INTEGER 0);
              ("last_heartbeat", TEXT (utcnow_isoformat (env db2)))]
             db2 r2 Hr2 Hid2); try done.
  - apply (launcher_reads_flag _ 0). simpl. unfold assign. simpl.
    rewrite lookup_insert_ne by done. by rewrite lookup_insert_eq.
  - repeat constructor; simpl; decide_by_computation.
  - simpl. decide_by_computation.
Qed.

Lemma gamelog_service_witness :
  Launcher.is_running
    (Ok (Open (ServiceGamelog.start Samples.sample_loads Samples.dir_untouched
                 [Samples.dir_untouched; Samples.dir_touched]
                 (ServiceGamelog.LogReaderService_init,
                  fresh Samples.env0)).2)) = true
  /\ Launcher.is_running
       (Ok (Open (ServiceGamelog.stop
                    (ServiceGamelog.start Samples.sample_loads
                       Samples.dir_untouched
                       [Samples.dir_untouched; Samples.dir_touched]
                       (ServiceGamelog.LogReaderService_init,
                        fresh Samples.env0))).2)) = false.
Proof.
  apply (gamelog_service_is_seen_running_until_stopped Samples.sample_loads
           Samples.dir_untouched [Samples.dir_untouched; Samples.dir_touched]
           ServiceGamelog.LogReaderService_init (fresh Samples.env0)).
  - reflexivity.
  - by eexists.
  - by vm_compute.
Defined.

Lemma ed_status_round_trip
    (is_running pid journal_file : value) (c_pid c_file : cell)
    (db : Database) :
  is_Some (service_status db) ->
  bind pid = Ok c_pid -> bind journal_file = Ok c_file ->
  EdMiningScanner.get_service_status
    (Open (EdLogReader.update_service_status is_running pid journal_file db).2)
  = PyDict [("is_running", PyBool (truthy is_running));
            ("pid", to_python c_pid);
            ("last_heartbeat", PyStr (CURRENT_TIMESTAMP (env db)));
            ("journal_file", to_python c_file)]
  /\ Launcher.is_running
       (Ok (Open (EdLogReader.update_service_status
                    is_running pid journal_file db).2))
     = truthy is_running.
Proof.
  intros [r Hr] Hpid Hfile.
  assert (Hrun : (EdLogReader.update_service_status is_running pid
                    journal_file db).2
                 = set_service_status
                     (Some (<["journal_file" := c_file]>
                              (<["last_heartbeat" :=
                                   TEXT (CURRENT_TIMESTAMP (env db))]>
                                 (<["pid" := c_pid]>
                                    (<["is_running" :=
                                         INTEGER (if truthy is_running
                                                  then 1 else 0)]> r)))))
                     db).
  { unfold EdLogReader.update_service_status,
      EdLogReader.except_sqlite_error.
    rewrite Hpid, bind_lift_Ok, Hfile, bind_lift_Ok. simpl.
    by rewrite Hr. }
  rewrite Hrun. split.
  - unfold EdMiningScanner.get_service_status, query, read. simpl.
    rewrite lookup_insert_eq.
    rewrite (lookup_insert_ne _ "journal_file" "last_heartbeat") by done.
    rewrite lookup_insert_eq.
    rewrite !(lookup_insert_ne _ _ "pid") by done.
    rewrite lookup_insert_eq.
    rewrite !(lookup_insert_ne _ _ "is_running") by done.
    rewrite lookup_insert_eq. simpl.
    by destruct (truthy is_running).
  - rewrite (launcher_reads_flag _ (if truthy is_running then 1 else 0)).
    + by destruct (truthy is_running).
    + simpl. rewrite !lookup_insert_ne by done. by rewrite lookup_insert_eq.
Qed.

(** Heartbeat round trip (ed_log_reader.py, ed_mining_scanner.py).  What
    the log reader's [update_service_status] writes is what the scanner's
    [get_service_status] reads in another process: the flag as a bool, the
    process id and the journal path as passed, and SQLite's current time as
    the heartbeat.  The launcher's [is_running] then answers the flag. *)
Theorem log_reader_status_is_read_by_scanner
    (is_running pid journal_file : value) (c_pid c_file : cell)
    (db : Database) :
  is_Some (service_status db) ->
  bind pid = Ok c_pid -> bind journal_file = Ok c_file ->
  EdMiningScanner.get_service_status
    (Open (EdLogReader.update_service_status is_running pid journal_file db).2)
  = PyDict [("is_running", PyBool (truthy is_running));
            ("pid", to_python c_pid);
            ("last_heartbeat", PyStr (CURRENT_TIMESTAMP (env db)));
            ("journal_file", to_python c_file)]
  /\ Launcher.is_running
       (Ok (Open (EdLogReader.update_service_status
                    is_running pid journal_file db).2))
     = truthy is_running.
Proof. apply ed_status_round_trip. Qed.

Lemma log_reader_status_witness :
  Launcher.is_running
    (Ok (Open (EdLogReader.update_service_status (PyBool true) (PyInt 4242)
                 (PyStr "Journal.2025-11-29T110000.01.log")
                 (EdLogReader.fresh Samples.env0)).2)) = true.
Proof.
  by destruct (log_reader_status_is_read_by_scanner (PyBool true) (PyInt 4242)
                 (PyStr "Journal.2025-11-29T110000.01.log")
                 (INTEGER 4242) (TEXT "Journal.2025-11-29T110000.01.log")
                 (EdLogReader.fresh Samples.env0)
                 (ltac:(by eexists)) eq_refl eq_refl) as [_ ->].
Defined.

(** ** Polling a journal that grows *)

Lemma string_app_nil (s : string) : s +:+ EmptyString = s.
Proof. induction s as [|c s IH]; [reflexivity|]. by rewrite string_app_cons, IH. Qed.

Lemma string_app_app (a b c : string) : (a +:+ b) +:+ c = a +:+ (b +:+ c).
Proof.
  induction a as [|x a IH]; [reflexivity|]. by rewrite !string_app_cons, IH.
Qed.

Lemma drop_string_all (s : string) :
  Fs.drop_string (String.length s) s = EmptyString.
Proof. by rewrite <- (string_app_nil s) at 2; rewrite drop_string_app. Qed.

(** Text that ends at a line boundary splits the lines of what follows
    from its own. *)
Lemma readlines_app (complete rest : string) :
  complete = EmptyString \/ (exists c0, complete = c0 +:+ Fs.LF) ->
  Fs.readlines (complete +:+ rest)
  = (Fs.readlines complete ++ Fs.readlines rest)%list.
Proof.
  intros [->|[c0 ->]]; [reflexivity|]. unfold Fs.readlines.
  apply readlines_go_app.
Qed.

(** Complete lines are delivered once (service_gamelog.py).  A monitor
    that follows a journal, polled when the text written since the last
    poll ends at a line boundary and polled again after more text was
    appended, returns in the two polls together exactly the non-blank lines
    of all the text written since, in order: no line is lost, none is
    repeated, and the read position ends at the end of the file. *)
Theorem complete_lines_are_polled_once
    (d1 d2 : Fs.directory) (m : ServiceGamelog.JournalMonitor)
    (f1 f2 : Fs.file) (consumed new1 new2 : string) :
  ServiceGamelog.following d1 m f1 ->
  ServiceGamelog.last_position m = String.length consumed ->
  Fs.content f1 = consumed +:+ new1 ->
  new1 = EmptyString \/ (exists c0, new1 = c0 +:+ Fs.LF) ->
  ServiceGamelog.following d2 (ServiceGamelog.read_new_lines d1 m).1 f2 ->
  Fs.content f2 = Fs.content f1 +:+ new2 ->
  ((ServiceGamelog.read_new_lines d1 m).2
   ++ (ServiceGamelog.read_new_lines d2
         (ServiceGamelog.read_new_lines d1 m).1).2)%list
  = ServiceGamelog.stripped_lines (Fs.readlines (new1 +:+ new2))
  /\ ServiceGamelog.last_position
       (ServiceGamelog.read_new_lines d2
          (ServiceGamelog.read_new_lines d1 m).1).1
     = String.length (Fs.content f2).
Proof.
  intros Hfollow Hpos Hcontent Hboundary Hfollow2 Hcontent2.
  rewrite (read_new_lines_following _ _ _ Hfollow) in Hfollow2 |- *.
  rewrite (read_new_lines_following _ _ _ Hfollow2).
  cbn [fst snd ServiceGamelog.last_position].
  rewrite Hpos, Hcontent, drop_string_app.
  assert (Hend : (String.length consumed + String.length new1)%nat
                 = String.length (consumed +:+ new1))
    by by rewrite string_length_app.
  rewrite Hend, Hcontent2, Hcontent, drop_string_app. split.
  - by rewrite readlines_app, stripped_lines_app.
  - by rewrite <- string_length_app.
Qed.

Lemma complete_lines_witness :
  ((ServiceGamelog.read_new_lines (Some [Samples.journal_one_line])
      Samples.monitor_at_start).2
   ++ (ServiceGamelog.read_new_lines (Some [Samples.journal_two_lines])
         (ServiceGamelog.read_new_lines (Some [Samples.journal_one_line])
            Samples.monitor_at_start).1).2)%list
  = ServiceGamelog.stripped_lines
      (Fs.readlines ((Samples.location_line +:+ Fs.LF)
                     +:+ (Samples.chat_line +:+ Fs.LF))).
Proof.
  apply (complete_lines_are_polled_once
           (Some [Samples.journal_one_line]) (Some [Samples.journal_two_lines])
           Samples.monitor_at_start
           Samples.journal_one_line Samples.journal_two_lines
           EmptyString (Samples.location_line +:+ Fs.LF)
           (Samples.chat_line +:+ Fs.LF)).
  - repeat split; reflexivity.
  - reflexivity.
  - reflexivity.
  - right. by eexists.
  - repeat split; reflexivity.
  - reflexivity.
Defined.

(** Rotation (service_gamelog.py).  When a poll finds that another journal
    has become the latest one, the monitor switches to it positioned at its
    end: the poll returns no line, and what the new journal already holds
    at that moment is never delivered. *)
Theorem rotation_skips_what_the_new_journal_holds
    (d : Fs.directory) (m : ServiceGamelog.JournalMonitor)
    (h : ServiceGamelog.handle) (latest : string) (g : Fs.file) :
  ServiceGamelog.file_handle m = Some h ->
  ServiceGamelog.find_latest_journal d = Some latest ->
  Some latest <> ServiceGamelog.current_file m ->
  Fs.lookup d latest = Some g ->
  ServiceGamelog.read_new_lines d m
  = ({| ServiceGamelog.current_file := Some latest;
        ServiceGamelog.file_handle :=
          Some {| ServiceGamelog.h_path := latest;
                  ServiceGamelog.h_closed := false |};
        ServiceGamelog.last_position := String.length (Fs.content g) |},
     []).
Proof.
  intros Hh Hlatest Hnew Hg.
  unfold ServiceGamelog.read_new_lines, ServiceGamelog.check_for_new_file.
  rewrite Hh, Hlatest, bool_decide_eq_true_2 by done.
  unfold ServiceGamelog.open_journal. rewrite Hg.
  cbn [fst ServiceGamelog.file_handle ServiceGamelog.h_closed
       ServiceGamelog.h_path ServiceGamelog.last_position
       ServiceGamelog.current_file].
  rewrite Hg. cbn [fmap option_fmap option_map default].
  rewrite drop_string_all. cbn. by rewrite Nat.add_0_r.
Qed.

Lemma rotation_witness :
  (ServiceGamelog.read_new_lines Samples.dir_rotated
     Samples.monitor_on_yesterday).2 = []
  /\ Fs.content Samples.journal_one_line <> EmptyString.
Proof.
  split; [|discriminate].
  by rewrite (rotation_skips_what_the_new_journal_holds Samples.dir_rotated
                Samples.monitor_on_yesterday _
                "Journal.2025-11-29T110000.01.log" Samples.journal_one_line
                eq_refl eq_refl ltac:(discriminate) eq_refl).
Defined.

(** ** The log reader's tail of its journal *)

(** Tail behaviour (ed_log_reader.py).  The first [get_latest_line] opens
    the current journal positioned at its end and returns nothing: what the
    journal held before is not replayed.  A later call on a handle that
    stands before a complete line returns that line, stripped, and moves
    the handle just past its line feed, whatever follows in the file: lines
    are handed out one per call, in order. *)
Theorem log_reader_tails_its_journal :
  (forall d (r : EdLogReader.JournalReader) (p : string) (f : Fs.file) db,
      EdLogReader.file_handle r = None ->
      EdLogReader.current_file r = Some p ->
      Fs.lookup d p = Some f ->
      EdLogReader.get_latest_line d r db
      = ({| EdLogReader.current_file := Some p;
            EdLogReader.file_handle :=
              Some {| EdLogReader.h_path := p;
                      EdLogReader.h_offset := String.length (Fs.content f);
                      EdLogReader.h_closed := false |};
            EdLogReader.position := String.length (Fs.content f) |},
         None, db))
  /\ (forall d (r : EdLogReader.JournalReader) (h : EdLogReader.handle)
             (f : Fs.file) (consumed line rest : string) db,
         EdLogReader.file_handle r = Some h ->
         EdLogReader.h_closed h = false ->
         EdLogReader.h_path h = Fs.name f ->
         EdLogReader.h_offset h = String.length consumed ->
         Fs.lookup d (Fs.name f) = Some f ->
         Fs.content f = consumed +:+ ((line +:+ Fs.LF) +:+ rest) ->
         Fs.no_terminator line = true ->
         EdLogReader.get_latest_line d r db
         = ({| EdLogReader.current_file := EdLogReader.current_file r;
               EdLogReader.file_handle :=
                 Some {| EdLogReader.h_path := Fs.name f;
                         EdLogReader.h_offset :=
                           String.length consumed
                           + String.length (line +:+ Fs.LF);
                         EdLogReader.h_closed := false |};
               EdLogReader.position :=
                 String.length consumed + String.length (line +:+ Fs.LF) |},
            Some (strip (line +:+ Fs.LF)), db)).
Proof.
  split.
  - intros d r p f db Hnone Hcur Hf.
    unfold EdLogReader.get_latest_line, EdLogReader.get_latest_line_body.
    rewrite Hnone, Hcur. unfold EdLogReader.open_at_end. rewrite Hf.
    cbn [mbind res_bind]. unfold EdLogReader.readline.
    cbn [EdLogReader.h_closed EdLogReader.h_path EdLogReader.h_offset].
    rewrite Hf. cbn [fmap option_fmap option_map default id].
    rewrite drop_string_all.
    cbn [Fs.readlines Fs.readlines_go head default String.eqb negb].
    unfold EdLogReader.getsize.
    cbn [EdLogReader.current_file EdLogReader.position EdLogReader.h_offset].
    rewrite Hf.
    by rewrite (proj2 (Nat.ltb_ge _ _) (Nat.le_refl _)).
  - intros d r h f consumed line rest db Hh Hopen Hpath Hoff Hf Hcontent Hno.
    unfold EdLogReader.get_latest_line, EdLogReader.get_latest_line_body.
    rewrite Hh. unfold EdLogReader.readline.
    rewrite Hopen, Hpath, Hf, Hoff.
    cbn [fmap option_fmap option_map default id].
    rewrite Hcontent, drop_string_app. unfold Fs.readlines.
    rewrite readlines_go_app, readlines_go_line by done.
    cbn [app head default String.rev_app].
    destruct (line +:+ Fs.LF) as [|c s] eqn:E.
    { by destruct line. }
    reflexivity.
Qed.

Lemma log_reader_tail_witness :
  (EdLogReader.get_latest_line (Some [Samples.journal_two_lines])
     Samples.reader_at_start (EdLogReader.fresh Samples.env0)).1.2
  = Some (strip (Samples.location_line +:+ Fs.LF)).
Proof.
  by rewrite (proj2 log_reader_tails_its_journal
                (Some [Samples.journal_two_lines]) Samples.reader_at_start _
                Samples.journal_two_lines EmptyString Samples.location_line
                (Samples.chat_line +:+ Fs.LF) (EdLogReader.fresh Samples.env0)
                eq_refl eq_refl eq_refl eq_refl eq_refl eq_refl eq_refl).
Defined.

(** No rotation (ed_log_reader.py).  A reader whose handle stands at the
    end of its journal, and whose journal has not shrunk below the recorded
    position, gets nothing and stays as it is, whatever else the directory
    holds: a newer journal is not looked for as long as the current one is
    not truncated. *)
Theorem log_reader_keeps_its_journal
    (d : Fs.directory) (r : EdLogReader.JournalReader)
    (h : EdLogReader.handle) (p : string) (f g : Fs.file) (db : Database) :
  EdLogReader.file_handle r = Some h ->
  EdLogReader.h_closed h = false ->
  Fs.lookup d (EdLogReader.h_path h) = Some f ->
  EdLogReader.h_offset h = String.length (Fs.content f) ->
  EdLogReader.current_file r = Some p ->
  Fs.lookup d p = Some g ->
  (EdLogReader.position r <= String.length (Fs.content g))%nat ->
  EdLogReader.get_latest_line d r db = (r, None, db).
Proof.
  intros Hh Hopen Hf Hoff Hcur Hg Hsize.
  unfold EdLogReader.get_latest_line, EdLogReader.get_latest_line_body.
  rewrite Hh. unfold EdLogReader.readline.
  rewrite Hopen, Hf, Hoff.
  cbn [fmap option_fmap option_map default id].
  rewrite drop_string_all.
  cbn [Fs.readlines Fs.readlines_go head default String.eqb negb].
  unfold EdLogReader.getsize. rewrite Hcur, Hg.
  by rewrite (proj2 (Nat.ltb_ge _ _) Hsize).
Qed.

Lemma log_reader_keeps_journal_witness :
  EdLogReader.latest_journal Samples.dir_rotated
  = Ok "Journal.2025-11-29T110000.01.log"
  /\ EdLogReader.get_latest_line Samples.dir_rotated
       Samples.reader_on_yesterday (EdLogReader.fresh Samples.env0)
     = (Samples.reader_on_yesterday, None, EdLogReader.fresh Samples.env0).
Proof.
  split; [by vm_compute|].
  eapply (log_reader_keeps_its_journal Samples.dir_rotated
            Samples.reader_on_yesterday);
    [reflexivity | reflexivity | reflexivity | reflexivity | reflexivity
    | reflexivity | simpl; lia].
Defined.

(** ** The log reader's initial scan of the journal *)

Lemma scan_lines_app json_loads (l1 l2 : list string) (found : value * value) :
  EdLogReader.scan_lines json_loads found (l1 ++ l2)
  = (found' ← EdLogReader.scan_lines json_loads found l1;
     EdLogReader.scan_lines json_loads found' l2).
Proof.
  revert found. induction l1 as [|l l1 IH]; intros found; [reflexivity|].
  simpl. destruct (EdLogReader.scan_line json_loads found l) as [found'|e];
    [apply IH | reflexivity].
Qed.

Lemma scan_lines_aborts json_loads (lines : list string) (line : string) :
  line ∈ lines ->
  (forall found, exists e, EdLogReader.scan_line json_loads found line = Raise e) ->
  forall found, exists e, EdLogReader.scan_lines json_loads found lines = Raise e.
Proof.
  intros Hin Hline. induction lines as [|l lines IH]; intros found.
  - by apply elem_of_nil in Hin.
  - simpl. apply elem_of_cons in Hin as [<-|Hin].
    + destruct (Hline found) as [e ->]. by exists e.
    + destruct (EdLogReader.scan_line json_loads found l) as [found'|e].
      * by apply IH.
      * by exists e.
Qed.

(** Abort (ed_log_reader.py).  If any line of the current journal decodes
    to something that is not an object (a number, a string, a list), the
    initial scan ends in its [except] branch and writes nothing, whatever
    the other lines hold. *)
Theorem initial_scan_aborts_on_a_non_object
    (json_loads : string -> option value) (d : Fs.directory)
    (r : EdLogReader.JournalReader) (p : string) (f : Fs.file)
    (line : string) (v : value) (db : Database) :
  EdLogReader.current_file r = Some p ->
  Fs.lookup d p = Some f ->
  line ∈ Fs.readlines (Fs.content f) ->
  json_loads line = Some v ->
  (forall data, v <> PyDict data) ->
  EdLogReader.read_initial_state json_loads d r db = db.
Proof.
  intros Hcur Hf Hline Hv Hnot.
  unfold EdLogReader.read_initial_state, try_except.
  rewrite Hcur, Hf, bind_lift_Ok.
  destruct (scan_lines_aborts json_loads _ line Hline) with (found := (PyNone, PyNone))
    as [e He].
  { intros found. unfold EdLogReader.scan_line. rewrite Hv.
    destruct v; try (by eexists). by destruct (Hnot d0). }
  by rewrite He.
Qed.

Lemma initial_scan_abort_witness :
  EdLogReader.read_initial_state Samples.loads_with_number
    (Some [Samples.journal_with_number]) Samples.reader_at_start
    (EdLogReader.fresh Samples.env0)
  = EdLogReader.fresh Samples.env0.
Proof.
  apply (initial_scan_aborts_on_a_non_object Samples.loads_with_number
           (Some [Samples.journal_with_number]) Samples.reader_at_start
           "Journal.2025-11-29T110000.01.log" Samples.journal_with_number
           ("42" +:+ Fs.LF) (PyInt 42)).
  - reflexivity.
  - reflexivity.
  - vm_compute. right. left.
  - reflexivity.
  - discriminate.
Defined.

Lemma scan_line_digestible json_loads (found : value * value) (line : string) :
  EdLogReader.digestible json_loads line = true ->
  exists found',
    EdLogReader.scan_line json_loads found line = Ok found'
    /\ (EdLogReader.names_system json_loads line = false ->
        found'.2 = found.2).
Proof.
  unfold EdLogReader.digestible, EdLogReader.scan_line,
    EdLogReader.names_system.
  destruct (json_loads line) as [[| | | | | |data]|]; try discriminate.
  - intros _. cbn [get mbind res_bind].
    set (event := default (PyStr EmptyString) (assoc "event" data)).
    destruct (EdLogReader.is_event event "Commander"),
      (EdLogReader.is_event event "LoadGame"),
      (EdLogReader.is_event event "Location"
       || EdLogReader.is_event event "FSDJump"
       || EdLogReader.is_event event "CarrierJump");
      (eexists; split; [reflexivity|]); simpl; by intros.
  - intros _. by exists found.
Qed.

Lemma scan_lines_digestible json_loads (lines : list string)
    (found : value * value) :
  Forall (fun l => EdLogReader.digestible json_loads l = true) lines ->
  exists found',
    EdLogReader.scan_lines json_loads found lines = Ok found'
    /\ (Forall (fun l => EdLogReader.names_system json_loads l = false) lines ->
        found'.2 = found.2).
Proof.
  intros Hlines. revert found.
  induction Hlines as [|l lines Hl Hlines IH]; intros found.
  - exists found. by split.
  - destruct (scan_line_digestible json_loads found l Hl) as (f1 & Hf1 & Hs1).
    destruct (IH f1) as (f2 & Hf2 & Hs2).
    exists f2. simpl. rewrite Hf1. split; [exact Hf2|].
    intros [Hno Hrest]%Forall_cons. by rewrite Hs2, Hs1.
Qed.

Lemma bound_params_total (kwargs : list (string * value)) :
  Forall (fun kv : string * value => exists c, bind kv.2 = Ok c) kwargs ->
  exists params,
    mapM (fun kv => c ← bind kv.2; Ok (kv.1, c)) kwargs = Ok params.
Proof.
  induction 1 as [|[k v] kwargs [c Hc] _ [params IH]].
  - by exists [].
  - exists ((k, c) :: params). simpl in *. by rewrite Hc, IH.
Qed.

(** The last location wins (ed_log_reader.py).  If every line of the
    current journal either does not decode or decodes to an object, and the
    last line that is a Location, FSDJump or CarrierJump event names a
    non-empty system, the initial scan finds that system, whatever the
    earlier lines say; and if the commander it found can be stored, the
    scan leaves that system in the game state. *)
Theorem initial_state_takes_the_last_system
    (json_loads : string -> option value) (d : Fs.directory)
    (r : EdLogReader.JournalReader) (p : string) (f : Fs.file)
    (before after : list string) (line system : string)
    (data : list (string * value)) (db : Database)
    (game : gmap string cell) :
  EdLogReader.current_file r = Some p ->
  Fs.lookup d p = Some f ->
  Fs.readlines (Fs.content f) = (before ++ line :: after)%list ->
  Forall (fun l => EdLogReader.digestible json_loads l = true)
         (before ++ after) ->
  json_loads line = Some (PyDict data) ->
  EdLogReader.names_system json_loads line = true ->
  assoc "StarSystem" data = Some (PyStr system) ->
  system <> EmptyString ->
  Forall (fun l => EdLogReader.names_system json_loads l = false) after ->
  game_state db = Some game ->
  game !! "id" = Some (INTEGER 1) ->
  exists commander,
    EdLogReader.scan_lines json_loads (PyNone, PyNone)
      (Fs.readlines (Fs.content f))
    = Ok (commander, PyStr system)
    /\ ((exists c, bind commander = Ok c) ->
        column (game_state (EdLogReader.read_initial_state json_loads d r db))
               "current_system"
        = Some (TEXT system)).
Proof.
  intros Hcur Hf Hlines Hdigest Hline Hnames Hsystem Hne Hafter Hgame Hid.
  apply Forall_app in Hdigest as [Hbefore Hdigest].
  destruct (scan_lines_digestible json_loads before (PyNone, PyNone) Hbefore)
    as (found1 & Hfound1 & _).
  assert (Hscan : exists commander,
             EdLogReader.scan_line json_loads found1 line
             = Ok (commander, PyStr system)).
  { unfold EdLogReader.scan_line. unfold EdLogReader.names_system in Hnames.
    rewrite Hline in Hnames |- *. cbn [get mbind res_bind].
    set (event := default (PyStr EmptyString) (assoc "event" data)) in *.
    cbn zeta in Hnames. rewrite Hnames, Hsystem.
    destruct (EdLogReader.is_event event "Commander"),
      (EdLogReader.is_event event "LoadGame"); by eexists. }
  destruct Hscan as [commander1 Hscan].
  destruct (scan_lines_digestible json_loads after (commander1, PyStr system)
              Hdigest) as ([commander found_system] & Hfound & Hsame).
  specialize (Hsame Hafter). simpl in Hsame. subst found_system.
  exists commander.
  assert (Hall : EdLogReader.scan_lines json_loads (PyNone, PyNone)
                   (Fs.readlines (Fs.content f))
                 = Ok (commander, PyStr system)).
  { rewrite Hlines, scan_lines_app, Hfound1. simpl. by rewrite Hscan. }
  split; [exact Hall|]. intros Hcommander.
  unfold EdLogReader.read_initial_state, try_except.
  rewrite Hcur, Hf, bind_lift_Ok, Hall, bind_lift_Ok.
  cbn [fst snd].
  assert (Htruthy : truthy (PyStr system) = true).
  { simpl. destruct (String.eqb_spec system EmptyString); [done|reflexivity]. }
  rewrite Htruthy, orb_true_r.
  unfold EdLogReader.update_game_state, EdLogReader.except_sqlite_error.
  rewrite Htruthy.
  set (updates := (_ ++ _ ++ _)%list).
  assert (Hin : ("current_system", PyStr system) ∈ updates).
  { subst updates. apply elem_of_app. right. apply elem_of_app. left. left. }
  assert (Hnodup : NoDup updates.*1).
  { subst updates. destruct (truthy commander), (truthy (PyStr p)); simpl;
      decide_by_computation. }
  assert (Hcols : Forall (fun kv : string * value => kv.1 ∈ game_state_columns)
                         updates).
  { subst updates. destruct (truthy commander), (truthy (PyStr p));
      repeat constructor; simpl; decide_by_computation. }
  assert (Hkeys : "id" ∉ updates.*1).
  { subst updates. destruct (truthy commander), (truthy (PyStr p)); simpl;
      decide_by_computation. }
  assert (Hbind : exists params,
             mapM (fun kv => c ← bind kv.2; Ok (kv.1, c)) updates = Ok params).
  { apply bound_params_total. subst updates.
    destruct (truthy commander), (truthy (PyStr p));
      repeat constructor; simpl; (exact Hcommander || by eexists). }
  destruct Hbind as [params Hparams].
  assert (Hsome : updates <> []).
  { intros Hnil. rewrite Hnil in Hin. by apply elem_of_nil in Hin. }
  clearbody updates. destruct updates as [|u us]; [done|].
  cbv beta iota zeta. rewrite Hgame.
  pose proof (sql_update_succeeds game_state_columns (u :: us)
                [("last_updated", TEXT (CURRENT_TIMESTAMP (env db)))]
                game params Hsome Hcols Hparams Hkeys) as Hrun.
  rewrite Hrun by (try done; simpl; decide_by_computation).
  destruct (sql_update_reads_back _ _ _ _ _ "current_system" (PyStr system)
              (Hrun ltac:(simpl; decide_by_computation) Hid) Hnodup Hin)
    as (c & r' & Hc & Hr' & _ & Hlookup).
  { simpl. decide_by_computation. }
  injection Hc as <-. injection Hr' as <-. simpl. exact Hlookup.
Qed.

Lemma initial_state_witness :
  column (game_state
            (EdLogReader.read_initial_state Samples.loads_with_number
               (Some [Samples.journal_two_lines]) Samples.reader_at_start
               (EdLogReader.fresh Samples.env0)))
         "current_system"
  = Some (TEXT "Sol").
Proof.
  destruct (initial_state_takes_the_last_system Samples.loads_with_number
              (Some [Samples.journal_two_lines]) Samples.reader_at_start
              "Journal.2025-11-29T110000.01.log" Samples.journal_two_lines
              [] [Samples.chat_line +:+ Fs.LF]
              (Samples.location_line +:+ Fs.LF) "Sol"
              [("timestamp", PyStr "2025-11-29T11:40:02Z");
               ("event", PyStr "Location");
               ("StarSystem", PyStr "Sol")]
              (EdLogReader.fresh Samples.env0)
              (default ∅ (game_state (EdLogReader.fresh Samples.env0))))
    as (commander & Hscan & Hstate).
  - reflexivity.
  - reflexivity.
  - by vm_compute.
  - repeat constructor.
  - by vm_compute.
  - by vm_compute.
  - reflexivity.
  - discriminate.
  - repeat constructor.
  - reflexivity.
  - reflexivity.
  - apply Hstate. vm_compute in Hscan. injection Hscan as <-. by eexists.
Defined.

(** ** The readers of journal_reader.py *)

Lemma last_system_app json_loads (l1 l2 : list string) :
  JournalReaderPy.last_system json_loads l1 = PyNone ->
  JournalReaderPy.last_system json_loads (l1 ++ l2)
  = JournalReaderPy.last_system json_loads l2.
Proof.
  induction l1 as [|line l1 IH]; [done|]. simpl.
  destruct (_ || _); [|exact IH].
  destruct (json_loads line) as [data|]; [|exact IH].
  destruct (get data "StarSystem" PyNone) as [star_system|]; [|exact IH].
  destruct (truthy star_system) eqn:Htruthy; [|exact IH].
  intros ->. discriminate Htruthy.
Qed.

(** The last system named wins (journal_reader.py).  [read_current_system]
    returns the system of the last line of the latest journal that carries
    the Location or FSDJump marker, decodes and names a system; the lines
    before it do not matter, and later lines that carry the marker but do
    not decode, or name no system, are passed over. *)
Theorem current_system_is_the_last_one_named
    (json_loads : string -> option value) (d : Fs.directory) (text : string)
    (before after : list string) (line : string) (data system : value) :
  JournalReaderPy.latest_text d = Some text ->
  Fs.readlines text = (before ++ line :: after)%list ->
  is_substring (JournalReaderPy.event_marker "Location") line
  || is_substring (JournalReaderPy.event_marker "FSDJump") line = true ->
  json_loads line = Some data ->
  get data "StarSystem" PyNone = Ok system ->
  truthy system = true ->
  JournalReaderPy.last_system json_loads (reverse after) = PyNone ->
  JournalReaderPy.read_current_system json_loads d = system.
Proof.
  intros Htext Hlines Hmarker Hdata Hsystem Htruthy Hafter.
  unfold JournalReaderPy.read_current_system. rewrite Htext, Hlines.
  rewrite reverse_app, reverse_cons, <- app_assoc.
  rewrite last_system_app by exact Hafter.
  simpl. by rewrite Hmarker, Hdata, Hsystem, Htruthy.
Qed.

Lemma current_system_witness :
  JournalReaderPy.read_current_system Samples.loads_journal
    (Some [Samples.journal_with_commander]) = PyStr "Sol".
Proof.
  apply (current_system_is_the_last_one_named Samples.loads_journal
           (Some [Samples.journal_with_commander])
           (Fs.content Samples.journal_with_commander)
           [Samples.commander_line +:+ Fs.LF] [Samples.chat_line +:+ Fs.LF]
           (Samples.location_line +:+ Fs.LF) Samples.location_event).
  - reflexivity.
  - by vm_compute.
  - by vm_compute.
  - by vm_compute.
  - reflexivity.
  - reflexivity.
  - by vm_compute.
Defined.

(** The first marked line decides (journal_reader.py).  [read_commander]
    looks at the first line of the latest journal that carries the
    Commander marker and at no other: it returns the Name of that line (or
    Unknown if it has none), and [None] if that line does not decode to an
    object, even when a later line names the commander. *)
Theorem commander_is_decided_by_the_first_marked_line
    (json_loads : string -> option value) (d : Fs.directory) (text : string)
    (before after : list string) (line : string) :
  JournalReaderPy.latest_text d = Some text ->
  Fs.readlines text = (before ++ line :: after)%list ->
  Forall (fun l => is_substring (JournalReaderPy.event_marker "Commander") l
                   = false) before ->
  is_substring (JournalReaderPy.event_marker "Commander") line = true ->
  JournalReaderPy.read_commander json_loads d
  = match json_loads line with
    | Some (PyDict data) => default (PyStr "Unknown") (assoc "Name" data)
    | _ => PyNone
    end.
Proof.
  intros Htext Hlines Hbefore Hmarker.
  unfold JournalReaderPy.read_commander. rewrite Htext, Hlines.
  clear Hlines. induction Hbefore as [|l before Hl Hbefore IH]; simpl.
  - rewrite Hmarker. by destruct (json_loads line) as [[]|].
  - rewrite Hl. exact IH.
Qed.

Lemma commander_witness :
  JournalReaderPy.read_commander Samples.loads_journal
    (Some [Samples.journal_with_commander]) = PyStr "Jameson".
Proof.
  apply (commander_is_decided_by_the_first_marked_line Samples.loads_journal
           (Some [Samples.journal_with_commander])
           (Fs.content Samples.journal_with_commander)
           []
           [Samples.location_line +:+ Fs.LF; Samples.chat_line +:+ Fs.LF]
           (Samples.commander_line +:+ Fs.LF)).
  - reflexivity.
  - by vm_compute.
  - constructor.
  - by vm_compute.
Defined.

(** ** Cargo and credits *)

Lemma update_ship_status_succeeds (kwargs : list (string * value))
    (params : list (string * cell)) (db : Database) (r : gmap string cell) :
  ship_status db = Some r -> r !! "id" = Some (INTEGER 1) ->
  kwargs <> [] ->
  Forall (fun kv : string * value => kv.1 ∈ ship_status_columns) kwargs ->
  mapM (fun kv => c ← bind kv.2; Ok (kv.1, c)) kwargs = Ok params ->
  "id" ∉ kwargs.*1 ->
  update_ship_status kwargs db
  = (Ok tt,
     set_ship_status
       (Some (foldl assign r
                (params ++ [("last_updated",
                             TEXT (CURRENT_TIMESTAMP (env db)))])))
       db).
Proof.
  intros Hr Hid Hne Hcols Hparams Hk. unfold update_ship_status.
  rewrite Hr, (sql_update_succeeds _ _ _ r params); try done.
  simpl. decide_by_computation.
Qed.

Lemma count_cargo_totals (inventory : list value) (entries : list (string * Z))
    (cargo_count limpet_count : Z) :
  Forall2 Inventory.reads_as inventory entries ->
  ServiceGamelog.count_cargo (PyInt cargo_count) (PyInt limpet_count) inventory
  = Ok (PyInt (cargo_count + Inventory.cargo entries),
        PyInt (limpet_count + Inventory.limpets entries)).
Proof.
  intros Hread. revert cargo_count limpet_count.
  induction Hread as [|item entry inventory entries [Hname Hcount] _ IH];
    intros cargo_count limpet_count.
  - unfold Inventory.cargo, Inventory.limpets. simpl.
    by rewrite !Z.add_0_r.
  - cbn [ServiceGamelog.count_cargo]. rewrite Hname.
    cbn [mbind res_bind lower]. rewrite Hcount. cbn [mbind res_bind].
    change (is_substring "limpet" (lower_string entry.1))
      with (Inventory.is_limpet entry).
    unfold Inventory.cargo, Inventory.limpets in *. cbn [List.filter].
    destruct (Inventory.is_limpet entry);
      cbn [negb Inventory.total foldr add arith as_num mbind res_bind];
      rewrite IH; do 2 f_equal; try f_equal;
      unfold Inventory.total; cbn [foldr]; lia.
Qed.

(** Cargo (service_gamelog.py).  A Cargo event whose inventory entries are
    objects with a str Name and an int Count overwrites the cargo count
    with the sum of the counts of the entries whose lower-cased name does
    not hold [limpet], and the limpet count with the sum of the others; it
    stamps the row and leaves the cargo capacity, the credits and the rest
    of the store as they were. *)
Theorem cargo_event_sets_both_counts
    (data : value) (inventory : list value) (entries : list (string * Z))
    (db : Database) (status : gmap string cell) :
  get data "Inventory" (PyList []) = Ok (PyList inventory) ->
  Forall2 Inventory.reads_as inventory entries ->
  EdMiningScanner.fits_int64 (Inventory.cargo entries) ->
  EdMiningScanner.fits_int64 (Inventory.limpets entries) ->
  ship_status db = Some status ->
  status !! "id" = Some (INTEGER 1) ->
  ServiceGamelog._handle_Cargo data db
  = set_ship_status
      (Some (<["last_updated" := TEXT (CURRENT_TIMESTAMP (env db))]>
               (<["limpet_count" := INTEGER (Inventory.limpets entries)]>
                  (<["cargo_count" := INTEGER (Inventory.cargo entries)]>
                     status))))
      db.
Proof.
  intros Hinv Hread Hcargo Hlimpets Hstatus Hid.
  unfold ServiceGamelog._handle_Cargo, try_except.
  rewrite Hinv, bind_lift_Ok.
  change (iter (PyList inventory)) with (Ok inventory).
  rewrite bind_lift_Ok, (count_cargo_totals _ entries 0 0 Hread), bind_lift_Ok.
  rewrite !Z.add_0_l. cbn [fst snd].
  rewrite (update_ship_status_succeeds _
             [("cargo_count", INTEGER (Inventory.cargo entries));
              ("limpet_count", INTEGER (Inventory.limpets entries))]
             db status Hstatus Hid); try done.
  - repeat constructor; simpl; decide_by_computation.
  - cbn -[bind].
    by rewrite (bind_fitting_int _ Hcargo), (bind_fitting_int _ Hlimpets).
  - simpl. decide_by_computation.
Qed.

Lemma cargo_event_witness :
  column (ship_status (ServiceGamelog._handle_Cargo Samples.cargo_event
                         (fresh Samples.env0))) "cargo_count"
  = Some (INTEGER 32)
  /\ column (ship_status (ServiceGamelog._handle_Cargo Samples.cargo_event
                            (fresh Samples.env0))) "limpet_count"
     = Some (INTEGER 0).
Proof.
  rewrite (cargo_event_sets_both_counts Samples.cargo_event
             [PyDict [("Name", PyStr "platinum"); ("Count", PyInt 12);
                      ("Stolen", PyInt 0)];
              PyDict [("Name", PyStr "drones");
                      ("Name_Localised", PyStr "Limpet");
                      ("Count", PyInt 20); ("Stolen", PyInt 0)]]
             [("platinum", 12); ("drones", 20)]
             (fresh Samples.env0)
             (default ∅ (ship_status (fresh Samples.env0)))).
  - split; reflexivity.
  - reflexivity.
  - repeat constructor.
  - by vm_compute.
  - by vm_compute.
  - reflexivity.
  - reflexivity.
Defined.

Lemma credits_written (db : Database) (status : gmap string cell) (z : Z) :
  ship_status db = Some status -> status !! "id" = Some (INTEGER 1) ->
  EdMiningScanner.fits_int64 z ->
  update_ship_status [("commander_credits", PyInt z)] db
  = (Ok tt,
     set_ship_status
       (Some (<["last_updated" := TEXT (CURRENT_TIMESTAMP (env db))]>
                (<["commander_credits" := INTEGER z]> status))) db).
Proof.
  intros Hstatus Hid Hz.
  rewrite (update_ship_status_succeeds _ [("commander_credits", INTEGER z)]
             db status Hstatus Hid); try done.
  - repeat constructor; simpl; decide_by_computation.
  - cbn -[bind]. by rewrite (bind_fitting_int _ Hz).
  - simpl. decide_by_computation.
Qed.

(** Credits (service_gamelog.py).  On a store whose ship status holds an
    integer number of credits, a MarketSell adds its TotalSale, a MarketBuy
    subtracts its TotalCost and a SellExplorationData adds its BaseValue and
    Bonus, as long as the result fits 64 bits; each stamps the row and
    changes nothing else. *)
Theorem market_events_keep_the_ledger
    (data : value) (db : Database) (status : gmap string cell)
    (credits : Z) :
  ship_status db = Some status ->
  status !! "id" = Some (INTEGER 1) ->
  status !! "commander_credits" = Some (INTEGER credits) ->
  let booked (z : Z) :=
    set_ship_status
      (Some (<["last_updated" := TEXT (CURRENT_TIMESTAMP (env db))]>
               (<["commander_credits" := INTEGER z]> status))) db in
  (forall amount,
      get data "TotalSale" (PyInt 0) = Ok (PyInt amount) ->
      EdMiningScanner.fits_int64 (credits + amount) ->
      ServiceGamelog._handle_MarketSell data db = booked (credits + amount))
  /\ (forall amount,
         get data "TotalCost" (PyInt 0) = Ok (PyInt amount) ->
         EdMiningScanner.fits_int64 (credits - amount) ->
         ServiceGamelog._handle_MarketBuy data db = booked (credits - amount))
  /\ (forall base bonus,
         get data "BaseValue" (PyInt 0) = Ok (PyInt base) ->
         get data "Bonus" (PyInt 0) = Ok (PyInt bonus) ->
         EdMiningScanner.fits_int64 (credits + (base + bonus)) ->
         ServiceGamelog._handle_SellExplorationData data db
         = booked (credits + (base + bonus))).
Proof.
  intros Hstatus Hid Hcredits booked.
  assert (Hobject : forall k dflt v, get data k dflt = Ok v ->
                      forall k' dflt', exists v', get data k' dflt' = Ok v').
  { intros k dflt v Hget k' dflt'. destruct data; try discriminate.
    by eexists. }
  repeat split.
  - intros amount Hamount Hfits.
    destruct (Hobject _ _ _ Hamount "Type" (PyStr "Unknown")) as [item Hitem].
    destruct (Hobject _ _ _ Hamount "Count" (PyInt 0)) as [count Hcount].
    unfold ServiceGamelog._handle_MarketSell, try_except.
    rewrite Hamount, bind_lift_Ok, Hitem, bind_lift_Ok, Hcount, bind_lift_Ok.
    unfold mbind at 1, M_bind. unfold get_ship_status, read.
    rewrite Hstatus, (dict_of_row_get _ _ _ (INTEGER credits));
      [|decide_by_computation|done].
    rewrite bind_lift_Ok. cbn [to_python add arith as_num].
    rewrite bind_lift_Ok. by rewrite (credits_written db status _ Hstatus Hid).
  - intros amount Hamount Hfits.
    destruct (Hobject _ _ _ Hamount "Type" (PyStr "Unknown")) as [item Hitem].
    destruct (Hobject _ _ _ Hamount "Count" (PyInt 0)) as [count Hcount].
    unfold ServiceGamelog._handle_MarketBuy, try_except.
    rewrite Hamount, bind_lift_Ok, Hitem, bind_lift_Ok, Hcount, bind_lift_Ok.
    unfold mbind at 1, M_bind. unfold get_ship_status, read.
    rewrite Hstatus, (dict_of_row_get _ _ _ (INTEGER credits));
      [|decide_by_computation|done].
    rewrite bind_lift_Ok. cbn [to_python sub arith as_num].
    rewrite bind_lift_Ok. by rewrite (credits_written db status _ Hstatus Hid).
  - intros base bonus Hbase Hbonus Hfits.
    unfold ServiceGamelog._handle_SellExplorationData, try_except.
    rewrite Hbase, bind_lift_Ok, Hbonus, bind_lift_Ok.
    cbn [add arith as_num]. rewrite bind_lift_Ok.
    unfold mbind at 1, M_bind. unfold get_ship_status, read.
    rewrite Hstatus, (dict_of_row_get _ _ _ (INTEGER credits));
      [|decide_by_computation|done].
    rewrite bind_lift_Ok. cbn [to_python add arith as_num].
    rewrite bind_lift_Ok. by rewrite (credits_written db status _ Hstatus Hid).
Qed.

Lemma market_events_witness :
  column (ship_status (ServiceGamelog._handle_MarketSell
                         Samples.market_sell_event (fresh Samples.env0)))
         "commander_credits"
  = Some (INTEGER 1500000).
Proof.
  destruct (market_events_keep_the_ledger Samples.market_sell_event
              (fresh Samples.env0)
              (default ∅ (ship_status (fresh Samples.env0))) 0
              eq_refl eq_refl eq_refl) as [Hsell _].
  rewrite (Hsell 1500000 eq_refl ltac:(by vm_compute)).
  reflexivity.
Defined.

(** ** Opening the store again *)

Lemma create_tables_on_existing_rows (db : Database) :
  is_Some (game_state db) -> is_Some (ship_status db) ->
  is_Some (service_status db) ->
  _create_tables db = db.
Proof.
  intros [g Hg] [s Hs] [v Hv]. unfold _create_tables.
  rewrite Hg, Hs, Hv. destruct db; simpl in *. by subst.
Qed.

(** Restart (core_database.py, service_gamelog.py).  [_create_tables] is
    idempotent, as its docstring says, and more: on a store that was
    created by it and has since received any batch of journal lines,
    creating the tables again, at whatever later time, changes nothing.
    Opening the database never resets what the service has projected. *)
Theorem restart_keeps_the_store
    (json_loads : string -> option value) (lines : list string)
    (db : Database) (later : Env) :
  _create_tables (set_env later (_create_tables db))
  = set_env later (_create_tables db)
  /\ _create_tables
       (set_env later
          (ServiceGamelog.process_lines json_loads lines (_create_tables db)))
     = set_env later
         (ServiceGamelog.process_lines json_loads lines (_create_tables db)).
Proof.
  split.
  - apply create_tables_on_existing_rows; simpl; by eexists.
  - destruct (process_lines_step json_loads lines (_create_tables db))
      as [(_ & Hservice & Hgame & Hship & _) _].
    apply create_tables_on_existing_rows; simpl.
    + apply Hgame. simpl. by eexists.
    + apply Hship. simpl. by eexists.
    + rewrite Hservice. simpl. by eexists.
Qed.

(** ** Fleet carriers *)

(** Carriers stay unique (service_gamelog.py, core_database.py).  If no
    fleet carrier row carries the name of a row inserted before it, this
    still holds after any batch of journal lines: a carrier that is
    discovered again replaces its row instead of adding a second one.  In
    particular two rows never hold the same text as their name. *)
Theorem fleet_carriers_stay_unique
    (json_loads : string -> option value) (lines : list string)
    (db : Database) :
  distinct_carriers db ->
  distinct_carriers (ServiceGamelog.process_lines json_loads lines db)
  /\ forall (i j : nat) (r r' : Carrier.row) (name : string),
       (i < j)%nat ->
       fleet_carriers (ServiceGamelog.process_lines json_loads lines db) !! i
       = Some r ->
       fleet_carriers (ServiceGamelog.process_lines json_loads lines db) !! j
       = Some r' ->
       Carrier.signal_name r = TEXT name ->
       Carrier.signal_name r' <> TEXT name.
Proof.
  intros Hdb.
  destruct (process_lines_step json_loads lines db) as (_ & _ & Hdistinct).
  specialize (Hdistinct Hdb). split; [exact Hdistinct|].
  intros i j r r' name Hij Hi Hj Hr Hr'.
  unfold distinct_carriers in Hdistinct.
  set (rows := fleet_carriers _) in *.
  rewrite <- (take_drop_middle rows i r Hi) in Hdistinct, Hj.
  apply StronglySorted_app in Hdistinct as (_ & _ & Hdistinct).
  apply StronglySorted_cons in Hdistinct as [Hlater _].
  rewrite Forall_forall in Hlater.
  assert (Hin : r' ∈ drop (S i) rows).
  { assert (Hlen : length (take i rows) = i).
    { apply length_take_le. apply lookup_lt_Some in Hi. lia. }
    rewrite lookup_app_r in Hj by lia. rewrite Hlen in Hj.
    destruct (j - i)%nat as [|k] eqn:Hk; [lia|].
    simpl in Hj. by eapply list_elem_of_lookup_2. }
  specialize (Hlater r' Hin). rewrite Hr, Hr' in Hlater. simpl in Hlater.
  by rewrite String.eqb_refl in Hlater.
Qed.

Lemma fleet_carriers_witness :
  distinct_carriers
    (ServiceGamelog.process_lines Samples.loads_carrier ["1"; "2"]
       (fresh Samples.env0))
  /\ Carrier.id
     <$> fleet_carriers
           (ServiceGamelog.process_lines Samples.loads_carrier ["1"; "2"]
              (fresh Samples.env0)) = [2].
Proof.
  split; [|reflexivity].
  apply (fleet_carriers_stay_unique Samples.loads_carrier ["1"; "2"]
           (fresh Samples.env0)).
  constructor.
Defined.

(** ** Refined materials *)

(** The refined counter (service_gamelog.py, core_database.py,
    ed_mining_scanner.py).  A MiningRefined event whose Type is a str and
    whose timestamp can be stored adds one to the count the scanner shows
    and to the count of its own material (the Type without [_Name]), and
    leaves the count of every other material as it was; after
    [clear_refined_materials] the scanner shows 0. *)
Theorem refined_materials_are_counted
    (data ts : value) (type : string) (c_ts : cell) (db : Database) :
  get data "Type" (PyStr "Unknown") = Ok (PyStr type) ->
  get data "timestamp" (PyStr (utcnow_isoformat (env db))) = Ok ts ->
  bind ts = Ok c_ts ->
  let material :=
    if is_substring "_Name" type then replace "_Name" EmptyString type
    else type in
  let db' := ServiceGamelog._handle_MiningRefined data db in
  EdMiningScanner.get_refined_materials_count (Open db')
  = EdMiningScanner.get_refined_materials_count (Open db) + 1
  /\ (forall name n,
        name <> EmptyString ->
        (get_refined_materials_count (Some name) db).1 = Ok n ->
        (get_refined_materials_count (Some name) db').1
        = Ok (if String.eqb material name then n + 1 else n))
  /\ EdMiningScanner.get_refined_materials_count
       (EdMiningScanner.clear_refined_materials (Open db')) = 0.
Proof.
  intros Htype Hts Hbind material db'.
  assert (Hdb' : refined_materials db'
                 = (refined_materials db
                    ++ [{| Refined.id := next_id "refined_materials" db;
                           Refined.timestamp := CURRENT_TIMESTAMP (env db);
                           Refined.journal_timestamp := c_ts;
                           Refined.material_name := TEXT material;
                           Refined.material_type := TEXT "mining" |}])%list).
  { unfold db', ServiceGamelog._handle_MiningRefined, try_except.
    rewrite Htype, bind_lift_Ok. cbn [contains]. rewrite bind_lift_Ok.
    unfold material.
    destruct (is_substring "_Name" type); cbn [str_replace];
      rewrite bind_lift_Ok;
      unfold mbind at 1, M_bind, read; rewrite Hts, bind_lift_Ok, Hbind,
        bind_lift_Ok; cbn [bind]; by rewrite bind_lift_Ok. }
  split; [|split; [|reflexivity]].
  - unfold EdMiningScanner.get_refined_materials_count, query,
      get_refined_materials_count, read. cbn [fst].
    rewrite Hdb', length_app. simpl. lia.
  - intros name n Hname. destruct name as [|c s]; [done|].
    unfold get_refined_materials_count, read. cbn [fst].
    intros [= <-]. rewrite Hdb', List.filter_app, length_app.
    cbn [List.filter Refined.material_name cell_eqb].
    destruct (String.eqb material (String c s)); simpl; f_equal; lia.
Qed.

Lemma refined_materials_witness :
  EdMiningScanner.get_refined_materials_count
    (Open (ServiceGamelog._handle_MiningRefined Samples.refined_event
             (fresh Samples.env0))) = 1.
Proof.
  by destruct (refined_materials_are_counted Samples.refined_event
                 (PyStr "2025-11-29T12:30:00Z") "$platinum_name;"
                 (TEXT "2025-11-29T12:30:00Z") (fresh Samples.env0)
                 eq_refl eq_refl eq_refl) as [-> _].
Defined.

(** ** Events nobody handles *)

(** Unhandled events (service_gamelog.py, ed_log_reader.py).  A line that
    decodes to something other than an object, or to an object whose event
    is not a str or is none of the events that are projected, leaves the
    store exactly as it was, in both dispatchers; Docked and Materials have
    a handler in service_gamelog.py, which only logs. *)
Theorem unhandled_events_change_nothing
    (json_loads : string -> option value) (line : string) (data : value)
    (db : Database) :
  json_loads line = Some data ->
  ((forall name, get data "event" (PyStr EmptyString) = Ok (PyStr name) ->
                 name ∉ ServiceGamelog.projected_events) ->
   ServiceGamelog.process_line json_loads line db = db)
  /\ ((forall name, get data "event" (PyStr EmptyString) = Ok (PyStr name) ->
                    name ∉ EdLogReader.projected_events) ->
      EdLogReader._process_journal_line json_loads line db = db).
Proof.
  intros Hdata. split; intros Hevent.
  - unfold ServiceGamelog.process_line. rewrite Hdata.
    destruct (get data "event" (PyStr EmptyString)) as [event|] eqn:Hget;
      [|reflexivity].
    destruct event as [| | | |name| |]; try reflexivity.
    specialize (Hevent name eq_refl).
    unfold ServiceGamelog.projected_events in Hevent.
    rewrite !not_elem_of_cons in Hevent.
    destruct Hevent as (?&?&?&?&?&?&?&?&?&?&?&?&_).
    unfold ServiceGamelog.getattr_handle, ServiceGamelog.handlers.
    cbn [List.find fst snd].
    repeat match goal with
           | H : name <> ?s |- context [String.eqb ?s name] =>
               rewrite (proj2 (String.eqb_neq s name)) by congruence
           end.
    destruct data as [| | | | | |d]; try discriminate Hget.
    destruct (String.eqb "Docked" name); [reflexivity|].
    destruct (String.eqb "Materials" name); reflexivity.
  - unfold EdLogReader._process_journal_line. rewrite Hdata.
    unfold try_except.
    destruct (get data "event" (PyStr EmptyString)) as [event|] eqn:Hget;
      [|reflexivity].
    rewrite bind_lift_Ok.
    destruct event as [| | | |name| |]; try reflexivity.
    specialize (Hevent name eq_refl).
    unfold EdLogReader.projected_events in Hevent.
    rewrite !not_elem_of_cons in Hevent.
    destruct Hevent as (?&?&?&?&?&?&?&_).
    unfold EdLogReader.is_event.
    repeat match goal with
           | H : name <> ?s |- context [String.eqb name ?s] =>
               rewrite (proj2 (String.eqb_neq name s)) by congruence
           end.
    reflexivity.
Qed.

Lemma unhandled_events_witness :
  ServiceGamelog.process_line Samples.loads_music "1" Samples.db_two_scans
  = Samples.db_two_scans
  /\ EdLogReader._process_journal_line Samples.loads_music "1"
       Samples.db_two_scans
     = Samples.db_two_scans.
Proof.
  destruct (unhandled_events_change_nothing Samples.loads_music "1"
              Samples.music_event Samples.db_two_scans eq_refl)
    as [Hgamelog Hreader].
  split.
  - apply Hgamelog. intros name [= <-]. decide_by_computation.
  - apply Hreader. intros name [= <-]. decide_by_computation.
Defined.

(** ** From the journal to the scanner's labels *)

Lemma update_game_state_succeeds (kwargs : list (string * value))
    (params : list (string * cell)) (db : Database) (r : gmap string cell) :
  game_state db = Some r -> r !! "id" = Some (INTEGER 1) ->
  kwargs <> [] ->
  Forall (fun kv : string * value => kv.1 ∈ game_state_columns) kwargs ->
  mapM (fun kv => c ← bind kv.2; Ok (kv.1, c)) kwargs = Ok params ->
  "id" ∉ kwargs.*1 ->
  update_game_state kwargs db
  = (Ok tt,
     set_game_state
       (Some (foldl assign r
                (params ++ [("last_updated",
                             TEXT (CURRENT_TIMESTAMP (env db)))])))
       db).
Proof.
  intros Hr Hid Hne Hcols Hparams Hk. unfold update_game_state.
  rewrite Hr, (sql_update_succeeds _ _ _ r params); try done.
  simpl. decide_by_computation.
Qed.

Lemma system_written (db : Database) (game : gmap string cell) (s : string) :
  game_state db = Some game -> game !! "id" = Some (INTEGER 1) ->
  update_game_state [("current_system", PyStr s)] db
  = (Ok tt,
     set_game_state
       (Some (<["last_updated" := TEXT (CURRENT_TIMESTAMP (env db))]>
                (<["current_system" := TEXT s]> game))) db).
Proof.
  intros Hgame Hid.
  rewrite (update_game_state_succeeds _ [("current_system", TEXT s)]
             db game Hgame Hid); try done.
  - repeat constructor; simpl; decide_by_computation.
  - simpl. decide_by_computation.
Qed.

Lemma scanner_shows_system (db : Database) (game : gmap string cell)
    (s : string) :
  get (EdMiningScanner.get_game_state
         (Open (set_game_state
                  (Some (<["last_updated" :=
                             TEXT (CURRENT_TIMESTAMP (env db))]>
                           (<["current_system" := TEXT s]> game))) db)))
      "current_system" PyNone = Ok (PyStr s)
  /\ get (EdMiningScanner.get_game_state
            (Open (set_game_state
                     (Some (<["last_updated" :=
                                TEXT (CURRENT_TIMESTAMP (env db))]>
                              (<["current_system" := TEXT s]> game))) db)))
         "commander_name" PyNone
     = Ok (to_python (default NULL (game !! "commander_name"))).
Proof.
  unfold EdMiningScanner.get_game_state, query, read. simpl.
  rewrite (lookup_insert_ne _ "last_updated" "current_system") by done.
  rewrite lookup_insert_eq.
  by rewrite !(lookup_insert_ne _ _ "commander_name") by done.
Qed.

(** Location (service_gamelog.py, ed_log_reader.py, ed_mining_scanner.py).
    A journal line that decodes to a Location or FSDJump event naming a
    system makes the scanner show that system, whichever of the two
    services projects the line (ed_log_reader.py only if the name is not
    empty), and leaves the commander the scanner shows as it was. *)
Theorem location_reaches_the_scanner
    (json_loads : string -> option value) (line name system : string)
    (data : list (string * value)) (db : Database)
    (game : gmap string cell) :
  json_loads line = Some (PyDict data) ->
  assoc "event" data = Some (PyStr name) ->
  name = "Location" \/ name = "FSDJump" ->
  assoc "StarSystem" data = Some (PyStr system) ->
  game_state db = Some game ->
  game !! "id" = Some (INTEGER 1) ->
  let shown (db' : Database) :=
    get (EdMiningScanner.get_game_state (Open db')) "current_system" PyNone
    = Ok (PyStr system)
    /\ get (EdMiningScanner.get_game_state (Open db')) "commander_name" PyNone
       = Ok (to_python (default NULL (game !! "commander_name"))) in
  shown (ServiceGamelog.process_line json_loads line db)
  /\ (system <> EmptyString ->
      shown (EdLogReader._process_journal_line json_loads line db)).
Proof.
  intros Hdata Hevent Hname Hsystem Hgame Hid shown.
  split.
  - unfold ServiceGamelog.process_line. rewrite Hdata. cbn [get].
    rewrite Hevent. cbn [default id].
    assert (Hrun : forall h,
               h = ServiceGamelog._handle_Location
               \/ h = ServiceGamelog._handle_FSDJump ->
               h (PyDict data) db
               = set_game_state
                   (Some (<["last_updated" :=
                              TEXT (CURRENT_TIMESTAMP (env db))]>
                            (<["current_system" := TEXT system]> game))) db).
    { intros h [-> | ->];
        unfold ServiceGamelog._handle_Location, ServiceGamelog._handle_FSDJump,
          try_except; cbn [get]; rewrite Hsystem; cbn [default id];
        by rewrite bind_lift_Ok, (system_written db game system Hgame Hid). }
    destruct Hname as [-> | ->]; cbn; rewrite Hrun by auto;
      apply scanner_shows_system.
  - intros Hne. unfold EdLogReader._process_journal_line. rewrite Hdata.
    unfold try_except. cbn [get]. rewrite Hevent. cbn [default id].
    rewrite bind_lift_Ok.
    assert (Hbranch : EdLogReader.is_event (PyStr name) "ProspectedAsteroid"
                      = false
                      /\ EdLogReader.is_event (PyStr name) "MiningRefined"
                         = false
                      /\ EdLogReader.is_event (PyStr name) "Location"
                         || EdLogReader.is_event (PyStr name) "FSDJump"
                         || EdLogReader.is_event (PyStr name) "CarrierJump"
                         = true).
    { by destruct Hname as [-> | ->]. }
    destruct Hbranch as (-> & -> & ->). rewrite Hsystem. cbn [default id].
    rewrite bind_lift_Ok.
    unfold EdLogReader.update_game_state, EdLogReader.except_sqlite_error.
    assert (Htruthy : truthy (PyStr system) = true).
    { simpl. by destruct (String.eqb_spec system EmptyString). }
    rewrite Htruthy. cbn [truthy app]. rewrite Hgame.
    pose proof (sql_update_succeeds game_state_columns
                  [("current_system", PyStr system)]
                  [("last_updated", TEXT (CURRENT_TIMESTAMP (env db)))]
                  game [("current_system", TEXT system)]) as Hrun.
    rewrite Hrun; try done.
    + apply scanner_shows_system.
    + repeat constructor; simpl; decide_by_computation.
    + simpl. decide_by_computation.
    + simpl. decide_by_computation.
Qed.

Lemma location_witness :
  get (EdMiningScanner.get_game_state
         (Open (ServiceGamelog.process_line Samples.loads_with_number
                  Samples.location_line (fresh Samples.env0))))
      "current_system" PyNone
  = Ok (PyStr "Sol")
  /\ get (EdMiningScanner.get_game_state
            (Open (EdLogReader._process_journal_line Samples.loads_with_number
                     Samples.location_line (fresh Samples.env0))))
         "current_system" PyNone
     = Ok (PyStr "Sol").
Proof.
  destruct (location_reaches_the_scanner Samples.loads_with_number
              Samples.location_line "Location" "Sol"
              [("timestamp", PyStr "2025-11-29T11:40:02Z");
               ("event", PyStr "Location");
               ("StarSystem", PyStr "Sol")]
              (fresh Samples.env0)
              (default ∅ (game_state (fresh Samples.env0)))
              eq_refl eq_refl (or_introl eq_refl) eq_refl eq_refl eq_refl)
    as [[Hgamelog _] Hreader].
  split; [exact Hgamelog|].
  by destruct Hreader as [Hreader _].
Defined.

(** ** The running flag of the log reader *)

(** The service status row says that the service runs. *)
Lemma ed_status_alive (pid : Z) (journal_file : value) (db : Database) :
  is_Some (service_status db) ->
  EdMiningScanner.fits_int64 pid ->
  (exists c, bind journal_file = Ok c) ->
  exists r,
    EdLogReader.update_service_status (PyBool true) (PyInt pid) journal_file db
    = (Ok tt, set_service_status (Some r) db)
    /\ r !! "is_running" = Some (INTEGER 1).
Proof.
  intros [r Hr] Hpid [c Hc].
  unfold EdLogReader.update_service_status, EdLogReader.except_sqlite_error.
  rewrite (bind_fitting_int _ Hpid), bind_lift_Ok, Hc, bind_lift_Ok.
  unfold write. rewrite Hr. cbn [fmap option_fmap option_map truthy].
  eexists. split; [reflexivity|].
  rewrite !lookup_insert_ne by done. by rewrite lookup_insert_eq.
Qed.

Lemma ed_heartbeat_flags (pid : Z) (journal_file : value) (db : Database) :
  is_Some (service_status db) ->
  EdMiningScanner.fits_int64 pid ->
  (exists c, bind journal_file = Ok c) ->
  exists db',
    EdLogReader.update_service_status (PyBool true) (PyInt pid) journal_file db
    = (Ok tt, db')
    /\ env db' = env db /\ flagged_running db'.
Proof.
  intros Hrow Hpid Hfile.
  destruct (ed_status_alive pid journal_file db Hrow Hpid Hfile)
    as (r & -> & Hr).
  eexists. split; [reflexivity|]. split; [reflexivity|]. by exists r.
Qed.

Lemma flagged_running_row (db : Database) :
  flagged_running db -> is_Some (service_status db).
Proof. intros (r & -> & _). by eexists. Qed.

Lemma ed_find_latest_journal_flags d r (db : Database) :
  flagged_running db -> EdMiningScanner.fits_int64 (getpid (env db)) ->
  env (EdLogReader._find_latest_journal d r db).2 = env db
  /\ flagged_running (EdLogReader._find_latest_journal d r db).2.
Proof.
  intros Hflag Hpid. unfold EdLogReader._find_latest_journal.
  destruct (EdLogReader.latest_journal d) as [first|e]; [|by split].
  rewrite bind_lift_Ok. unfold mbind at 1, M_bind, read.
  destruct (ed_heartbeat_flags (getpid (env db)) (PyStr first) db)
    as (db' & Hrun & Henv & Hflag'); [by apply flagged_running_row|done| |].
  { by eexists. }
  unfold mbind, M_bind. by rewrite Hrun.
Qed.

Lemma ed_get_latest_line_flags d r (db : Database) :
  flagged_running db -> EdMiningScanner.fits_int64 (getpid (env db)) ->
  env (EdLogReader.get_latest_line d r db).2 = env db
  /\ flagged_running (EdLogReader.get_latest_line d r db).2.
Proof.
  intros Hflag Hpid.
  unfold EdLogReader.get_latest_line, EdLogReader.get_latest_line_body.
  set (opened := match EdLogReader.file_handle r with
                 | Some h => _
                 | None => _
                 end).
  destruct opened as [[r1 h]|e]; [|by split].
  destruct (EdLogReader.readline d h) as [line|e]; [|by split].
  destruct (negb _); [by split|].
  destruct (EdLogReader.getsize d _) as [current_size|e]; [|by split].
  destruct (_ <? _)%nat; [|by split].
  set (r2 := {| EdLogReader.current_file := _ |}).
  pose proof (ed_find_latest_journal_flags d r2 db Hflag Hpid) as [Henv Hflag'].
  destruct (EdLogReader._find_latest_journal d r2 db) as [[r3|e] db'];
    simpl in *; [|by split].
  destruct (EdLogReader.open_at_end d _); by split.
Qed.

Lemma ed_main_loop_iteration_flags json_loads d r (db : Database) :
  is_Some (service_status db) ->
  EdMiningScanner.fits_int64 (getpid (env db)) ->
  env (EdLogReader.main_loop_iteration json_loads d (r, db)).2 = env db
  /\ flagged_running (EdLogReader.main_loop_iteration json_loads d (r, db)).2.
Proof.
  intros Hrow Hpid. unfold EdLogReader.main_loop_iteration.
  destruct (ed_heartbeat_flags (getpid (env db))
              (match EdLogReader.current_file r with
               | Some p => PyStr p
               | None => PyNone
               end) db Hrow Hpid) as (db1 & -> & Henv1 & Hflag1).
  { destruct (EdLogReader.current_file r); by eexists. }
  rewrite <- Henv1 in Hpid |- *.
  pose proof (ed_get_latest_line_flags d r db1 Hflag1 Hpid) as [Henv2 Hflag2].
  destruct (EdLogReader.get_latest_line d r db1) as [[r' [line|]] db2];
    simpl in *; [|by split].
  destruct (negb _); [|by split]. simpl.
  destruct (ed_process_journal_line_step json_loads line db2)
    as ((Henv3 & Hstatus & _) & _).
  split; [congruence|].
  destruct Hflag2 as (row & Hrow2 & Hrun). exists row.
  by rewrite Hstatus.
Qed.

Lemma ed_main_loop_cons json_loads d (ds : list Fs.directory) s :
  EdLogReader._main_loop json_loads (d :: ds) s
  = EdLogReader._main_loop json_loads ds
      (EdLogReader.main_loop_iteration json_loads d s).
Proof. reflexivity. Qed.

Lemma ed_main_loop_flags json_loads (ds : list Fs.directory) r (db : Database) :
  flagged_running db ->
  EdMiningScanner.fits_int64 (getpid (env db)) ->
  env (EdLogReader._main_loop json_loads ds (r, db)).2 = env db
  /\ flagged_running (EdLogReader._main_loop json_loads ds (r, db)).2.
Proof.
  revert r db. induction ds as [|d ds IH]; intros r db Hflag Hpid; [by split|].
  rewrite ed_main_loop_cons.
  pose proof (ed_main_loop_iteration_flags json_loads d r db
                (flagged_running_row _ Hflag) Hpid) as [Henv1 Hflag1].
  destruct (EdLogReader.main_loop_iteration json_loads d (r, db))
    as [r1 db1] eqn:E. cbn [snd] in Henv1, Hflag1.
  assert (Hpid1 : EdMiningScanner.fits_int64 (getpid (env db1)))
    by by rewrite Henv1.
  destruct (IH r1 db1 Hflag1 Hpid1) as [Henv2 Hflag2].
  split; [congruence|done].
Qed.

(** Seen running (ed_log_reader.py, ed_mining_scanner.py, start.py).  Over
    a store that has its service status row, after one or more turns of the
    log reader's main loop, whatever the journal directory holds and
    whatever the lines decode to, the launcher and the scanner both read
    the service as running; after the write of [stop] both read it as not
    running, and the scanner reads no process id and no journal. *)
Theorem log_reader_is_seen_running_while_it_loops
    (json_loads : string -> option value) (d : Fs.directory)
    (ds : list Fs.directory) (r : EdLogReader.JournalReader)
    (db : Database) :
  is_Some (service_status db) ->
  EdMiningScanner.fits_int64 (getpid (env db)) ->
  let db' := (EdLogReader._main_loop json_loads (d :: ds) (r, db)).2 in
  Launcher.is_running (Ok (Open db')) = true
  /\ get (EdMiningScanner.get_service_status (Open db')) "is_running" PyNone
     = Ok (PyBool true)
  /\ Launcher.is_running (Ok (Open (EdLogReader.stop db'))) = false
  /\ EdMiningScanner.get_service_status (Open (EdLogReader.stop db'))
     = PyDict [("is_running", PyBool false); ("pid", PyNone);
               ("last_heartbeat", PyStr (CURRENT_TIMESTAMP (env db)));
               ("journal_file", PyNone)].
Proof.
  intros Hrow Hpid db'.
  assert (Hafter : env db' = env db /\ flagged_running db').
  { unfold db'. rewrite ed_main_loop_cons.
    pose proof (ed_main_loop_iteration_flags json_loads d r db Hrow Hpid)
      as [Henv1 Hflag1].
    destruct (EdLogReader.main_loop_iteration json_loads d (r, db))
      as [r1 db1] eqn:E. cbn [snd] in Henv1, Hflag1.
    assert (Hpid1 : EdMiningScanner.fits_int64 (getpid (env db1)))
      by by rewrite Henv1.
    destruct (ed_main_loop_flags json_loads ds r1 db1 Hflag1 Hpid1)
      as [Henv2 Hflag2].
    split; [congruence|done]. }
  destruct Hafter as [Henv (row & Hstatus & Hrun)].
  destruct (ed_status_round_trip (PyBool false) PyNone PyNone NULL NULL db')
    as [Hscanner Hlauncher]; [by eexists|done|done|].
  repeat split.
  - apply (launcher_reads_flag db' 1). unfold column. by rewrite Hstatus.
  - unfold EdMiningScanner.get_service_status, query, read. cbn [fst].
    rewrite Hstatus. cbn [get assoc String.eqb Ascii.eqb Bool.eqb default id].
    by rewrite Hrun.
  - exact Hlauncher.
  - unfold EdLogReader.stop. rewrite Hscanner. by rewrite Henv.
Qed.

Lemma log_reader_running_witness :
  Launcher.is_running
    (Ok (Open (EdLogReader._main_loop Samples.loads_with_number
                 [Some [Samples.journal_one_line];
                  Some [Samples.journal_two_lines]]
                 (Samples.reader_at_start, EdLogReader.fresh Samples.env0)).2))
  = true.
Proof.
  destruct (log_reader_is_seen_running_while_it_loops
              Samples.loads_with_number (Some [Samples.journal_one_line])
              [Some [Samples.journal_two_lines]] Samples.reader_at_start
              (EdLogReader.fresh Samples.env0)) as [Hrunning _].
  - by eexists.
  - by vm_compute.
  - exact Hrunning.
Defined.

(** ** LoadGame *)

Lemma sql_update_unbindable columns (k : string) (v : value) tail row :
  (forall c, bind v <> Ok c) ->
  exists e, sql_update columns [(k, v)] tail row = Raise e.
Proof.
  intros Hv. unfold sql_update.
  destruct (forallb _ _); [|by eexists].
  cbn [mapM list_fmap mbind res_bind fst snd].
  destruct (bind v) as [c|e] eqn:E; [by destruct (Hv c)|]. by eexists.
Qed.

(** LoadGame writes the commander, then the credits (service_gamelog.py).
    On a store that has its game state and ship status rows, a LoadGame
    event stores its commander and then its credits, each as SQLite binds
    it.  The two writes are separate statements: if the credits cannot be
    bound (an integer beyond 64 bits, a list), the commander is stored and
    the ship status keeps every column; if the commander cannot be bound,
    nothing at all is written. *)
Theorem load_game_writes_commander_then_credits
    (data commander credits : value) (db : Database)
    (game ship : gmap string cell) :
  get data "Commander" (PyStr "Unknown") = Ok commander ->
  get data "Credits" (PyInt 0) = Ok credits ->
  game_state db = Some game -> game !! "id" = Some (INTEGER 1) ->
  ship_status db = Some ship -> ship !! "id" = Some (INTEGER 1) ->
  (forall c_name,
      bind commander = Ok c_name ->
      column (game_state (ServiceGamelog._handle_LoadGame data db))
             "commander_name" = Some c_name
      /\ (forall c_credits,
            bind credits = Ok c_credits ->
            column (ship_status (ServiceGamelog._handle_LoadGame data db))
                   "commander_credits" = Some c_credits)
      /\ ((forall c, bind credits <> Ok c) ->
          ship_status (ServiceGamelog._handle_LoadGame data db)
          = ship_status db))
  /\ ((forall c, bind commander <> Ok c) ->
      ServiceGamelog._handle_LoadGame data db = db).
Proof.
  intros Hcommander Hcredits Hgame Hgid Hship Hsid.
  assert (Hobject : exists v, get data "Ship" (PyStr "Unknown") = Ok v).
  { destruct data; try discriminate. by eexists. }
  destruct Hobject as [ship_name Hname].
  unfold ServiceGamelog._handle_LoadGame, try_except.
  rewrite Hcommander, bind_lift_Ok, Hname, bind_lift_Ok, Hcredits,
    bind_lift_Ok.
  unfold mbind, M_bind.
  split.
  - intros c_name Hc.
    rewrite (update_game_state_succeeds _ [("commander_name", c_name)]
               db game Hgame Hgid); try done.
    2: { repeat constructor; simpl; decide_by_computation. }
    2: { cbn -[bind]. by rewrite Hc. }
    2: { simpl. decide_by_computation. }
    set (db1 := set_game_state _ db).
    assert (Hname1 : column (game_state db1) "commander_name" = Some c_name).
    { subst db1. simpl. unfold assign. simpl.
      rewrite lookup_insert_ne by done. by rewrite lookup_insert_eq. }
    split; [|split].
    + destruct (update_ship_status _ db1) as [outcome db2] eqn:E.
      unfold update_ship_status in E.
      destruct (sql_update _ _ _ _); injection E as <- <-; exact Hname1.
    + intros c_credits Hcc.
      rewrite (update_ship_status_succeeds _ [("commander_credits", c_credits)]
                 db1 ship Hship Hsid); try done.
      * simpl. unfold assign. simpl.
        rewrite lookup_insert_ne by done. by rewrite lookup_insert_eq.
      * repeat constructor; simpl; decide_by_computation.
      * cbn -[bind]. by rewrite Hcc.
      * simpl. decide_by_computation.
    + intros Hno. unfold update_ship_status.
      destruct (sql_update_unbindable ship_status_columns "commander_credits"
                  credits
                  [("last_updated", TEXT (CURRENT_TIMESTAMP (env db1)))]
                  (ship_status db1) Hno) as [e ->].
      reflexivity.
  - intros Hno. unfold update_game_state.
    destruct (sql_update_unbindable game_state_columns "commander_name"
                commander
                [("last_updated", TEXT (CURRENT_TIMESTAMP (env db)))]
                (game_state db) Hno) as [e ->].
    reflexivity.
Qed.

Lemma load_game_witness :
  column (game_state (ServiceGamelog._handle_LoadGame Samples.load_game_event
                        (fresh Samples.env0))) "commander_name"
  = Some (TEXT "Jameson")
  /\ ship_status (ServiceGamelog._handle_LoadGame Samples.load_game_event
                    (fresh Samples.env0))
     = ship_status (fresh Samples.env0).
Proof.
  destruct (load_game_writes_commander_then_credits Samples.load_game_event
              (PyStr "Jameson") (PyInt 18446744073709551616)
              (fresh Samples.env0)
              (default ∅ (game_state (fresh Samples.env0)))
              (default ∅ (ship_status (fresh Samples.env0)))
              eq_refl eq_refl eq_refl eq_refl eq_refl eq_refl)
    as [Hstored _].
  destruct (Hstored (TEXT "Jameson") eq_refl) as (Hname & _ & Hship).
  split; [exact Hname|]. apply Hship. intros c. discriminate.
Defined.

(** ** The heartbeat *)

Lemma run_iteration_beat json_loads d svc (db : Database)
    (row : gmap string cell) :
  service_status db = Some row -> row !! "id" = Some (INTEGER 1) ->
  let s' := ServiceGamelog.run_iteration json_loads d (svc, db) in
  env s'.2 = env db
  /\ (ServiceGamelog.heartbeat_counter svc + 1 < 10 ->
      service_status s'.2 = Some row
      /\ ServiceGamelog.heartbeat_counter s'.1
         = ServiceGamelog.heartbeat_counter svc + 1)
  /\ (10 <= ServiceGamelog.heartbeat_counter svc + 1 ->
      service_status s'.2
      = Some (<["last_heartbeat" := TEXT (utcnow_isoformat (env db))]> row)
      /\ ServiceGamelog.heartbeat_counter s'.1 = 0).
Proof.
  intros Hrow Hid s'. unfold s', ServiceGamelog.run_iteration.
  destruct (ServiceGamelog.read_new_lines d _) as [m lines].
  destruct (process_lines_step json_loads lines db)
    as [(Henv & Hstatus & _) _].
  set (db1 := ServiceGamelog.process_lines json_loads lines db) in *.
  rewrite Hrow in Hstatus.
  destruct (Z.leb_spec 10 (ServiceGamelog.heartbeat_counter svc + 1)).
  - rewrite (update_service_status_succeeds _
               [("last_heartbeat", TEXT (utcnow_isoformat (env db1)))]
               db1 row Hstatus Hid); try done.
    + cbn [fst snd env service_status set_service_status
           ServiceGamelog.heartbeat_counter].
      split; [exact Henv|]. split; [lia|]. intros _. by rewrite Henv.
    + repeat constructor; simpl; decide_by_computation.
    + simpl. decide_by_computation.
  - cbn [fst snd ServiceGamelog.heartbeat_counter].
    split; [exact Henv|]. split; [done|lia].
Qed.

Lemma run_loop_quiet json_loads (ds : list Fs.directory) svc (db : Database)
    (row : gmap string cell) :
  ServiceGamelog.running svc = true ->
  service_status db = Some row -> row !! "id" = Some (INTEGER 1) ->
  ServiceGamelog.heartbeat_counter svc + Z.of_nat (length ds) < 10 ->
  let s' := ServiceGamelog._run_loop json_loads ds (svc, db) in
  env s'.2 = env db
  /\ service_status s'.2 = Some row
  /\ ServiceGamelog.running s'.1 = true
  /\ ServiceGamelog.heartbeat_counter s'.1
     = ServiceGamelog.heartbeat_counter svc + Z.of_nat (length ds).
Proof.
  revert svc db. induction ds as [|d ds IH]; intros svc db Hrun Hrow Hid Hlt.
  - simpl. repeat split; try done. lia.
  - cbn [ServiceGamelog._run_loop fst]. rewrite Hrun.
    pose proof (run_iteration_beat json_loads d svc db row Hrow Hid)
      as (Henv & Hquiet & _).
    pose proof (run_iteration_keeps_running json_loads d svc db) as Hrun1.
    destruct (ServiceGamelog.run_iteration json_loads d (svc, db))
      as [svc1 db1]. cbn [fst snd] in *.
    destruct Hquiet as [Hrow1 Hcount1]; [simpl in Hlt; lia|].
    destruct (IH svc1 db1) as (Henv2 & Hrow2 & Hrun2 & Hcount2);
      [congruence|done|done|simpl in Hlt; lia|].
    repeat split; try done; [congruence|].
    rewrite Hcount2, Hcount1. simpl length. lia.
Qed.

Lemma run_loop_app json_loads (ds1 ds2 : list Fs.directory) s :
  ServiceGamelog.running
    (ServiceGamelog._run_loop json_loads ds1 s).1 = true ->
  ServiceGamelog._run_loop json_loads (ds1 ++ ds2) s
  = ServiceGamelog._run_loop json_loads ds2
      (ServiceGamelog._run_loop json_loads ds1 s).
Proof.
  revert s. induction ds1 as [|d ds1 IH]; intros s Hrun; [reflexivity|].
  cbn [app ServiceGamelog._run_loop] in *.
  destruct (ServiceGamelog.running s.1) eqn:E; [by apply IH|].
  by rewrite Hrun in E.
Qed.

(** The heartbeat (service_gamelog.py).  A running service whose loop has
    just started, over a store that has its service status row, leaves that
    row untouched for nine turns, whatever it reads and projects, and writes
    the heartbeat on the tenth: the row then differs in [last_heartbeat]
    only, which holds the time of the write, and the count starts again. *)
Theorem heartbeat_is_written_every_tenth_turn
    (json_loads : string -> option value) (ds : list Fs.directory)
    (svc : ServiceGamelog.LogReaderService) (db : Database)
    (row : gmap string cell) :
  ServiceGamelog.running svc = true ->
  ServiceGamelog.heartbeat_counter svc = 0 ->
  service_status db = Some row ->
  row !! "id" = Some (INTEGER 1) ->
  ((length ds < 10)%nat ->
   service_status (ServiceGamelog._run_loop json_loads ds (svc, db)).2
   = Some row)
  /\ (length ds = 10%nat ->
      service_status (ServiceGamelog._run_loop json_loads ds (svc, db)).2
      = Some (<["last_heartbeat" := TEXT (utcnow_isoformat (env db))]> row)
      /\ ServiceGamelog.heartbeat_counter
           (ServiceGamelog._run_loop json_loads ds (svc, db)).1 = 0).
Proof.
  intros Hrun Hzero Hrow Hid. split.
  - intros Hlen.
    by destruct (run_loop_quiet json_loads ds svc db row Hrun Hrow Hid)
      as (_ & Hquiet & _); [lia|].
  - intros Hlen.
    destruct (decide (ds = [])) as [->|Hne]; [done|].
    destruct (exists_last Hne) as (ds9 & d & ->).
    rewrite length_app in Hlen. simpl in Hlen.
    destruct (run_loop_quiet json_loads ds9 svc db row Hrun Hrow Hid)
      as (Henv & Hrow9 & Hrun9 & Hcount9); [lia|].
    rewrite run_loop_app by exact Hrun9.
    destruct (ServiceGamelog._run_loop json_loads ds9 (svc, db))
      as [svc9 db9]. cbn [fst snd] in *.
    cbn [ServiceGamelog._run_loop fst]. rewrite Hrun9.
    destruct (run_iteration_beat json_loads d svc9 db9 row Hrow9 Hid)
      as (_ & _ & Hbeat).
    destruct Hbeat as [Hstatus Hcount]; [lia|].
    by rewrite Hstatus, Hcount, Henv.
Qed.

Lemma heartbeat_witness :
  let svc := {| ServiceGamelog.monitor := Samples.monitor_on_yesterday;
                ServiceGamelog.running := true;
                ServiceGamelog.heartbeat_counter := 0 |} in
  let nine := repeat Samples.dir_untouched 9 in
  is_Some (service_status (fresh Samples.env0))
  /\ service_status
       (ServiceGamelog._run_loop Samples.sample_loads nine
          (svc, fresh Samples.env0)).2
     = service_status (fresh Samples.env0)
  /\ (service_status
        (ServiceGamelog._run_loop Samples.sample_loads
           (nine ++ [Samples.dir_touched]) (svc, fresh Samples.env0)).2
      ≫= (.!! "last_heartbeat"))
     = Some (TEXT "2025-11-29T12:00:00.000000").
Proof.
  intros svc nine.
  destruct (service_status (fresh Samples.env0)) as [row|] eqn:Hrow;
    [|by vm_compute in Hrow].
  assert (Hid : row !! "id" = Some (INTEGER 1)).
  { assert (service_status (fresh Samples.env0) ≫= (.!! "id")
            = Some (INTEGER 1)) as Hfresh by (by vm_compute).
    by rewrite Hrow in Hfresh. }
  split; [by eexists|]. split.
  - apply (heartbeat_is_written_every_tenth_turn Samples.sample_loads nine
             svc (fresh Samples.env0) row eq_refl eq_refl Hrow Hid).
    simpl. lia.
  - destruct (heartbeat_is_written_every_tenth_turn Samples.sample_loads
                (nine ++ [Samples.dir_touched])
                svc (fresh Samples.env0) row eq_refl eq_refl Hrow Hid)
      as [_ Hbeat].
    destruct (Hbeat eq_refl) as [-> _]. simpl.
    by rewrite lookup_insert_eq.
Defined.

(** ** Material configuration *)

Lemma config_of_name_kept (n name : string) (l : list Material.row) :
  n ≠ name ->
  filter (fun r => Material.material_name r = n)
         (filter (fun r => Material.material_name r ≠ name) l)
  = filter (fun r => Material.material_name r = n) l.
Proof.
  intros Hne. induction l as [|r l IH]; [done|].
  rewrite !filter_cons.
  destruct (decide (Material.material_name r ≠ name)) as [Hr|Hr].
  - rewrite filter_cons. by rewrite IH.
  - apply dec_stable in Hr. rewrite IH.
    destruct (decide (Material.material_name r = n)); [congruence|done].
Qed.

Lemma config_of_name_removed (name : string) (l : list Material.row) :
  filter (fun r => Material.material_name r = name)
         (filter (fun r => Material.material_name r ≠ name) l) = [].
Proof.
  induction l as [|r l IH]; [done|].
  rewrite filter_cons.
  destruct (decide (Material.material_name r ≠ name)) as [Hr|Hr]; [|done].
  rewrite filter_cons. by destruct (decide (Material.material_name r = name)).
Qed.

Lemma get_material_config_of_name (n : string) (t : Material.table) :
  n ≠ "" ->
  get_material_config (Some n) t
  = material_config_dict
      <$> take 1 (filter (fun r => Material.material_name r = n)
                         (Material.rows t)).
Proof.
  intros Hn. destruct n as [|c s]; [done|]. unfold get_material_config.
  by destruct (filter _ _).
Qed.

Lemma material_config_dict_name (r : Material.row) :
  getitem (material_config_dict r) "material_name"
  = Ok (PyStr (Material.material_name r)).
Proof. reflexivity. Qed.

Lemma listed_once (name : string) (new : Material.row)
    (l : list Material.row) :
  Material.material_name new = name ->
  exists before after : list value,
    material_config_dict
      <$> merge_sort by_material_name
            (filter (fun r => Material.material_name r ≠ name) l ++ [new])
    = (before ++ material_config_dict new :: after)%list
    /\ Forall (fun v => getitem v "material_name" ≠ Ok (PyStr name))
              (before ++ after)%list.
Proof.
  intros Hnew.
  set (kept := filter (fun r => Material.material_name r ≠ name) l).
  pose proof (merge_sort_Permutation by_material_name (kept ++ [new])) as Hp.
  assert (new ∈ merge_sort by_material_name (kept ++ [new])) as Hin.
  { rewrite Hp. set_solver. }
  apply list_elem_of_split in Hin as (r1 & r2 & Hsplit).
  rewrite Hsplit in Hp |- *.
  exists (material_config_dict <$> r1), (material_config_dict <$> r2).
  split; [by rewrite fmap_app|].
  rewrite <- fmap_app. apply Forall_fmap.
  assert (r1 ++ r2 ≡ₚ kept) as ->.
  { apply (Permutation_cons_inv (a := new)).
    rewrite Permutation_middle, Hp. by rewrite Permutation_app_comm. }
  apply Forall_forall. intros r [Hr _]%list_elem_of_filter. unfold compose.
  rewrite material_config_dict_name. congruence.
Qed.

(** Material configuration (core_database.py).  Saving a configuration
    under a name that is not empty, with a price that fits 64 bits, succeeds
    on any table; looking the name up then gives one dict, which holds a new
    id, the name, the percentage ([None] for a NaN, which SQLite stores as
    NULL), the price, the three flags as 0 or 1; the full listing holds
    that dict and no other entry of this name; after deleting the name
    its lookup is empty; and neither the save nor the deletion changes
    what the lookup of another name returns.  A price outside 64 bits
    raises OverflowError and leaves the table as it was. *)
Theorem saved_material_config_reads_back
    (name : string) (pct : float) (price : Z)
    (surface deepcore enabled : bool) (t : Material.table) :
  name ≠ "" ->
  let entry :=
    PyDict [("id", PyInt (Material.seq t + 1));
            ("material_name", PyStr name);
            ("min_percentage",
             if PrimFloat.is_nan pct then PyNone else PyFloat pct);
            ("target_price", PyInt price);
            ("track_surface", PyInt (Z.b2z surface));
            ("track_deepcore", PyInt (Z.b2z deepcore));
            ("enabled", PyInt (Z.b2z enabled))] in
  let saved :=
    save_material_config name pct price surface deepcore enabled t in
  let deleted := delete_material_config name saved.2 in
  (- 2 ^ 63 <= price < 2 ^ 63 ->
   saved.1 = Ok ()
   /\ get_material_config (Some name) saved.2 = [entry]
   /\ (exists before after : list value,
         get_material_config None saved.2 = (before ++ entry :: after)%list
         /\ Forall (fun v => getitem v "material_name" ≠ Ok (PyStr name))
                   (before ++ after)%list)
   /\ get_material_config (Some name) deleted.2 = []
   /\ forall other : string, other ≠ "" -> other ≠ name ->
        get_material_config (Some other) saved.2
        = get_material_config (Some other) t
        /\ get_material_config (Some other) deleted.2
           = get_material_config (Some other) t)
  /\ (¬ (- 2 ^ 63 <= price < 2 ^ 63) -> saved = (Raise OverflowError, t)).
Proof.
  intros Hname entry saved deleted. split.
  - intros Hfits. unfold deleted, saved, save_material_config.
    cbn [bind].
    assert ((- 2 ^ 63 <=? price) && (price <? 2 ^ 63) = true) as ->
      by (apply andb_true_iff; split; lia).
    cbn [fst snd]. split; [done|].
    rewrite !get_material_config_of_name by done.
    cbn [Material.rows delete_material_config snd].
    split; [|split; [|split]].
    + rewrite filter_app, config_of_name_removed, filter_cons. simpl.
      rewrite decide_True by done. unfold entry, material_config_dict. simpl.
      by destruct (PrimFloat.is_nan pct).
    + unfold get_material_config. cbn [Material.rows].
      destruct (listed_once name
                  {| Material.id := Material.seq t + 1;
                     Material.material_name := name;
                     Material.min_percentage :=
                       if PrimFloat.is_nan pct then NULL else REAL pct;
                     Material.target_price := INTEGER price;
                     Material.track_surface := INTEGER (Z.b2z surface);
                     Material.track_deepcore := INTEGER (Z.b2z deepcore);
                     Material.enabled := INTEGER (Z.b2z enabled) |}
                  (Material.rows t) eq_refl)
        as (before & after & Hlist & Hothers).
      exists before, after. split; [|done]. rewrite Hlist.
      unfold entry, material_config_dict. simpl.
      by destruct (PrimFloat.is_nan pct).
    + by rewrite config_of_name_removed.
    + intros other Hother Hne.
      rewrite !get_material_config_of_name by done.
      cbn [Material.rows].
      rewrite !config_of_name_kept by done.
      rewrite filter_app, config_of_name_kept by done.
      rewrite filter_cons, filter_nil. simpl.
      rewrite decide_False by done. by rewrite app_nil_r.
  - intros Hout. unfold saved, save_material_config. cbn [bind].
    assert ((- 2 ^ 63 <=? price) && (price <? 2 ^ 63) = false) as ->
      by (apply andb_false_iff; lia).
    by destruct (PrimFloat.is_nan pct).
Qed.

Lemma material_config_witness :
  let saved :=
    save_material_config "Platinum" 30 250000 true false true
      Samples.material_configs in
  saved.1 = Ok ()
  /\ get_material_config (Some "Platinum") saved.2
     = [PyDict [("id", PyInt 3); ("material_name", PyStr "Platinum");
                ("min_percentage", PyFloat 30);
                ("target_price", PyInt 250000);
                ("track_surface", PyInt 1); ("track_deepcore", PyInt 0);
                ("enabled", PyInt 1)]]
  /\ get_material_config (Some "Platinum")
       (delete_material_config "Platinum" saved.2).2 = []
  /\ get_material_config (Some "Painite") saved.2
     = get_material_config (Some "Painite") Samples.material_configs.
Proof.
  destruct (saved_material_config_reads_back "Platinum" 30 250000
              true false true Samples.material_configs ltac:(done))
    as [Hfits _].
  destruct (Hfits ltac:(lia)) as (Hok & Hget & _ & Hdel & Hothers).
  destruct (Hothers "Painite" ltac:(done) ltac:(done)) as [Hother _].
  done.
Defined.

(** ** The chat window *)

#[local] Instance by_journal_timestamp_trans :
  Transitive by_journal_timestamp.
Proof.
  intros x y z. unfold by_journal_timestamp.
  apply (transitivity (R := timestamp_le)).
Qed.

#[local] Instance by_journal_timestamp_total : Total by_journal_timestamp.
Proof. intros x y. unfold by_journal_timestamp. apply (total timestamp_le). Qed.

Lemma later_than_mono (a b : string) (r : Chat.row) :
  String.le a b -> later_than b r -> later_than a r.
Proof.
  unfold later_than. destruct (stamp r) as [s|]; [|done].
  intros Hab Hb Ha. apply Hb. by etrans.
Qed.

Lemma later_than_stamp (a : string) (r : Chat.row) :
  later_than a r -> exists s, stamp r = Some s /\ ¬ String.le s a.
Proof. unfold later_than. destruct (stamp r) as [s|]; [eauto|done]. Qed.

Lemma shown_foldl (w : WinChat.ChatMonitorWindow) (l : list Chat.row) :
  WinChat.shown (foldl WinChat.show_message w l)
  = (WinChat.shown w ++ l)%list.
Proof.
  revert w. induction l as [|r l IH]; intros w; simpl.
  - by rewrite app_nil_r.
  - rewrite IH. simpl. by rewrite <- app_assoc.
Qed.

(** After a batch sorted by time, none of it before [last_timestamp],
    [last_timestamp] is at or after what it was and at or after every
    message of the batch. *)
Lemma last_timestamp_foldl (w : WinChat.ChatMonitorWindow)
    (l : list Chat.row) :
  StronglySorted by_journal_timestamp l ->
  Forall (fun r => timestamp_le (Some (WinChat.last_timestamp w)) (stamp r))
         l ->
  String.le (WinChat.last_timestamp w)
            (WinChat.last_timestamp (foldl WinChat.show_message w l))
  /\ Forall (fun r => timestamp_le (stamp r)
               (Some (WinChat.last_timestamp
                        (foldl WinChat.show_message w l)))) l.
Proof.
  revert w. induction l as [|r l IH]; intros w Hsorted Hafter.
  - by split.
  - apply StronglySorted_inv in Hsorted as [Hsorted Hr].
    apply Forall_cons in Hafter as [Hafter_r Hafter].
    destruct (stamp r) as [s|] eqn:Hs; [|done]. simpl in Hafter_r.
    simpl foldl.
    destruct (IH (WinChat.show_message w r) Hsorted) as [Hgrow Hmax].
    { simpl. rewrite Hs. simpl.
      eapply Forall_impl; [exact Hr|]. intros r'.
      unfold by_journal_timestamp. by rewrite Hs. }
    simpl in Hgrow. rewrite Hs in Hgrow. simpl in Hgrow.
    split; [by etrans|].
    apply Forall_cons. split; [|done]. by rewrite Hs.
Qed.

Lemma later_than_after (a : string) (r : Chat.row) :
  later_than a r -> timestamp_le (Some a) (stamp r).
Proof.
  intros (s & -> & Hlt)%later_than_stamp. simpl.
  by destruct (total String.le a s).
Qed.
